(** * Acoustic diagnostic meter: level/peak extraction, classification,
      and the timed measurement session.

    The development embeds [services/audioService.ts] (class
    [AudioProcessor]), [types.ts], [constants.ts], the session handlers
    and effects of [App.tsx] and the drawing of
    [components/FrequencyVisualizer.tsx], and proves properties of them.

    Arithmetic model.  JavaScript numbers are modelled as the real numbers
    extended with [NaN] and the two infinities.  Rounding of IEEE doubles,
    overflow of an operation and the sign of zero are outside the model:
    every operation returns the exact real result.  A property that holds
    of the reals can therefore differ from the program where a value falls
    within a rounding error of a tie of [Math.round]. *)

From Stdlib Require Import Reals Lra Lia ZArith List String Ascii Bool.
From Stdlib Require Import Strings.Byte.
Import ListNotations.

Open Scope R_scope.

(* ================================================================== *)
(** * JavaScript numbers and the [Math] functions used by the program  *)
(* ================================================================== *)

Module JS.

Inductive number : Type :=
| NaN
| PInf
| NInf
| Fin (x : R).

Definition Rltb (x y : R) : bool := if Rlt_dec x y then true else false.
Definition Reqb (x y : R) : bool := if Req_dec_T x y then true else false.

(** [a + b] *)
Definition add (a b : number) : number :=
  match a, b with
  | NaN, _ | _, NaN => NaN
  | PInf, NInf | NInf, PInf => NaN
  | PInf, _ | _, PInf => PInf
  | NInf, _ | _, NInf => NInf
  | Fin x, Fin y => Fin (x + y)
  end.

(** unary [-a] *)
Definition neg (a : number) : number :=
  match a with
  | NaN => NaN
  | PInf => NInf
  | NInf => PInf
  | Fin x => Fin (- x)
  end.

(** [a - b] *)
Definition sub (a b : number) : number := add a (neg b).

(** The infinity that carries the sign of the finite, non-zero [x]. *)
Definition signed_inf (x : R) : number := if Rltb 0 x then PInf else NInf.

(** [a * b] *)
Definition mul (a b : number) : number :=
  match a, b with
  | NaN, _ | _, NaN => NaN
  | Fin x, Fin y => Fin (x * y)
  | Fin x, PInf | PInf, Fin x => if Reqb x 0 then NaN else signed_inf x
  | Fin x, NInf | NInf, Fin x => if Reqb x 0 then NaN else signed_inf (- x)
  | PInf, PInf | NInf, NInf => PInf
  | PInf, NInf | NInf, PInf => NInf
  end.

(** [a / b]; a zero divisor is taken as [+0]. *)
Definition div (a b : number) : number :=
  match a, b with
  | NaN, _ | _, NaN => NaN
  | Fin x, Fin y =>
      if Reqb y 0
      then (if Reqb x 0 then NaN else signed_inf x)
      else Fin (x / y)
  | Fin _, (PInf | NInf) => Fin 0
  | PInf, Fin y => if Rltb y 0 then NInf else PInf
  | NInf, Fin y => if Rltb y 0 then PInf else NInf
  | (PInf | NInf), (PInf | NInf) => NaN
  end.

(** [a < b]; every comparison with [NaN] is false. *)
Definition lt (a b : number) : bool :=
  match a, b with
  | NaN, _ | _, NaN => false
  | Fin x, Fin y => Rltb x y
  | _, NInf => false
  | NInf, _ => true
  | PInf, _ => false
  | Fin _, PInf => true
  end.

(** [a > b] *)
Definition gt (a b : number) : bool := lt b a.

(** ToBoolean on a number: [0] and [NaN] are falsy. *)
Definition truthy (a : number) : bool :=
  match a with
  | NaN => false
  | Fin x => negb (Reqb x 0)
  | PInf | NInf => true
  end.

(** [a || b] on numbers. *)
Definition or_else (a b : number) : number := if truthy a then a else b.

(** [Math.sqrt] *)
Definition Math_sqrt (a : number) : number :=
  match a with
  | NaN | NInf => NaN
  | PInf => PInf
  | Fin x => if Rltb x 0 then NaN else Fin (sqrt x)
  end.

(** [Math.log10] *)
Definition Math_log10 (a : number) : number :=
  match a with
  | NaN | NInf => NaN
  | PInf => PInf
  | Fin x =>
      if Rltb x 0 then NaN
      else if Reqb x 0 then NInf
      else Fin (ln x / ln 10)
  end.

(** [Math.round]: the integer nearest to the argument, ties going up,
    which is [floor (x + 0.5)]. *)
Definition Math_round (a : number) : number :=
  match a with
  | Fin x => Fin (IZR (Int_part (x + 0.5)))
  | other => other
  end.

(** Numbers read out of integer-valued places. *)
Definition of_Z (z : Z) : number := Fin (IZR z).
Definition of_nat (n : nat) : number := Fin (INR n).

(** An element of a [Uint8Array]. *)
Definition byteZ (b : byte) : Z := Z.of_N (Byte.to_N b).
Definition of_byte (b : byte) : number := of_Z (byteZ b).

(** ** [parseFloat]

    The argument is trimmed of leading white space; the longest prefix that
    is a [StrDecimalLiteral] is converted ([Infinity], or digits with an
    optional fraction and an optional exponent, after an optional sign);
    when there is no such prefix the result is [NaN].  A text is held as
    its UTF-8 bytes, so the white space of ECMAScript outside ASCII takes
    two or three bytes.  A literal at or beyond [2^1024 - 2^970], where
    doubles round to infinity, gives [Infinity]. *)

Definition isWhiteSpace (c : ascii) : bool :=
  let n := nat_of_ascii c in
  (n =? 32)%nat || (n =? 9)%nat || (n =? 10)%nat || (n =? 11)%nat
  || (n =? 12)%nat || (n =? 13)%nat.

(** U+00A0. *)
Definition isWhiteSpace2 (a b : ascii) : bool :=
  ((nat_of_ascii a =? 194) && (nat_of_ascii b =? 160))%nat.

(** U+FEFF, U+1680, U+2000 to U+200A, U+2028, U+2029, U+202F, U+205F and
    U+3000. *)
Definition isWhiteSpace3 (a b c : ascii) : bool :=
  let x := nat_of_ascii a in
  let y := nat_of_ascii b in
  let z := nat_of_ascii c in
  ((x =? 239) && (y =? 187) && (z =? 191))%nat
  || ((x =? 225) && (y =? 154) && (z =? 128))%nat
  || ((x =? 226) && (y =? 128)
      && (((128 <=? z) && (z <=? 138)) || (z =? 168) || (z =? 169)
          || (z =? 175)))%nat
  || ((x =? 226) && (y =? 129) && (z =? 159))%nat
  || ((x =? 227) && (y =? 128) && (z =? 128))%nat.

Fixpoint trimStart (s : string) : string :=
  match s with
  | String a rest =>
      if isWhiteSpace a then trimStart rest
      else
        match rest with
        | String b rest2 =>
            if isWhiteSpace2 a b then trimStart rest2
            else
              match rest2 with
              | String c rest3 =>
                  if isWhiteSpace3 a b c then trimStart rest3 else s
              | EmptyString => s
              end
        | EmptyString => s
        end
  | EmptyString => s
  end.

Definition digitValue (c : ascii) : option Z :=
  let n := nat_of_ascii c in
  if ((48 <=? n) && (n <=? 57))%nat then Some (Z.of_nat (n - 48)) else None.

(** Reads the digits at the front of [s] after the already read value
    [acc]: the value, how many digits were read, and the rest. *)
Fixpoint readDigits (s : string) (acc : Z) (count : nat) : Z * nat * string :=
  match s with
  | String c rest =>
      match digitValue c with
      | Some d => readDigits rest (10 * acc + d)%Z (S count)
      | None => (acc, count, s)
      end
  | EmptyString => (acc, count, s)
  end.

(** The [ExponentPart] at the front of [s], 0 when there is none. *)
Definition readExponent (s : string) : Z :=
  match s with
  | String c rest =>
      if (Ascii.eqb c "e" || Ascii.eqb c "E")%bool then
        match rest with
        | String sg rest' =>
            if Ascii.eqb sg "-" then
              let '(e, n, _) := readDigits rest' 0%Z 0%nat in
              if (n =? 0)%nat then 0%Z else (- e)%Z
            else if Ascii.eqb sg "+" then
              let '(e, n, _) := readDigits rest' 0%Z 0%nat in
              if (n =? 0)%nat then 0%Z else e
            else
              let '(e, _, _) := readDigits rest 0%Z 0%nat in e
        | EmptyString => 0%Z
        end
      else 0%Z
  | EmptyString => 0%Z
  end.

(** [StrUnsignedDecimalLiteral] at the front of [s], apart from
    [Infinity]: mantissa and decimal exponent, [None] when no digit is
    found. *)
Definition readUnsigned (s : string) : option (Z * Z) :=
  let '(ip, ni, afterInt) := readDigits s 0%Z 0%nat in
  match afterInt with
  | String "."%char afterDot =>
      let '(m, nf, afterFrac) := readDigits afterDot ip 0%nat in
      if ((ni =? 0) && (nf =? 0))%nat then None
      else Some (m, (readExponent afterFrac - Z.of_nat nf)%Z)
  | _ =>
      if (ni =? 0)%nat then None else Some (ip, readExponent afterInt)
  end.

Definition startsWithInfinity (s : string) : bool :=
  String.prefix "Infinity" s.

Definition decimalValue (m e : Z) : R := IZR m * powerRZ 10 e.

(** [m * 10^e] is at or beyond the least value that rounds to infinity. *)
Definition overflows (m e : Z) : bool :=
  let limit := (2 ^ 1024 - 2 ^ 970)%Z in
  if (0 <=? e)%Z
  then (limit <=? m * 10 ^ e)%Z
  else (limit * 10 ^ (- e) <=? m)%Z.

Definition parseFloat (input : string) : number :=
  let s := trimStart input in
  let '(negative, body) :=
    match s with
    | String "-"%char rest => (true, rest)
    | String "+"%char rest => (false, rest)
    | _ => (false, s)
    end in
  let unsigned :=
    if startsWithInfinity body then PInf
    else match readUnsigned body with
         | Some (m, e) =>
             if overflows m e then PInf else Fin (decimalValue m e)
         | None => NaN
         end in
  if negative then neg unsigned else unsigned.

End JS.

Import JS.

(* ================================================================== *)
(** * [types.ts]                                                       *)
(* ================================================================== *)

Inductive DiagnosticStatus : Type :=
| NORMAL
| ABNORMAL
| IDLE.

Module MachineStandard.
Record t : Type := Build {
  id : string;
  name : string;
  category : string;
  maxDb : number;
  peakFreqRange : number * number
}.
End MachineStandard.

Module AudioMetrics.
Record t : Type := Build {
  db : number;
  peakFrequency : number;
  isStable : bool;
  status : DiagnosticStatus
}.
End AudioMetrics.

(** The two numbers of a record are [None] when they hold [null]: the
    declared type is [number], but [JSON.parse] gives [null] where
    [JSON.stringify] met a number that is not finite. *)
Module HistoryEntry.
Record t : Type := Build {
  id : string;
  machineId : string;
  machineName : string;
  timestamp : Z;
  status : DiagnosticStatus;
  db : option number;
  peakFrequency : option number
}.
End HistoryEntry.

(* ================================================================== *)
(** * [constants.ts]                                                   *)
(* ================================================================== *)

Definition MACHINE_STANDARDS : list MachineStandard.t :=
  [ MachineStandard.Build "m1" "Washing Machine - Spin Cycle"
      "Home Appliance" (Fin 72) (Fin 50, Fin 200);
    MachineStandard.Build "m2" "Industrial Conveyor Belt"
      "Manufacturing" (Fin 85) (Fin 100, Fin 500);
    MachineStandard.Build "m3" "Pneumatic Drill (Stationary)"
      "Construction" (Fin 105) (Fin 800, Fin 2000);
    MachineStandard.Build "m4" "Centrifugal Pump (Medium)"
      "Utilities" (Fin 78) (Fin 200, Fin 600);
    MachineStandard.Build "m5" "HVAC Air Handler"
      "Facilities" (Fin 65) (Fin 60, Fin 150) ]%string.

Definition CALIBRATION_STORAGE_KEY : string := "acoustic_tool_calibration_v1".
Definition DEFAULT_CALIBRATION_OFFSET : number := Fin (-20).

(* ================================================================== *)
(** * The platform: what the program asks of the browser               *)
(* ================================================================== *)

Module Platform.

Record MediaStream : Type := {
  streamId : nat
}.

(** The value [localStorage] keeps under a key: a text, or the text
    [JSON.stringify] makes of a history, known by the list it was made
    from.  Reading it back is [Persistence.JSON_parse]. *)
Inductive StoredValue : Type :=
| Text (s : string)
| Json (h : list HistoryEntry.t).

(** The calls the program makes that act on the outside, in the order it
    makes them. *)
Inductive Effect : Type :=
| alert (message : string)
| setItem (key : string) (value : StoredValue)
| removeItem (key : string)
| stopTracks (s : MediaStream)
| closeContext
| cancelAnimationFrame (handle : positive).

(** What [crypto.randomUUID()], [Date.now()] and
    [requestAnimationFrame] answer when they are called. *)
Record Fresh : Type := {
  randomUUID : string;
  now : Z;
  animationFrame : positive
}.

End Platform.

Import Platform.

(* ================================================================== *)
(** * [services/audioService.ts]: class [AudioProcessor]               *)
(* ================================================================== *)

Module AudioService.

(** The Web Audio objects the processor holds.  An [AnalyserNode] is known
    by its transform size and by the bytes it currently hands out: what
    [getByteFrequencyData] and [getByteTimeDomainData] write at each index
    of the array they are given. *)
Record AudioContext : Type := {
  sampleRate : R
}.

Record AnalyserNode : Type := {
  fftSize : nat;
  smoothingTimeConstant : R;
  frequencyBytes : nat -> byte;
  timeDomainBytes : nat -> byte
}.

Inductive BiquadFilterType : Type := highpass | lowpass | peaking.

Record BiquadFilterNode : Type := {
  type : BiquadFilterType;
  frequency : R;
  gain : R
}.

Definition frequencyBinCount (a : AnalyserNode) : nat := (fftSize a / 2)%nat.

(** [new Uint8Array(n)] filled by [getByteFrequencyData]. *)
Definition getByteFrequencyData (a : AnalyserNode) (n : nat) : list byte :=
  map (fun i => if (i <? frequencyBinCount a)%nat then frequencyBytes a i else x00)
      (seq 0 n).

(** [new Uint8Array(n)] filled by [getByteTimeDomainData]. *)
Definition getByteTimeDomainData (a : AnalyserNode) (n : nat) : list byte :=
  map (fun i => if (i <? fftSize a)%nat then timeDomainBytes a i else x00)
      (seq 0 n).

(** The fields of the class; [source] is the node made from the stream
    and is known by that stream. *)
Record AudioProcessor : Type := {
  audioCtx : option AudioContext;
  analyser : option AnalyserNode;
  stream : option MediaStream;
  source : option MediaStream;
  aWeightingFilter : list BiquadFilterNode;
  calibrationOffset : number
}.

(** [constructor(offset)] *)
Definition new (offset : number) : AudioProcessor :=
  {| audioCtx := None; analyser := None; stream := None; source := None;
     aWeightingFilter := []; calibrationOffset := offset |}.

(** What the platform answers during [initialize]: the sample rate of the
    context it creates, the stream [getUserMedia] resolves to ([None] when
    the promise is rejected) and the bytes of the analyser it creates. *)
Record Device : Type := {
  deviceSampleRate : R;
  userMedia : option MediaStream;
  deviceFrequencyBytes : nat -> byte;
  deviceTimeDomainBytes : nat -> byte
}.

Definition hpf1 : BiquadFilterNode :=
  {| type := highpass; frequency := 20.6; gain := 0 |}.
Definition hpf2 : BiquadFilterNode :=
  {| type := highpass; frequency := 107.7; gain := 0 |}.
Definition lpf1 : BiquadFilterNode :=
  {| type := lowpass; frequency := 12200; gain := 0 |}.
Definition notch : BiquadFilterNode :=
  {| type := peaking; frequency := 2500; gain := 1.2 |}.

(** [initialize()]: [None] when [getUserMedia] rejects and the promise of
    [initialize] is rejected with it. *)
Definition initialize (this : AudioProcessor) (dev : Device)
  : option AudioProcessor :=
  let ctx := {| sampleRate := deviceSampleRate dev |} in
  match userMedia dev with
  | None => None
  | Some s =>
      let an := {| fftSize := 2048;
                   smoothingTimeConstant := 0.5;
                   frequencyBytes := deviceFrequencyBytes dev;
                   timeDomainBytes := deviceTimeDomainBytes dev |} in
      Some {| audioCtx := Some ctx;
              analyser := Some an;
              stream := Some s;
              source := Some s;
              aWeightingFilter := [hpf1; hpf2; lpf1; notch];
              calibrationOffset := calibrationOffset this |}
  end.

(** [setCalibration(offset)] *)
Definition setCalibration (this : AudioProcessor) (offset : number)
  : AudioProcessor :=
  {| audioCtx := audioCtx this; analyser := analyser this;
     stream := stream this; source := source this;
     aWeightingFilter := aWeightingFilter this;
     calibrationOffset := offset |}.

(** The loop of lines 97-101: [sum += val * val] with
    [val = (timeData[i] - 128) / 128]. *)
Definition sumSquares (timeData : list byte) : number :=
  fold_left
    (fun sum t =>
       let val := div (sub (of_byte t) (Fin 128)) (Fin 128) in
       add sum (mul val val))
    timeData (Fin 0).

(** The loop of lines 107-114 from index [i] on: the pair
    [(maxVal, maxIndex)]. *)
Fixpoint peakLoop (dataArray : list byte) (i maxVal maxIndex : Z) : Z * Z :=
  match dataArray with
  | [] => (maxVal, maxIndex)
  | d :: rest =>
      if (byteZ d >? maxVal)%Z
      then peakLoop rest (i + 1)%Z (byteZ d) i
      else peakLoop rest (i + 1)%Z maxVal maxIndex
  end.

(** The diagnostic logic of lines 117-123. *)
Definition diagnose (db peakFrequency : number) (maxVal : Z)
    (standard : MachineStandard.t) : DiagnosticStatus :=
  let dbExceeded := gt db (MachineStandard.maxDb standard) in
  let freqAbnormal :=
    gt peakFrequency (snd (MachineStandard.peakFreqRange standard))
    || lt peakFrequency (fst (MachineStandard.peakFreqRange standard)) in
  if dbExceeded || ((maxVal >? 200)%Z && freqAbnormal)
  then ABNORMAL
  else NORMAL.

(** The values [getMetrics] computes before it rounds them. *)
Definition rmsOf (timeData : list byte) : number :=
  Math_sqrt (div (sumSquares timeData) (of_nat (List.length timeData))).

Definition dbOf (rms calibration : number) : number :=
  add (add (mul (Fin 20) (Math_log10 (or_else rms (Fin 1e-6)))) (Fin 100))
      calibration.

Definition peakFrequencyOf (maxIndex : Z) (ctx : AudioContext)
    (an : AnalyserNode) : number :=
  mul (of_Z maxIndex) (div (Fin (sampleRate ctx)) (of_nat (fftSize an))).

(** [getMetrics(standard)] *)
Definition getMetrics (this : AudioProcessor) (standard : MachineStandard.t)
  : AudioMetrics.t :=
  match analyser this, audioCtx this with
  | Some an, Some ctx =>
      let bufferLength := frequencyBinCount an in
      let dataArray := getByteFrequencyData an bufferLength in
      let timeData := getByteTimeDomainData an (fftSize an) in
      let rms := rmsOf timeData in
      let db := dbOf rms (calibrationOffset this) in
      let '(maxVal, maxIndex) := peakLoop dataArray 0 (-1) (-1) in
      let peakFrequency := peakFrequencyOf maxIndex ctx an in
      let status := diagnose db peakFrequency maxVal standard in
      {| AudioMetrics.db := div (Math_round (mul db (Fin 10))) (Fin 10);
         AudioMetrics.peakFrequency := Math_round peakFrequency;
         AudioMetrics.isStable := gt rms (Fin 0.001);
         AudioMetrics.status := status |}
  | _, _ =>
      {| AudioMetrics.db := Fin 0;
         AudioMetrics.peakFrequency := Fin 0;
         AudioMetrics.isStable := false;
         AudioMetrics.status := IDLE |}
  end.

(** [stop()]: the calls it makes. *)
Definition stop (this : AudioProcessor) : list Effect :=
  (match stream this with Some s => [stopTracks s] | None => [] end)
  ++ (match audioCtx this with Some _ => [closeContext] | None => [] end).

(** The audio graph moves on: the analyser hands out new bytes. *)
Definition capture (this : AudioProcessor) (freq time : nat -> byte)
  : AudioProcessor :=
  {| audioCtx := audioCtx this;
     analyser :=
       match analyser this with
       | Some an => Some {| fftSize := fftSize an;
                            smoothingTimeConstant := smoothingTimeConstant an;
                            frequencyBytes := freq;
                            timeDomainBytes := time |}
       | None => None
       end;
     stream := stream this; source := source this;
     aWeightingFilter := aWeightingFilter this;
     calibrationOffset := calibrationOffset this |}.

(** [getFrequencyData()] *)
Definition getFrequencyData (this : AudioProcessor) : list byte :=
  match analyser this with
  | None => []
  | Some an => getByteFrequencyData an (frequencyBinCount an)
  end.

End AudioService.

(* ================================================================== *)
(** * [App.tsx]: the state of the component and its handlers           *)
(* ================================================================== *)

Module App.

Import AudioService.

Definition HISTORY_STORAGE_KEY : string := "acoustic_tool_history_v1".

(** The [useState] cells and [useRef] cells of [App], the calls made on
    the platform so far, and the processors of the calls of
    [startMeasurement] that wait at [await processor.initialize()].
    [activeTab] and [showSettings] only choose what is drawn and are left
    out. *)
Record State : Type := {
  selectedMachine : option MachineStandard.t;
  isMeasuring : bool;
  hasFinishedTest : bool;
  metrics : AudioMetrics.t;
  freqData : list byte;
  calibrationOffset : number;
  history : list HistoryEntry.t;
  countdown : option Z;
  audioProcessorRef : option AudioProcessor;
  animationFrameRef : option positive;
  metricsRef : AudioMetrics.t;
  effects : list Effect;
  pendingStarts : list AudioProcessor
}.

Definition idleMetrics : AudioMetrics.t :=
  {| AudioMetrics.db := Fin 0;
     AudioMetrics.peakFrequency := Fin 0;
     AudioMetrics.isStable := false;
     AudioMetrics.status := IDLE |}.

(** The state at the first render, from what [localStorage] holds under the
    two keys.  An empty text is falsy, as [null] is. *)
Definition initialState (savedCalibration : option string)
    (savedHistory : option (list HistoryEntry.t)) : State :=
  {| selectedMachine := None;
     isMeasuring := false;
     hasFinishedTest := false;
     metrics := idleMetrics;
     freqData := [];
     calibrationOffset :=
       match savedCalibration with
       | Some (String c rest) => parseFloat (String c rest)
       | _ => DEFAULT_CALIBRATION_OFFSET
       end;
     history := match savedHistory with Some h => h | None => [] end;
     countdown := None;
     audioProcessorRef := None;
     animationFrameRef := None;
     metricsRef := idleMetrics;
     effects := [];
     pendingStarts := [] |}.

(** ** Setters *)

Definition setSelectedMachine (v : option MachineStandard.t) (st : State) :=
  {| selectedMachine := v; isMeasuring := isMeasuring st;
     hasFinishedTest := hasFinishedTest st; metrics := metrics st;
     freqData := freqData st; calibrationOffset := calibrationOffset st;
     history := history st; countdown := countdown st;
     audioProcessorRef := audioProcessorRef st;
     animationFrameRef := animationFrameRef st;
     metricsRef := metricsRef st; effects := effects st;
     pendingStarts := pendingStarts st |}.

Definition setIsMeasuring (v : bool) (st : State) :=
  {| selectedMachine := selectedMachine st; isMeasuring := v;
     hasFinishedTest := hasFinishedTest st; metrics := metrics st;
     freqData := freqData st; calibrationOffset := calibrationOffset st;
     history := history st; countdown := countdown st;
     audioProcessorRef := audioProcessorRef st;
     animationFrameRef := animationFrameRef st;
     metricsRef := metricsRef st; effects := effects st;
     pendingStarts := pendingStarts st |}.

Definition setHasFinishedTest (v : bool) (st : State) :=
  {| selectedMachine := selectedMachine st; isMeasuring := isMeasuring st;
     hasFinishedTest := v; metrics := metrics st;
     freqData := freqData st; calibrationOffset := calibrationOffset st;
     history := history st; countdown := countdown st;
     audioProcessorRef := audioProcessorRef st;
     animationFrameRef := animationFrameRef st;
     metricsRef := metricsRef st; effects := effects st;
     pendingStarts := pendingStarts st |}.

Definition setMetrics (v : AudioMetrics.t) (st : State) :=
  {| selectedMachine := selectedMachine st; isMeasuring := isMeasuring st;
     hasFinishedTest := hasFinishedTest st; metrics := v;
     freqData := freqData st; calibrationOffset := calibrationOffset st;
     history := history st; countdown := countdown st;
     audioProcessorRef := audioProcessorRef st;
     animationFrameRef := animationFrameRef st;
     metricsRef := metricsRef st; effects := effects st;
     pendingStarts := pendingStarts st |}.

Definition setFreqData (v : list byte) (st : State) :=
  {| selectedMachine := selectedMachine st; isMeasuring := isMeasuring st;
     hasFinishedTest := hasFinishedTest st; metrics := metrics st;
     freqData := v; calibrationOffset := calibrationOffset st;
     history := history st; countdown := countdown st;
     audioProcessorRef := audioProcessorRef st;
     animationFrameRef := animationFrameRef st;
     metricsRef := metricsRef st; effects := effects st;
     pendingStarts := pendingStarts st |}.

Definition setCalibrationOffset (v : number) (st : State) :=
  {| selectedMachine := selectedMachine st; isMeasuring := isMeasuring st;
     hasFinishedTest := hasFinishedTest st; metrics := metrics st;
     freqData := freqData st; calibrationOffset := v;
     history := history st; countdown := countdown st;
     audioProcessorRef := audioProcessorRef st;
     animationFrameRef := animationFrameRef st;
     metricsRef := metricsRef st; effects := effects st;
     pendingStarts := pendingStarts st |}.

Definition setHistory (v : list HistoryEntry.t) (st : State) :=
  {| selectedMachine := selectedMachine st; isMeasuring := isMeasuring st;
     hasFinishedTest := hasFinishedTest st; metrics := metrics st;
     freqData := freqData st; calibrationOffset := calibrationOffset st;
     history := v; countdown := countdown st;
     audioProcessorRef := audioProcessorRef st;
     animationFrameRef := animationFrameRef st;
     metricsRef := metricsRef st; effects := effects st;
     pendingStarts := pendingStarts st |}.

Definition setCountdown (v : option Z) (st : State) :=
  {| selectedMachine := selectedMachine st; isMeasuring := isMeasuring st;
     hasFinishedTest := hasFinishedTest st; metrics := metrics st;
     freqData := freqData st; calibrationOffset := calibrationOffset st;
     history := history st; countdown := v;
     audioProcessorRef := audioProcessorRef st;
     animationFrameRef := animationFrameRef st;
     metricsRef := metricsRef st; effects := effects st;
     pendingStarts := pendingStarts st |}.

Definition setAudioProcessorRef (v : option AudioProcessor) (st : State) :=
  {| selectedMachine := selectedMachine st; isMeasuring := isMeasuring st;
     hasFinishedTest := hasFinishedTest st; metrics := metrics st;
     freqData := freqData st; calibrationOffset := calibrationOffset st;
     history := history st; countdown := countdown st;
     audioProcessorRef := v;
     animationFrameRef := animationFrameRef st;
     metricsRef := metricsRef st; effects := effects st;
     pendingStarts := pendingStarts st |}.

Definition setAnimationFrameRef (v : option positive) (st : State) :=
  {| selectedMachine := selectedMachine st; isMeasuring := isMeasuring st;
     hasFinishedTest := hasFinishedTest st; metrics := metrics st;
     freqData := freqData st; calibrationOffset := calibrationOffset st;
     history := history st; countdown := countdown st;
     audioProcessorRef := audioProcessorRef st;
     animationFrameRef := v;
     metricsRef := metricsRef st; effects := effects st;
     pendingStarts := pendingStarts st |}.

Definition setMetricsRef (v : AudioMetrics.t) (st : State) :=
  {| selectedMachine := selectedMachine st; isMeasuring := isMeasuring st;
     hasFinishedTest := hasFinishedTest st; metrics := metrics st;
     freqData := freqData st; calibrationOffset := calibrationOffset st;
     history := history st; countdown := countdown st;
     audioProcessorRef := audioProcessorRef st;
     animationFrameRef := animationFrameRef st;
     metricsRef := v; effects := effects st;
     pendingStarts := pendingStarts st |}.

Definition setPendingStarts (v : list AudioProcessor) (st : State) :=
  {| selectedMachine := selectedMachine st; isMeasuring := isMeasuring st;
     hasFinishedTest := hasFinishedTest st; metrics := metrics st;
     freqData := freqData st; calibrationOffset := calibrationOffset st;
     history := history st; countdown := countdown st;
     audioProcessorRef := audioProcessorRef st;
     animationFrameRef := animationFrameRef st;
     metricsRef := metricsRef st; effects := effects st;
     pendingStarts := v |}.

(** Makes the calls [es] on the platform, after those already made. *)
Definition perform (es : list Effect) (st : State) :=
  {| selectedMachine := selectedMachine st; isMeasuring := isMeasuring st;
     hasFinishedTest := hasFinishedTest st; metrics := metrics st;
     freqData := freqData st; calibrationOffset := calibrationOffset st;
     history := history st; countdown := countdown st;
     audioProcessorRef := audioProcessorRef st;
     animationFrameRef := animationFrameRef st;
     metricsRef := metricsRef st; effects := effects st ++ es;
     pendingStarts := pendingStarts st |}.

(** ** Handlers *)

(** [saveToHistory(machine, finalMetrics)] *)
Definition saveToHistory (fresh : Fresh) (machine : MachineStandard.t)
    (finalMetrics : AudioMetrics.t) (st : State) : State :=
  let newEntry :=
    {| HistoryEntry.id := randomUUID fresh;
       HistoryEntry.machineId := MachineStandard.id machine;
       HistoryEntry.machineName := MachineStandard.name machine;
       HistoryEntry.timestamp := now fresh;
       HistoryEntry.status := AudioMetrics.status finalMetrics;
       HistoryEntry.db := Some (AudioMetrics.db finalMetrics);
       HistoryEntry.peakFrequency :=
         Some (AudioMetrics.peakFrequency finalMetrics) |} in
  let updatedHistory := firstn 50 (newEntry :: history st) in
  perform [setItem HISTORY_STORAGE_KEY (Json updatedHistory)]
    (setHistory updatedHistory st).

(** [startMeasurement()] up to [await processor.initialize()] (lines
    58-62): the processor is constructed with the calibration of this
    render and waits for [getUserMedia]. *)
Definition startMeasurement (st : State) : State :=
  match selectedMachine st with
  | None => st
  | Some _ =>
      let processor := AudioService.new (calibrationOffset st) in
      setPendingStarts (pendingStarts st ++ [processor]) st
  end.

(** The rest of [startMeasurement()] (lines 63-69), run when the
    [initialize] of the [k]-th waiting processor settles on what [dev]
    answers; any events may have been handled since the call. *)
Definition startSettled (k : nat) (dev : Device) (st : State) : State :=
  match nth_error (pendingStarts st) k with
  | None => st
  | Some processor =>
      let st1 :=
        setPendingStarts
          (firstn k (pendingStarts st) ++ skipn (S k) (pendingStarts st)) st in
      match initialize processor dev with
      | Some processor' =>
          setCountdown (Some 10%Z)
            (setHasFinishedTest false
               (setIsMeasuring true
                  (setAudioProcessorRef (Some processor') st1)))
      | None =>
          perform
            [alert "Microphone access is required for acoustic diagnostics."]
            st1
      end
  end.

(** [stopMeasurement()] *)
Definition stopMeasurement (fresh : Fresh) (st : State) : State :=
  let st1 :=
    match audioProcessorRef st with
    | Some processor =>
        setAudioProcessorRef None (perform (AudioService.stop processor) st)
    | None => st
    end in
  let st2 :=
    match isMeasuring st, selectedMachine st with
    | true, Some machine => saveToHistory fresh machine (metricsRef st1) st1
    | _, _ => st1
    end in
  let st3 :=
    setHasFinishedTest true (setCountdown None (setIsMeasuring false st2)) in
  match animationFrameRef st3 with
  | Some handle =>
      setAnimationFrameRef None (perform [cancelAnimationFrame handle] st3)
  | None => st3
  end.

(** [resetToMenu()] *)
Definition resetToMenu (fresh : Fresh) (st : State) : State :=
  setMetrics idleMetrics
    (setHasFinishedTest false
       (setSelectedMachine None (stopMeasurement fresh st))).

(** [clearHistory()], with the answer given to [confirm]. *)
Definition clearHistory (confirmed : bool) (st : State) : State :=
  if confirmed
  then perform [removeItem HISTORY_STORAGE_KEY] (setHistory [] st)
  else st.

(** The callback [update] of the polling effect (lines 111-126), run for
    one animation frame: the analyser then hands out [freq] and [time], and
    [requestAnimationFrame] answers [handle]. *)
Definition update (freq time : nat -> byte) (handle : positive) (st : State)
  : State :=
  match isMeasuring st, selectedMachine st, audioProcessorRef st with
  | true, Some machine, Some processor =>
      let processor' := capture processor freq time in
      let newMetrics := getMetrics processor' machine in
      setAnimationFrameRef (Some handle)
        (setFreqData (getFrequencyData processor')
           (setMetrics newMetrics
              (setAudioProcessorRef (Some processor') st)))
  | _, _, _ => st
  end.

(** The same callback called by the polling effect itself (line 121),
    on the bytes the analyser holds at that moment. *)
Definition updateNow (handle : positive) (st : State) : State :=
  match audioProcessorRef st, selectedMachine st with
  | Some processor, Some machine =>
      setAnimationFrameRef (Some handle)
        (setFreqData (getFrequencyData processor)
           (setMetrics (getMetrics processor machine) st))
  | _, _ => st
  end.

(** The callback of the one-second interval (line 131); the interval is
    set only while [countdown > 0]. *)
Definition tick (st : State) : State :=
  match countdown st with
  | Some c => if (c >? 0)%Z then setCountdown (Some (c - 1)%Z) st else st
  | None => st
  end.

(** [handleCalibrationChange(val)] *)
Definition handleCalibrationChange (val : string) (st : State) : State :=
  let num := parseFloat val in
  let st1 :=
    perform [setItem CALIBRATION_STORAGE_KEY (Text val)]
      (setCalibrationOffset num st) in
  match audioProcessorRef st1 with
  | Some processor =>
      setAudioProcessorRef (Some (setCalibration processor num)) st1
  | None => st1
  end.

(** ** Effects run after a render *)

(** Lines 38-40: [metricsRef.current = metrics]. *)
Definition metricsEffect (st : State) : State := setMetricsRef (metrics st) st.

(** Two selections are the same object; the objects of the catalog are
    told apart by their [id]. *)
Definition sameSelection (a b : option MachineStandard.t) : bool :=
  match a, b with
  | None, None => true
  | Some x, Some y => String.eqb (MachineStandard.id x) (MachineStandard.id y)
  | _, _ => false
  end.

(** Lines 111-126.  The effect runs when [isMeasuring] or
    [selectedMachine] differs from the render before, [prev]: first the
    cleanup of its earlier run (lines 123-125), then its body, which calls
    [update] at once. *)
Definition pollingEffect (fresh : Fresh) (prev st : State) : State :=
  if Bool.eqb (isMeasuring prev) (isMeasuring st)
     && sameSelection (selectedMachine prev) (selectedMachine st)
  then st
  else
    let st1 :=
      match animationFrameRef st with
      | Some handle => perform [cancelAnimationFrame handle] st
      | None => st
      end in
    match isMeasuring st1, selectedMachine st1, audioProcessorRef st1 with
    | true, Some _, Some _ => updateNow (animationFrame fresh) st1
    | _, _, _ => st1
    end.

(** Lines 132-134: [else if (countdown === 0) stopMeasurement()]. *)
Definition countdownEffect (fresh : Fresh) (st : State) : State :=
  match countdown st with
  | Some 0%Z => stopMeasurement fresh st
  | _ => st
  end.

(** The effects of one render of the state [st], the render before having
    been of [prev], in the order the component declares them. *)
Definition commit (fresh : Fresh) (prev st : State) : State :=
  countdownEffect fresh (pollingEffect fresh prev (metricsEffect st)).

(** The render that follows a handler and the render that the effects of
    the first ask for; after it no effect has anything left to do. *)
Definition afterRender (fresh : Fresh) (prev st : State) : State :=
  let st1 := commit fresh prev st in
  commit fresh st st1.

(** ** Events *)

Inductive Event : Type :=
| SelectMachine (m : MachineStandard.t)
| StartMeasurement
| StartSettled (k : nat) (dev : Device)
| StopMeasurement
| ResetToMenu
| ClearHistory (confirmed : bool)
| AnimationFrame (freq time : nat -> byte) (handle : positive)
| TimerTick
| CalibrationChange (val : string).

Definition handle (fresh : Fresh) (ev : Event) (st : State) : State :=
  match ev with
  | SelectMachine m => setSelectedMachine (Some m) st
  | StartMeasurement => startMeasurement st
  | StartSettled k dev => startSettled k dev st
  | StopMeasurement => stopMeasurement fresh st
  | ResetToMenu => resetToMenu fresh st
  | ClearHistory confirmed => clearHistory confirmed st
  | AnimationFrame freq time h => update freq time h st
  | TimerTick => tick st
  | CalibrationChange val => handleCalibrationChange val st
  end.

(** One event: its handler, then the renders and the effects after it. *)
Definition step (st : State) (occurrence : Fresh * Event) : State :=
  afterRender (fst occurrence) st
    (handle (fst occurrence) (snd occurrence) st).

Definition run (occurrences : list (Fresh * Event)) (st : State) : State :=
  fold_left step occurrences st.

(** ** Observations *)

(** The histories written to [localStorage], oldest write first: one per
    record produced. *)
Fixpoint historyWrites (es : list Effect) : list (list HistoryEntry.t) :=
  match es with
  | [] => []
  | setItem key (Json h) :: rest =>
      if String.eqb key HISTORY_STORAGE_KEY
      then h :: historyWrites rest
      else historyWrites rest
  | _ :: rest => historyWrites rest
  end.

Definition recordsProduced (st : State) : nat :=
  List.length (historyWrites (effects st)).

(** The states of the session, after section 4.5 of the specification. *)
Definition RUNNING (st : State) : Prop :=
  isMeasuring st = true /\ selectedMachine st <> None
  /\ audioProcessorRef st <> None.

Definition FINISHED (st : State) : Prop :=
  isMeasuring st = false /\ hasFinishedTest st = true
  /\ countdown st = None /\ audioProcessorRef st = None
  /\ animationFrameRef st = None.

Definition IDLE_STATE (st : State) : Prop :=
  selectedMachine st = None /\ isMeasuring st = false
  /\ hasFinishedTest st = false /\ countdown st = None
  /\ audioProcessorRef st = None /\ animationFrameRef st = None.

(** The events the screen offers while a measurement runs, and the two
    timers. *)
Definition sessionEvent (ev : Event) : bool :=
  match ev with
  | StopMeasurement | ResetToMenu | AnimationFrame _ _ _ | TimerTick
  | CalibrationChange _ => true
  | SelectMachine _ | StartMeasurement | StartSettled _ _
  | ClearHistory _ => false
  end.

(** How many seconds of the interval timer a run of events contains. *)
Definition ticks (occurrences : list (Fresh * Event)) : Z :=
  Z.of_nat
    (List.length
       (filter (fun o => match snd o with TimerTick => true | _ => false end)
               occurrences)).

(** The record [saveToHistory] builds. *)
Definition entryOf (fresh : Fresh) (machine : MachineStandard.t)
    (finalMetrics : AudioMetrics.t) : HistoryEntry.t :=
  {| HistoryEntry.id := randomUUID fresh;
     HistoryEntry.machineId := MachineStandard.id machine;
     HistoryEntry.machineName := MachineStandard.name machine;
     HistoryEntry.timestamp := now fresh;
     HistoryEntry.status := AudioMetrics.status finalMetrics;
     HistoryEntry.db := Some (AudioMetrics.db finalMetrics);
     HistoryEntry.peakFrequency :=
       Some (AudioMetrics.peakFrequency finalMetrics) |}.

(** A session on [machine] that began with the history [h0], the history
    writes [w0], and still has [c] seconds to go.  Either it is over: the
    history is [h0] with one record of [machine] put in front (and cut to
    50), and that history is the one write made since.  Or it runs with its
    machine, and neither the history nor the store has been touched. *)
Definition sessionInvariant (machine : MachineStandard.t)
    (h0 : list HistoryEntry.t) (w0 : list (list HistoryEntry.t)) (c : Z)
    (st : State) : Prop :=
  (isMeasuring st = false
   /\ (exists fresh finalMetrics,
          history st = firstn 50 (entryOf fresh machine finalMetrics :: h0))
   /\ historyWrites (effects st) = w0 ++ [history st])
  \/ (isMeasuring st = true
      /\ selectedMachine st = Some machine
      /\ history st = h0
      /\ historyWrites (effects st) = w0
      /\ countdown st = Some c /\ (0 < c)%Z).

End App.

(* ================================================================== *)
(** * The specification's formulas, and the inputs of the examples     *)
(* ================================================================== *)

Module Reference.

Import AudioService.

(** Section 4.3 of the specification, over the reals. *)
Definition epsilon : R := 1e-6.
Definition referenceOffset : R := 100.
Definition log10 (x : R) : R := ln x / ln 10.

(** A byte of the time-domain block as an amplitude in [-1, 1]. *)
Definition sample (t : byte) : R := (IZR (byteZ t) - 128) / 128.

Definition sumOfSquares (timeData : list byte) : R :=
  fold_right (fun t acc => sample t * sample t + acc) 0 timeData.

(** [rms = sqrt(mean(sample_i^2))] *)
Definition rms (timeData : list byte) : R :=
  sqrt (sumOfSquares timeData / INR (List.length timeData)).

(** [db = 20 * log10(max(rms, epsilon)) + referenceOffset + calibrationOffset] *)
Definition decibels (timeData : list byte) (calibration : R) : R :=
  20 * log10 (Rmax (rms timeData) epsilon) + referenceOffset + calibration.

(** [frequency(bin) = bin * sampleRate / transformSize] *)
Definition binFrequency (bin : Z) (rate : R) (transformSize : nat) : R :=
  IZR bin * rate / INR transformSize.

(** [x] is [r] rounded to the nearest multiple of [1 / scale], a tie going
    up. *)
Definition roundedTo (scale : R) (r : R) (x : R) : Prop :=
  exists k : Z, x = IZR k / scale
                /\ IZR k - 1 / 2 <= scale * r < IZR k + 1 / 2.

(** The values of a poll before rounding, as [getMetrics] computes them. *)
Definition timeDataOf (an : AnalyserNode) : list byte :=
  getByteTimeDomainData an (fftSize an).
Definition dataArrayOf (an : AnalyserNode) : list byte :=
  getByteFrequencyData an (frequencyBinCount an).
Definition rawDb (this : AudioProcessor) (an : AnalyserNode) : number :=
  dbOf (rmsOf (timeDataOf an)) (calibrationOffset this).
Definition maxMagnitude (an : AnalyserNode) : Z :=
  fst (peakLoop (dataArrayOf an) 0 (-1) (-1)).
Definition peakIndex (an : AnalyserNode) : Z :=
  snd (peakLoop (dataArrayOf an) 0 (-1) (-1)).
Definition rawPeakFrequency (ctx : AudioContext) (an : AnalyserNode) : number :=
  peakFrequencyOf (peakIndex an) ctx an.

(** The magnitude at index [j], as an integer. *)
Definition at_ (dataArray : list byte) (j : nat) : Z :=
  byteZ (nth j dataArray x00).

(** When a poll is abnormal, by section 4.4 of the specification. *)
Definition abnormal (db peakFrequency : number) (maxMag : Z)
    (profile : MachineStandard.t) : Prop :=
  gt db (MachineStandard.maxDb profile) = true
  \/ ((200 < maxMag)%Z
      /\ (lt peakFrequency (fst (MachineStandard.peakFreqRange profile)) = true
          \/ gt peakFrequency (snd (MachineStandard.peakFreqRange profile)) = true)).

(** ** Inputs of the examples *)

Definition washingMachine : MachineStandard.t :=
  MachineStandard.Build "m1" "Washing Machine - Spin Cycle"
    "Home Appliance" (Fin 72) (Fin 50, Fin 200).

(** A microphone that is granted and hears nothing: every time-domain byte
    is 128 and every magnitude is 0. *)
Definition silentDevice : Device :=
  {| deviceSampleRate := 48000;
     userMedia := Some {| streamId := 1 |};
     deviceFrequencyBytes := fun _ => x00;
     deviceTimeDomainBytes := fun _ => x80 |}.

(** A microphone that is refused. *)
Definition deniedDevice : Device :=
  {| deviceSampleRate := 48000;
     userMedia := None;
     deviceFrequencyBytes := fun _ => x00;
     deviceTimeDomainBytes := fun _ => x80 |}.

Definition silentContext : AudioContext := {| sampleRate := 48000 |}.

Definition silentAnalyser : AnalyserNode :=
  {| fftSize := 2048;
     smoothingTimeConstant := 0.5;
     frequencyBytes := fun _ => x00;
     timeDomainBytes := fun _ => x80 |}.

(** The processor [initialize] builds on [silentDevice]. *)
Definition silentProcessor (offset : number) : AudioProcessor :=
  {| audioCtx := Some silentContext;
     analyser := Some silentAnalyser;
     stream := Some {| streamId := 1 |};
     source := Some {| streamId := 1 |};
     aWeightingFilter := [hpf1; hpf2; lpf1; notch];
     calibrationOffset := offset |}.

Definition someFresh : Fresh :=
  {| randomUUID := "r-1"; now := 1700000000000; animationFrame := 1 |}.

(** The first render with nothing stored, and the same after the washing
    machine has been chosen. *)
Definition freshState : App.State := App.initialState None None.

Definition armedState : App.State :=
  App.setSelectedMachine (Some washingMachine) freshState.

(** A history of 50 records, the one stamped 49 being the oldest. *)
Definition entryAt (i : nat) : HistoryEntry.t :=
  {| HistoryEntry.id := "r-0";
     HistoryEntry.machineId := "m1";
     HistoryEntry.machineName := "Washing Machine - Spin Cycle";
     HistoryEntry.timestamp := 1700000000000 - Z.of_nat i;
     HistoryEntry.status := NORMAL;
     HistoryEntry.db := Some (Fin 60);
     HistoryEntry.peakFrequency := Some (Fin 100) |}.

Definition fullHistory : list HistoryEntry.t := map entryAt (seq 0 50).

Definition fullState : App.State := App.setHistory fullHistory armedState.

(** Ten seconds of the timer with a frame in between. *)
Definition tenSeconds : list (Fresh * App.Event) :=
  (someFresh, App.AnimationFrame (fun _ => x00) (fun _ => x80) 1%positive)
  :: repeat (someFresh, App.TimerTick) 10.

End Reference.

Import Reference.

(* ================================================================== *)
(** * [components/FrequencyVisualizer.tsx]                             *)
(* ================================================================== *)

Module FrequencyVisualizer.

(** The canvas element: its two size attributes, and whether
    [getContext('2d')] answers a context. *)
Record Canvas : Type := {
  width : Z;
  height : Z;
  context2d : bool
}.

(** The calls made on the 2D context; a fill carries the three numbers of
    the [rgb(...)] style set just before it. *)
Inductive DrawCall : Type :=
| clearRect (x y w h : number)
| fillRect (style : number * number * number) (x y w h : number).

(** The loop of lines 25-37 from index [i] on, [x] being the left edge of
    the next bar and [len] the length of the whole array. *)
Fixpoint bars (data : list byte) (len : number) (i : Z)
    (x barWidth height : number) : list DrawCall :=
  match data with
  | [] => []
  | d :: rest =>
      let barHeight := mul (div (of_byte d) (Fin 255)) height in
      let r := add (of_byte d) (mul (Fin 25) (div (of_Z i) len)) in
      let g := mul (Fin 250) (div (of_Z i) len) in
      let b := Fin 50 in
      fillRect (r, g, b) x (sub height barHeight) barWidth barHeight
      :: bars rest len (i + 1)%Z (add x (add barWidth (Fin 1))) barWidth height
  end.

(** The effect of lines 11-38, for the canvas the ref holds ([None] when it
    holds none). *)
Definition draw (canvas : option Canvas) (data : list byte) : list DrawCall :=
  match canvas with
  | None => []
  | Some c =>
      if context2d c then
        let w := of_Z (width c) in
        let h := of_Z (height c) in
        let barWidth := mul (div w (of_nat (List.length data))) (Fin 2.5) in
        clearRect (Fin 0) (Fin 0) w h
        :: bars data (of_nat (List.length data)) 0 (Fin 0) barWidth h
      else []
  end.

End FrequencyVisualizer.

(* ================================================================== *)
(** * [localStorage], as the calls made on it leave it                 *)
(* ================================================================== *)

Module Persistence.

Import App.

Definition Store : Type := string -> option StoredValue.

(** The store that holds the two saved values and nothing else. *)
Definition initialStore (savedCalibration : option string)
    (savedHistory : option (list HistoryEntry.t)) : Store :=
  fun key =>
    if String.eqb key CALIBRATION_STORAGE_KEY
    then option_map Text savedCalibration
    else if String.eqb key HISTORY_STORAGE_KEY
         then option_map Json savedHistory
         else None.

Definition applyEffect (store : Store) (e : Effect) : Store :=
  match e with
  | setItem key value =>
      fun k => if String.eqb k key then Some value else store k
  | removeItem key =>
      fun k => if String.eqb k key then None else store k
  | _ => store
  end.

Definition storeAfter (store : Store) (es : list Effect) : Store :=
  fold_left applyEffect es store.

(** What [getItem] answers for the two keys of the program. *)
Definition savedCalibrationIn (store : Store) : option string :=
  match store CALIBRATION_STORAGE_KEY with
  | Some (Text s) => Some s
  | _ => None
  end.

(** [JSON.parse] of the text [JSON.stringify] made: a number of a record
    that is not finite was written as [null] and is read as [null]; the
    finite numbers, the texts and the time stamp come back as they were. *)
Definition jsonNumber (x : option number) : option number :=
  match x with
  | Some (Fin r) => Some (Fin r)
  | _ => None
  end.

Definition jsonEntry (e : HistoryEntry.t) : HistoryEntry.t :=
  {| HistoryEntry.id := HistoryEntry.id e;
     HistoryEntry.machineId := HistoryEntry.machineId e;
     HistoryEntry.machineName := HistoryEntry.machineName e;
     HistoryEntry.timestamp := HistoryEntry.timestamp e;
     HistoryEntry.status := HistoryEntry.status e;
     HistoryEntry.db := jsonNumber (HistoryEntry.db e);
     HistoryEntry.peakFrequency := jsonNumber (HistoryEntry.peakFrequency e) |}.

Definition JSON_parse (v : StoredValue) : option (list HistoryEntry.t) :=
  match v with
  | Json h => Some (map jsonEntry h)
  | Text _ => None
  end.

(** Both numbers of the record are finite. *)
Definition finiteEntry (e : HistoryEntry.t) : Prop :=
  (exists x, HistoryEntry.db e = Some (Fin x))
  /\ (exists y, HistoryEntry.peakFrequency e = Some (Fin y)).

Definition savedHistoryIn (store : Store) : option (list HistoryEntry.t) :=
  match store HISTORY_STORAGE_KEY with
  | Some v => JSON_parse v
  | None => None
  end.

(** The first render of the page loaded again over [store]. *)
Definition reload (store : Store) : State :=
  initialState (savedCalibrationIn store) (savedHistoryIn store).

(** The page loaded again over the calls a state has made would start
    with the history that the state holds, as JSON gives it back,
    respectively with the calibration that the state holds. *)
Definition historyPersisted (store : Store) (st : State) : Prop :=
  history (reload (storeAfter store (effects st)))
  = map jsonEntry (history st).

Definition calibrationPersisted (store : Store) (st : State) : Prop :=
  calibrationOffset (reload (storeAfter store (effects st)))
  = calibrationOffset st.

End Persistence.

(* ================================================================== *)
(** * Notions used by the further properties                           *)
(* ================================================================== *)

Module Further.

Import App.

(** The sum of the squared distances of the bytes from 128. *)
Definition deviation (timeData : list byte) : Z :=
  fold_right (fun t acc => ((byteZ t - 128) * (byteZ t - 128) + acc)%Z)
             0%Z timeData.

(** A processor is held exactly while a measurement runs, and then the
    finished flag is off, the countdown stands between [least] and 10 and
    the processor is initialized. *)
Definition coherent (least : Z) (st : State) : Prop :=
  match audioProcessorRef st with
  | Some p =>
      isMeasuring st = true
      /\ hasFinishedTest st = false
      /\ (exists c, countdown st = Some c /\ (least <= c <= 10)%Z)
      /\ (exists an ctx s,
             AudioService.analyser p = Some an
             /\ AudioService.audioCtx p = Some ctx
             /\ AudioService.stream p = Some s
             /\ AudioService.fftSize an = 2048%nat)
  | None =>
      isMeasuring st = false
      /\ countdown st = None
      /\ animationFrameRef st = None
  end.

(** What holds of every state a run from the first render reaches, once
    the effects of the renders have run: the ref holds the published
    metrics, the state is coherent with a countdown of at least 1, and
    while a processor is held and a machine is selected a frame is
    pending. *)
Definition consistent (st : State) : Prop :=
  metricsRef st = metrics st
  /\ coherent 1 st
  /\ (audioProcessorRef st <> None -> selectedMachine st <> None ->
      animationFrameRef st <> None).

(** The events of a session that do not ask for its end. *)
Definition quietEvent (ev : Event) : bool :=
  match ev with
  | AnimationFrame _ _ _ | TimerTick | CalibrationChange _ => true
  | _ => false
  end.

(** No request of the run sets the calibration from the empty text. *)
Definition noEmptyCalibration (occurrences : list (Fresh * Event)) : Prop :=
  Forall (fun o => snd o <> CalibrationChange "") occurrences.

(** Inputs of the examples. *)
Definition canvas400 : FrequencyVisualizer.Canvas :=
  {| FrequencyVisualizer.width := 400;
     FrequencyVisualizer.height := 128;
     FrequencyVisualizer.context2d := true |}.

(** The washing machine is chosen, the start is asked for and the
    microphone is granted. *)
Definition startedRun : list (Fresh * Event) :=
  [(someFresh, SelectMachine washingMachine);
   (someFresh, StartMeasurement);
   (someFresh, StartSettled 0 silentDevice)].

Definition runningState : State := run startedRun freshState.

(** The start is asked for, the user goes back to the menu while the
    microphone is being asked for, and then it is granted. *)
Definition overtakenRun : list (Fresh * Event) :=
  [(someFresh, SelectMachine washingMachine);
   (someFresh, StartMeasurement);
   (someFresh, ResetToMenu);
   (someFresh, StartSettled 0 silentDevice)].

End Further.

Import Further.

(* ================================================================== *)
(** * Lemmas on numbers                                                *)
(* ================================================================== *)

Section NumberLemmas.

Lemma Rltb_true (x y : R) : Rltb x y = true <-> x < y.
Proof. unfold Rltb. destruct (Rlt_dec x y); split; intros; try easy. Qed.

Lemma Rltb_false (x y : R) : Rltb x y = false <-> y <= x.
Proof.
  unfold Rltb. destruct (Rlt_dec x y); split; intros; try easy; lra.
Qed.

Lemma Reqb_true (x y : R) : Reqb x y = true <-> x = y.
Proof. unfold Reqb. destruct (Req_dec_T x y); split; intros; easy. Qed.

Lemma Reqb_false (x y : R) : Reqb x y = false <-> x <> y.
Proof. unfold Reqb. destruct (Req_dec_T x y); split; intros; easy. Qed.

Lemma div_Fin (x y : R) : y <> 0 -> div (Fin x) (Fin y) = Fin (x / y).
Proof.
  intros Hy. unfold div. apply Reqb_false in Hy. now rewrite Hy.
Qed.

Lemma gt_Fin (x y : R) : gt (Fin x) (Fin y) = true <-> y < x.
Proof. unfold gt, lt. apply Rltb_true. Qed.

Lemma lt_Fin (x y : R) : lt (Fin x) (Fin y) = true <-> x < y.
Proof. unfold lt. apply Rltb_true. Qed.

(** [Int_part] is the floor: the one integer [k] with [k <= r < k + 1]. *)
Lemma Int_part_bounds (r : R) : IZR (Int_part r) <= r < IZR (Int_part r) + 1.
Proof.
  destruct (base_Int_part r) as [H1 H2]. lra.
Qed.

Lemma Int_part_unique (r : R) (k : Z) :
  IZR k <= r < IZR k + 1 -> Int_part r = k.
Proof.
  intros [H1 H2]. symmetry. apply Int_part_spec. lra.
Qed.

Lemma Int_part_shift (r : R) (k : Z) :
  Int_part (r + IZR k) = (Int_part r + k)%Z.
Proof.
  apply Int_part_unique. rewrite plus_IZR.
  pose proof (Int_part_bounds r). lra.
Qed.

(** [Math.round(r * scale) / scale] is [r] rounded to the nearest multiple of
    [1 / scale]. *)
Lemma round_roundedTo (scale r : R) :
  roundedTo scale r (IZR (Int_part (r * scale + 0.5)) / scale).
Proof.
  exists (Int_part (r * scale + 0.5)). split; [reflexivity|].
  pose proof (Int_part_bounds (r * scale + 0.5)). lra.
Qed.

Lemma ln_10_pos : 0 < ln 10.
Proof.
  rewrite <- ln_1. apply ln_increasing; lra.
Qed.

Lemma log10_epsilon : log10 epsilon = -6.
Proof.
  unfold log10, epsilon.
  replace 1e-6 with (/ 10 ^ 6) by lra.
  rewrite ln_Rinv by (apply pow_lt; lra).
  rewrite ln_pow by lra.
  pose proof ln_10_pos. simpl INR. field. lra.
Qed.

End NumberLemmas.

(* ================================================================== *)
(** * The metrics poll: not ready, and the classifier                  *)
(* ================================================================== *)

Section Classifier.

Import AudioService.

Lemma getMetrics_ready this standard an ctx :
  analyser this = Some an -> audioCtx this = Some ctx ->
  getMetrics this standard =
    {| AudioMetrics.db := div (Math_round (mul (rawDb this an) (Fin 10))) (Fin 10);
       AudioMetrics.peakFrequency := Math_round (rawPeakFrequency ctx an);
       AudioMetrics.isStable := gt (rmsOf (timeDataOf an)) (Fin 0.001);
       AudioMetrics.status :=
         diagnose (rawDb this an) (rawPeakFrequency ctx an)
                  (maxMagnitude an) standard |}.
Proof.
  intros Han Hctx. unfold getMetrics. rewrite Han, Hctx.
  unfold rawDb, rawPeakFrequency, maxMagnitude, peakIndex, timeDataOf,
    dataArrayOf.
  destruct (peakLoop _ 0 (-1) (-1)) as [maxVal maxIndex]. reflexivity.
Qed.

Lemma diagnose_cases db peakFrequency maxMag profile :
  (diagnose db peakFrequency maxMag profile = ABNORMAL
   <-> abnormal db peakFrequency maxMag profile)
  /\ (diagnose db peakFrequency maxMag profile = NORMAL
      <-> ~ abnormal db peakFrequency maxMag profile).
Proof.
  unfold diagnose, abnormal.
  destruct (gt db (MachineStandard.maxDb profile)) eqn:Hdb; cbn [orb].
  - split; split; intros H; try discriminate; auto.
    exfalso. apply H. now left.
  - destruct (Z.gtb_spec maxMag 200) as [Hm | Hm]; cbn [andb].
    + destruct (gt peakFrequency _) eqn:Hhi; cbn [orb].
      * split; split; intros H; try discriminate; auto.
        exfalso. apply H. right. split; [lia | now right].
      * destruct (lt peakFrequency _) eqn:Hlo.
        -- split; split; intros H; try discriminate; auto.
           exfalso. apply H. right. split; [lia | now left].
        -- split; split; intros H; try discriminate; auto.
           ++ destruct H as [H | [_ [H | H]]]; discriminate.
           ++ intros [H' | [_ [H' | H']]]; discriminate.
    + split; split; intros H; try discriminate; auto.
      * destruct H as [H | [H _]]; [discriminate | lia].
      * intros [H' | [H' _]]; [discriminate | lia].
Qed.

Lemma getMetrics_not_ready this standard :
  analyser this = None \/ audioCtx this = None ->
  getMetrics this standard =
    {| AudioMetrics.db := Fin 0;
       AudioMetrics.peakFrequency := Fin 0;
       AudioMetrics.isStable := false;
       AudioMetrics.status := IDLE |}.
Proof.
  intros [H | H]; unfold getMetrics; rewrite H.
  - reflexivity.
  - destruct (analyser this); reflexivity.
Qed.

(** C9.  A poll on a processor whose analyser or audio context is missing
    (before [initialize] has completed) returns the zeroed snapshot
    [db = 0], [peakFrequency = 0], [isStable = false] with status [IDLE];
    [getMetrics] is a total function, so the poll cannot fail. *)
Theorem poll_before_initialization this standard :
  analyser this = None \/ audioCtx this = None ->
  getMetrics this standard =
    {| AudioMetrics.db := Fin 0;
       AudioMetrics.peakFrequency := Fin 0;
       AudioMetrics.isStable := false;
       AudioMetrics.status := IDLE |}
  /\ AudioMetrics.status (getMetrics this standard) = IDLE.
Proof.
  intros H. rewrite (getMetrics_not_ready this standard H).
  split; reflexivity.
Qed.

Lemma poll_before_initialization_witness :
  getMetrics (AudioService.new (Fin (-20))) washingMachine =
    {| AudioMetrics.db := Fin 0;
       AudioMetrics.peakFrequency := Fin 0;
       AudioMetrics.isStable := false;
       AudioMetrics.status := IDLE |}.
Proof.
  apply (poll_before_initialization (AudioService.new (Fin (-20)))).
  left. reflexivity.
Defined.

(** C10.  Once the processor holds an analyser and an audio context, every
    poll has status [NORMAL] or [ABNORMAL], whatever the bytes, the
    calibration and the profile; conversely a poll with status [IDLE] is the
    zeroed snapshot of a processor that is not initialized. *)
Theorem initialized_poll_never_idle this standard :
  (forall an ctx,
      analyser this = Some an -> audioCtx this = Some ctx ->
      AudioMetrics.status (getMetrics this standard) = NORMAL
      \/ AudioMetrics.status (getMetrics this standard) = ABNORMAL)
  /\ (AudioMetrics.status (getMetrics this standard) = IDLE ->
      (analyser this = None \/ audioCtx this = None)
      /\ getMetrics this standard =
           {| AudioMetrics.db := Fin 0;
              AudioMetrics.peakFrequency := Fin 0;
              AudioMetrics.isStable := false;
              AudioMetrics.status := IDLE |}).
Proof.
  assert (Hready : forall an ctx,
      analyser this = Some an -> audioCtx this = Some ctx ->
      AudioMetrics.status (getMetrics this standard) = NORMAL
      \/ AudioMetrics.status (getMetrics this standard) = ABNORMAL).
  { intros an ctx Han Hctx.
    rewrite (getMetrics_ready this standard an ctx Han Hctx).
    cbn [AudioMetrics.status]. unfold diagnose.
    destruct (_ || _); auto. }
  split; [exact Hready|].
  intros Hidle.
  destruct (analyser this) as [an|] eqn:Han;
    destruct (audioCtx this) as [ctx|] eqn:Hctx.
  - destruct (Hready an ctx eq_refl eq_refl) as [H | H];
      rewrite H in Hidle; discriminate.
  - split; [now right|]. apply getMetrics_not_ready. now right.
  - split; [now left|]. apply getMetrics_not_ready. now left.
  - split; [now left|]. apply getMetrics_not_ready. now left.
Qed.

Lemma initialized_poll_never_idle_witness :
  AudioMetrics.status (getMetrics (silentProcessor (Fin 0)) washingMachine)
    = NORMAL
  \/ AudioMetrics.status (getMetrics (silentProcessor (Fin 0)) washingMachine)
    = ABNORMAL.
Proof.
  exact (proj1 (initialized_poll_never_idle (silentProcessor (Fin 0))
                  washingMachine)
           silentAnalyser silentContext eq_refl eq_refl).
Defined.

(** C1.  On a processor that holds an analyser and an audio context, the
    status of a poll is [ABNORMAL] exactly when the decibel value exceeds
    the profile's [maxDb], or the largest magnitude exceeds 200 and the
    peak frequency lies outside the profile's range; otherwise it is
    [NORMAL].  The decibel value and the peak frequency are the ones the
    poll computes before rounding; on finite values the comparisons are the
    ones of the reals.  The four rows of the truth table for [maxDb = 72]
    and range [50, 200] follow. *)
Theorem status_classification this standard an ctx :
  analyser this = Some an -> audioCtx this = Some ctx ->
  let st := AudioMetrics.status (getMetrics this standard) in
  let bad :=
    abnormal (rawDb this an) (rawPeakFrequency ctx an) (maxMagnitude an)
             standard in
  (st = ABNORMAL <-> bad)
  /\ (st = NORMAL <-> ~ bad)
  /\ (forall (d p dMax lo hi : R) (m : Z) (i n c : string),
         abnormal (Fin d) (Fin p) m
           (MachineStandard.Build i n c (Fin dMax) (Fin lo, Fin hi))
         <-> (dMax < d \/ ((200 < m)%Z /\ (p < lo \/ hi < p))))
  /\ diagnose (Fin 75) (Fin 100) 0 washingMachine = ABNORMAL
  /\ diagnose (Fin 60) (Fin 500) 50 washingMachine = NORMAL
  /\ diagnose (Fin 60) (Fin 500) 220 washingMachine = ABNORMAL
  /\ diagnose (Fin 60) (Fin 100) 220 washingMachine = NORMAL.
Proof.
  intros Han Hctx st bad. subst st bad.
  rewrite (getMetrics_ready this standard an ctx Han Hctx).
  cbn [AudioMetrics.status].
  split; [apply diagnose_cases|].
  split; [apply diagnose_cases|].
  split.
  { intros. unfold abnormal.
    cbn [MachineStandard.maxDb MachineStandard.peakFreqRange fst snd].
    rewrite gt_Fin, gt_Fin, lt_Fin. tauto. }
  assert (Hrow : forall d p m,
             abnormal (Fin d) (Fin p) m washingMachine
             <-> (72 < d \/ ((200 < m)%Z /\ (p < 50 \/ 200 < p)))).
  { intros. unfold abnormal, washingMachine.
    cbn [MachineStandard.maxDb MachineStandard.peakFreqRange fst snd].
    rewrite gt_Fin, gt_Fin, lt_Fin. tauto. }
  repeat split.
  - apply diagnose_cases, Hrow. left. lra.
  - apply diagnose_cases. rewrite Hrow. intros [H | [H _]]; [lra | lia].
  - apply diagnose_cases, Hrow. right. split; [lia | right; lra].
  - apply diagnose_cases. rewrite Hrow. intros [H | [_ [H | H]]]; lra.
Qed.

Lemma status_classification_witness :
  AudioMetrics.status (getMetrics (silentProcessor (Fin 0)) washingMachine)
    = ABNORMAL
  <-> abnormal (rawDb (silentProcessor (Fin 0)) silentAnalyser)
        (rawPeakFrequency silentContext silentAnalyser)
        (maxMagnitude silentAnalyser) washingMachine.
Proof.
  exact (proj1 (status_classification (silentProcessor (Fin 0)) washingMachine
                  silentAnalyser silentContext eq_refl eq_refl)).
Defined.

End Classifier.

(* ================================================================== *)
(** * The level: root mean square, decibels, calibration               *)
(* ================================================================== *)

Section Level.

Import AudioService.

Lemma byteZ_range (b : byte) : (0 <= byteZ b <= 255)%Z.
Proof.
  unfold byteZ. pose proof (Byte.to_N_bounded b). lia.
Qed.

Lemma sample_val (t : byte) :
  div (sub (of_byte t) (Fin 128)) (Fin 128) = Fin (sample t).
Proof.
  unfold of_byte, of_Z, sub, neg, add. rewrite div_Fin by lra.
  reflexivity.
Qed.

Lemma sumSquares_from (timeData : list byte) (a : R) :
  fold_left
    (fun sum t =>
       let val := div (sub (of_byte t) (Fin 128)) (Fin 128) in
       add sum (mul val val))
    timeData (Fin a)
  = Fin (a + sumOfSquares timeData).
Proof.
  revert a. induction timeData as [|t rest IH]; intros a; cbn [fold_left].
  - cbn [sumOfSquares fold_right]. f_equal. lra.
  - cbv zeta. rewrite sample_val. cbn [mul add]. rewrite IH.
    cbn [sumOfSquares fold_right]. f_equal.
    fold (sumOfSquares rest). lra.
Qed.

Lemma sumSquares_Fin (timeData : list byte) :
  sumSquares timeData = Fin (sumOfSquares timeData).
Proof.
  unfold sumSquares. rewrite sumSquares_from. f_equal. lra.
Qed.

(** The sum of squares is a whole number of [1 / 16384]. *)
Lemma sumOfSquares_integral (timeData : list byte) :
  exists T : Z, (0 <= T)%Z /\ sumOfSquares timeData = IZR T / 16384.
Proof.
  induction timeData as [|t rest [T [HT IH]]].
  - exists 0%Z. split; [lia|]. unfold sumOfSquares. cbn [fold_right]. lra.
  - exists ((byteZ t - 128) * (byteZ t - 128) + T)%Z.
    split; [pose proof (Z.square_nonneg (byteZ t - 128)); lia|].
    cbn [sumOfSquares fold_right]. fold (sumOfSquares rest). rewrite IH.
    rewrite plus_IZR, mult_IZR, minus_IZR. unfold sample. field.
Qed.

Lemma sqrt_ge_epsilon (x : R) : 1e-12 <= x -> epsilon <= sqrt x.
Proof.
  intros Hx. unfold epsilon.
  replace 1e-6 with (sqrt (1e-6 * 1e-6)) by (apply sqrt_square; lra).
  apply sqrt_le_1_alt. lra.
Qed.

(** On a block of at most 61035156 bytes the root mean square is 0 or at
    least [epsilon]: a byte other than 128 weighs at least [1 / 16384]. *)
Lemma rms_zero_or_above_epsilon (timeData : list byte) :
  (Z.of_nat (List.length timeData) <= 61035156)%Z ->
  rms timeData = 0 \/ epsilon <= rms timeData.
Proof.
  intros Hlen. unfold rms.
  destruct (sumOfSquares_integral timeData) as [T [HT HS]].
  destruct (Nat.eq_dec (List.length timeData) 0) as [Hz | Hnz].
  - left. apply length_zero_iff_nil in Hz. subst timeData.
    unfold sumOfSquares. cbn [fold_right]. rewrite Rdiv_0_l. apply sqrt_0.
  - assert (Hn : 1 <= INR (List.length timeData) <= 61035156).
    { rewrite INR_IZR_INZ. split; apply IZR_le; lia. }
    destruct (Z.eq_dec T 0) as [-> | HT0].
    + left. rewrite HS. replace (0 / 16384 / _) with 0.
      * apply sqrt_0.
      * unfold Rdiv. lra.
    + right. apply sqrt_ge_epsilon. rewrite HS.
      assert (H1 : 1 <= IZR T) by (apply IZR_le; lia).
      set (n := INR (List.length timeData)) in *.
      assert (Hpos : 0 < n) by lra.
      apply Rmult_le_reg_r with (r := n); [exact Hpos|].
      replace (IZR T / 16384 / n * n) with (IZR T / 16384) by (field; lra).
      lra.
Qed.

(** The root mean square of the program is the one of the specification;
    on the empty block it is [NaN], which the floor replaces as it does 0. *)
Lemma rmsOf_cases (timeData : list byte) :
  (timeData = [] /\ rmsOf timeData = NaN)
  \/ (timeData <> [] /\ rmsOf timeData = Fin (rms timeData)).
Proof.
  unfold rmsOf. rewrite sumSquares_Fin.
  destruct timeData as [|t rest] eqn:El.
  - left. split; [reflexivity|]. cbn [sumOfSquares fold_right List.length].
    unfold of_nat. cbn [INR]. unfold div.
    assert (H0 : Reqb 0 0 = true) by now apply Reqb_true.
    rewrite H0. reflexivity.
  - right. split; [discriminate|]. rewrite <- El.
    assert (Hn : 0 < INR (List.length timeData)).
    { apply lt_0_INR. subst timeData. cbn. lia. }
    unfold of_nat. rewrite div_Fin by lra. unfold Math_sqrt.
    assert (Hnn : 0 <= sumOfSquares timeData / INR (List.length timeData)).
    { destruct (sumOfSquares_integral timeData) as [T [HT HS]]. rewrite HS.
      apply IZR_le in HT. apply Rmult_le_pos.
      - lra.
      - left. now apply Rinv_0_lt_compat. }
    apply Rltb_false in Hnn. rewrite Hnn. reflexivity.
Qed.

(** [rms || 1e-6] is [max(rms, epsilon)] on every block the analyser can
    hand out. *)
Lemma floor_is_max (timeData : list byte) :
  (Z.of_nat (List.length timeData) <= 61035156)%Z ->
  or_else (rmsOf timeData) (Fin 1e-6) = Fin (Rmax (rms timeData) epsilon).
Proof.
  intros Hlen.
  assert (Heps : 0 < epsilon) by (unfold epsilon; lra).
  destruct (rmsOf_cases timeData) as [[-> Hr] | [_ Hr]]; rewrite Hr.
  - unfold or_else. cbn [truthy]. f_equal. unfold rms. cbn.
    rewrite Rdiv_0_l, sqrt_0. rewrite Rmax_right; [reflexivity | lra].
  - unfold or_else. cbn [truthy].
    destruct (rms_zero_or_above_epsilon timeData Hlen) as [H0 | Hge].
    + rewrite H0. assert (Hz : Reqb 0 0 = true) by now apply Reqb_true.
      rewrite Hz. cbn [negb]. rewrite Rmax_right; [reflexivity | lra].
    + assert (Hnz : Reqb (rms timeData) 0 = false) by (apply Reqb_false; lra).
      rewrite Hnz. cbn [negb]. rewrite Rmax_left; [reflexivity | lra].
Qed.

Lemma Math_log10_positive (x : R) :
  0 < x -> Math_log10 (Fin x) = Fin (log10 x).
Proof.
  intros Hx. unfold Math_log10.
  assert (H1 : Rltb x 0 = false) by (apply Rltb_false; lra).
  assert (H2 : Reqb x 0 = false) by (apply Reqb_false; lra).
  rewrite H1, H2. reflexivity.
Qed.

Lemma dbOf_spec (timeData : list byte) (calibration : number) :
  (Z.of_nat (List.length timeData) <= 61035156)%Z ->
  dbOf (rmsOf timeData) calibration
  = add (Fin (20 * log10 (Rmax (rms timeData) epsilon) + referenceOffset))
        calibration.
Proof.
  intros Hlen. unfold dbOf. rewrite (floor_is_max timeData Hlen).
  rewrite Math_log10_positive.
  - reflexivity.
  - apply Rlt_le_trans with epsilon; [unfold epsilon; lra | apply Rmax_r].
Qed.

Lemma timeDataOf_length (an : AnalyserNode) :
  List.length (timeDataOf an) = fftSize an.
Proof.
  unfold timeDataOf, getByteTimeDomainData.
  now rewrite length_map, length_seq.
Qed.

Lemma reported_db_finite (x : R) :
  div (Math_round (mul (Fin x) (Fin 10))) (Fin 10)
  = Fin (IZR (Int_part (x * 10 + 0.5)) / 10).
Proof.
  cbn [mul Math_round]. now rewrite div_Fin by lra.
Qed.

Lemma rawDb_spec this an :
  fftSize an = 2048%nat ->
  rawDb this an
  = add (Fin (20 * log10 (Rmax (rms (timeDataOf an)) epsilon)
              + referenceOffset))
        (calibrationOffset this).
Proof.
  intros Hfft. unfold rawDb. apply dbOf_spec.
  rewrite timeDataOf_length, Hfft. cbn. lia.
Qed.

(** The floor itself replaces only a zero (or [NaN]) level: a level
    strictly between 0 and [epsilon] would pass unchanged.  No block of
    bytes produces such a level ([rms_zero_or_above_epsilon]). *)
Remark floor_replaces_only_zero :
  or_else (Fin 5e-7) (Fin 1e-6) = Fin 5e-7
  /\ or_else (Fin 0) (Fin 1e-6) = Fin 1e-6
  /\ or_else NaN (Fin 1e-6) = Fin 1e-6.
Proof.
  unfold or_else. cbn [truthy].
  assert (H1 : Reqb 5e-7 0 = false) by (apply Reqb_false; lra).
  assert (H2 : Reqb 0 0 = true) by now apply Reqb_true.
  rewrite H1, H2. auto.
Qed.

(** C2.  On an initialized processor (transform size 2048) the decibel
    value of a poll is
    [20 * log10(max(rms, epsilon)) + 100 + calibrationOffset] with
    [epsilon = 1e-6]: for every block of bytes the floor [rms || 1e-6] of
    the program equals [max(rms, epsilon)].  The reported value is that
    value times 10, rounded by [Math.round], over 10; with a finite
    calibration it is the formula's value rounded to one decimal place. *)
Theorem reported_db_formula this standard an ctx :
  analyser this = Some an -> audioCtx this = Some ctx ->
  fftSize an = 2048%nat ->
  let timeData := timeDataOf an in
  or_else (rmsOf timeData) (Fin 1e-6) = Fin (Rmax (rms timeData) epsilon)
  /\ rawDb this an
     = add (Fin (20 * log10 (Rmax (rms timeData) epsilon) + 100))
           (calibrationOffset this)
  /\ AudioMetrics.db (getMetrics this standard)
     = div (Math_round (mul (rawDb this an) (Fin 10))) (Fin 10)
  /\ (forall c : R,
         calibrationOffset this = Fin c ->
         exists x : R,
           AudioMetrics.db (getMetrics this standard) = Fin x
           /\ roundedTo 10 (decibels timeData c) x).
Proof.
  intros Han Hctx Hfft timeData.
  assert (Hlen : (Z.of_nat (List.length timeData) <= 61035156)%Z).
  { subst timeData. rewrite timeDataOf_length, Hfft. cbn. lia. }
  split; [now apply floor_is_max|].
  split; [exact (rawDb_spec this an Hfft)|].
  rewrite (getMetrics_ready this standard an ctx Han Hctx).
  cbn [AudioMetrics.db]. split; [reflexivity|].
  intros c Hc. rewrite (rawDb_spec this an Hfft), Hc. cbn [add].
  rewrite reported_db_finite. eexists. split; [reflexivity|].
  exact (round_roundedTo 10 (decibels timeData c)).
Qed.

Lemma reported_db_formula_witness :
  exists x : R,
    AudioMetrics.db (getMetrics (silentProcessor (Fin (-20))) washingMachine)
    = Fin x
    /\ roundedTo 10 (decibels (timeDataOf silentAnalyser) (-20)) x.
Proof.
  exact (proj2 (proj2 (proj2
    (reported_db_formula (silentProcessor (Fin (-20))) washingMachine
       silentAnalyser silentContext eq_refl eq_refl eq_refl)))
    (-20) eq_refl).
Defined.

(** ** The silent block *)

Lemma sumOfSquares_silent (timeData : list byte) :
  Forall (fun t => t = x80) timeData -> sumOfSquares timeData = 0.
Proof.
  induction 1 as [|t rest Ht _ IH].
  - reflexivity.
  - cbn [sumOfSquares fold_right]. fold (sumOfSquares rest).
    rewrite IH, Ht. unfold sample.
    change (byteZ x80) with 128%Z. lra.
Qed.

Lemma silent_timeData : Forall (fun t => t = x80) (timeDataOf silentAnalyser).
Proof.
  unfold timeDataOf, getByteTimeDomainData. apply Forall_map.
  apply Forall_forall. intros i Hi. apply in_seq in Hi.
  cbn [fftSize silentAnalyser timeDomainBytes] in *.
  destruct (Nat.ltb_spec i 2048); [reflexivity | lia].
Qed.

Lemma rms_silent : rms (timeDataOf silentAnalyser) = 0.
Proof.
  unfold rms. rewrite (sumOfSquares_silent _ silent_timeData).
  rewrite Rdiv_0_l. apply sqrt_0.
Qed.

(** The silent block reads [-20 + c] decibels before rounding. *)
Lemma rawDb_silent (c : R) :
  rawDb (silentProcessor (Fin c)) silentAnalyser = Fin (-20 + c).
Proof.
  rewrite rawDb_spec by reflexivity.
  cbn [calibrationOffset silentProcessor add].
  rewrite rms_silent. rewrite Rmax_right by (unfold epsilon; lra).
  rewrite log10_epsilon. unfold referenceOffset. f_equal. lra.
Qed.

Lemma reported_db_silent (c : R) (k : Z) :
  IZR k <= (-20 + c) * 10 + 0.5 < IZR k + 1 ->
  AudioMetrics.db (getMetrics (silentProcessor (Fin c)) washingMachine)
  = Fin (IZR k / 10).
Proof.
  intros Hk.
  rewrite (getMetrics_ready (silentProcessor (Fin c)) washingMachine
             silentAnalyser silentContext eq_refl eq_refl).
  cbn [AudioMetrics.db]. rewrite rawDb_silent, reported_db_finite.
  now rewrite (Int_part_unique _ k Hk).
Qed.

(** C6, as stated, fails: on the silent block with offsets 0 and 0.04
    (both in [-60, 60]) the reported value is -20 both times, so it does not
    grow by 0.04. *)
Lemma reported_db_not_additive :
  AudioMetrics.db (getMetrics (silentProcessor (Fin 0)) washingMachine)
    = Fin (-20)
  /\ AudioMetrics.db (getMetrics (silentProcessor (Fin (0 + 0.04)))
                        washingMachine)
    = Fin (-20)
  /\ AudioMetrics.db (getMetrics (silentProcessor (Fin (0 + 0.04)))
                        washingMachine)
     <> add (AudioMetrics.db (getMetrics (silentProcessor (Fin 0))
                                washingMachine))
            (Fin 0.04).
Proof.
  assert (H0 : AudioMetrics.db
                 (getMetrics (silentProcessor (Fin 0)) washingMachine)
               = Fin (-20)).
  { rewrite (reported_db_silent 0 (-200)) by lra. f_equal. lra. }
  assert (H1 : AudioMetrics.db
                 (getMetrics (silentProcessor (Fin (0 + 0.04))) washingMachine)
               = Fin (-20)).
  { rewrite (reported_db_silent (0 + 0.04) (-200)) by lra. f_equal. lra. }
  split; [exact H0|]. split; [exact H1|].
  rewrite H0, H1. cbn [add]. intros H. injection H as H. lra.
Qed.

(** Before rounding, in exact arithmetic, the decibel value of a fixed
    block grows by [delta] when the calibration offset does. *)
Lemma rawDb_of_offset this an (o : R) :
  fftSize an = 2048%nat ->
  rawDb (setCalibration this (Fin o)) an
  = Fin (20 * log10 (Rmax (rms (timeDataOf an)) epsilon)
         + referenceOffset + o).
Proof. intros Hfft. rewrite rawDb_spec by exact Hfft. reflexivity. Qed.

(** C6, amended.  For a fixed block and the calibration offsets [c] and
    [c + delta], the two reported values are whole numbers of tenths;
    their difference is [delta] to within one tenth, and is not [delta]
    in general, since each value is rounded on its own; and the reported
    value does not fall when the offset grows. *)
Theorem calibration_shift_within_a_tenth this standard an ctx (c delta : R) :
  analyser this = Some an -> audioCtx this = Some ctx ->
  fftSize an = 2048%nat ->
  exists k1 k2 : Z,
    AudioMetrics.db (getMetrics (setCalibration this (Fin c)) standard)
    = Fin (IZR k1 / 10)
    /\ AudioMetrics.db
         (getMetrics (setCalibration this (Fin (c + delta))) standard)
       = Fin (IZR k2 / 10)
    /\ Rabs (IZR k2 / 10 - IZR k1 / 10 - delta) <= 0.1
    /\ (0 <= delta -> (k1 <= k2)%Z).
Proof.
  intros Han Hctx Hfft.
  rewrite (getMetrics_ready (setCalibration this (Fin (c + delta)))
             standard an ctx Han Hctx).
  rewrite (getMetrics_ready (setCalibration this (Fin c))
             standard an ctx Han Hctx).
  cbn [AudioMetrics.db].
  rewrite !rawDb_of_offset by exact Hfft. rewrite !reported_db_finite.
  set (base := 20 * log10 (Rmax (rms (timeDataOf an)) epsilon)
               + referenceOffset).
  pose proof (Int_part_bounds ((base + c) * 10 + 0.5)) as H1.
  pose proof (Int_part_bounds ((base + (c + delta)) * 10 + 0.5)) as H2.
  exists (Int_part ((base + c) * 10 + 0.5)),
         (Int_part ((base + (c + delta)) * 10 + 0.5)).
  split; [reflexivity|]. split; [reflexivity|]. split.
  - apply Rabs_le. lra.
  - intros Hd. apply Z.lt_succ_r. apply lt_IZR. rewrite succ_IZR. lra.
Qed.

Lemma calibration_shift_within_a_tenth_witness :
  exists k1 k2 : Z,
    AudioMetrics.db
      (getMetrics (setCalibration (silentProcessor (Fin 0)) (Fin (-20)))
         washingMachine)
    = Fin (IZR k1 / 10)
    /\ AudioMetrics.db
         (getMetrics (setCalibration (silentProcessor (Fin 0))
                        (Fin (-20 + 0.5)))
            washingMachine)
       = Fin (IZR k2 / 10)
    /\ Rabs (IZR k2 / 10 - IZR k1 / 10 - 0.5) <= 0.1
    /\ (0 <= 0.5 -> (k1 <= k2)%Z).
Proof.
  exact (calibration_shift_within_a_tenth (silentProcessor (Fin 0))
           washingMachine silentAnalyser silentContext (-20) 0.5
           eq_refl eq_refl eq_refl).
Defined.

End Level.

(* ================================================================== *)
(** * The peak: first maximum, bin to Hertz, rounding                  *)
(* ================================================================== *)

Section Peak.

Import AudioService.

Lemma at_head d rest : at_ (d :: rest) 0 = byteZ d.
Proof. reflexivity. Qed.

Lemma at_tail d rest j : at_ (d :: rest) (S j) = at_ rest j.
Proof. reflexivity. Qed.

(** The scan from index [i] on, entered with [(maxVal, maxIndex)]: either
    nothing in the rest exceeds [maxVal] and the pair is returned as it is,
    or the pair becomes the first position of the largest value of the
    rest. *)
Lemma peakLoop_spec (dataArray : list byte) :
  forall (i maxVal maxIndex : Z),
    (peakLoop dataArray i maxVal maxIndex = (maxVal, maxIndex)
     /\ forall j, (j < List.length dataArray)%nat ->
                  (at_ dataArray j <= maxVal)%Z)
    \/ (exists j : nat,
          (j < List.length dataArray)%nat
          /\ peakLoop dataArray i maxVal maxIndex
             = (at_ dataArray j, (i + Z.of_nat j)%Z)
          /\ (maxVal < at_ dataArray j)%Z
          /\ (forall j', (j' < j)%nat ->
                         (at_ dataArray j' < at_ dataArray j)%Z)
          /\ (forall j', (j' < List.length dataArray)%nat ->
                         (at_ dataArray j' <= at_ dataArray j)%Z)).
Proof.
  induction dataArray as [|d rest IH]; intros i maxVal maxIndex.
  - left. split; [reflexivity|]. cbn. intros j Hj. lia.
  - cbn [peakLoop List.length].
    destruct (Z.gtb_spec (byteZ d) maxVal) as [Hgt | Hle].
    + right.
      destruct (IH (i + 1)%Z (byteZ d) i)
        as [[Heq Hall] | [j [Hj [Heq [Hlt [Hfirst Hmax]]]]]].
      * exists 0%nat. rewrite Heq, at_head.
        split; [lia|]. split; [f_equal; lia|]. split; [lia|].
        split; [intros j' Hj'; lia|].
        intros [|j'] Hj'; rewrite ?at_head, ?at_tail; [lia|].
        apply Hall. lia.
      * exists (S j). rewrite Heq, at_tail.
        split; [lia|]. split; [f_equal; lia|]. split; [lia|].
        split; intros [|j'] Hj'; rewrite ?at_head, ?at_tail; try lia.
        -- apply Hfirst. lia.
        -- apply Hmax. lia.
    + destruct (IH (i + 1)%Z maxVal maxIndex)
        as [[Heq Hall] | [j [Hj [Heq [Hlt [Hfirst Hmax]]]]]].
      * left. split; [exact Heq|].
        intros [|j'] Hj'; rewrite ?at_head, ?at_tail; [lia|].
        apply Hall. lia.
      * right. exists (S j). rewrite Heq, at_tail.
        split; [lia|]. split; [f_equal; lia|]. split; [lia|].
        split; intros [|j'] Hj'; rewrite ?at_head, ?at_tail; try lia.
        -- apply Hfirst. lia.
        -- apply Hmax. lia.
Qed.

(** From [(-1, -1)] on a non-empty array the scan returns the largest byte
    and the first index that holds it. *)
Lemma peakLoop_first_maximum (dataArray : list byte) :
  dataArray <> [] ->
  exists j : nat,
    (j < List.length dataArray)%nat
    /\ peakLoop dataArray 0 (-1) (-1) = (at_ dataArray j, Z.of_nat j)
    /\ (forall j', (j' < j)%nat -> (at_ dataArray j' < at_ dataArray j)%Z)
    /\ (forall j', (j' < List.length dataArray)%nat ->
                   (at_ dataArray j' <= at_ dataArray j)%Z).
Proof.
  intros Hne.
  destruct (peakLoop_spec dataArray 0 (-1) (-1))
    as [[_ Hall] | [j [Hj [Heq [_ [Hfirst Hmax]]]]]].
  - destruct dataArray as [|d rest]; [contradiction|].
    specialize (Hall 0%nat). cbn [List.length] in Hall.
    unfold at_ in Hall. cbn [nth] in Hall.
    pose proof (byteZ_range d). lia.
  - exists j. rewrite Heq. repeat split; auto.
Qed.

Lemma dataArrayOf_length (an : AnalyserNode) :
  List.length (dataArrayOf an) = frequencyBinCount an.
Proof.
  unfold dataArrayOf, getByteFrequencyData.
  now rewrite length_map, length_seq.
Qed.

Lemma peakFrequencyOf_spec (bin : Z) ctx an :
  fftSize an = 2048%nat ->
  peakFrequencyOf bin ctx an
  = Fin (binFrequency bin (sampleRate ctx) (fftSize an)).
Proof.
  intros Hfft. unfold peakFrequencyOf, of_nat, of_Z. rewrite Hfft.
  assert (H : INR 2048 = 2048) by (rewrite INR_IZR_INZ; reflexivity).
  rewrite div_Fin by (rewrite H; lra).
  cbn [mul]. unfold binFrequency. rewrite H. f_equal. lra.
Qed.

(** C7.  On an initialized processor (transform size 2048, so 1024
    magnitudes) with a positive sample rate, the poll picks the index of the
    largest magnitude, the first one on ties; the frequency before rounding
    is [index * sampleRate / transformSize], which grows strictly with the
    index; the reported peak frequency is that value rounded to the nearest
    integer (a tie going up). *)
Theorem peak_frequency_extraction this standard an ctx :
  analyser this = Some an -> audioCtx this = Some ctx ->
  fftSize an = 2048%nat -> 0 < sampleRate ctx ->
  let dataArray := dataArrayOf an in
  (exists j : nat,
      (j < List.length dataArray)%nat
      /\ peakIndex an = Z.of_nat j
      /\ maxMagnitude an = at_ dataArray j
      /\ (forall j', (j' < j)%nat -> (at_ dataArray j' < at_ dataArray j)%Z)
      /\ (forall j', (j' < List.length dataArray)%nat ->
                     (at_ dataArray j' <= at_ dataArray j)%Z)
      /\ rawPeakFrequency ctx an
         = Fin (binFrequency (Z.of_nat j) (sampleRate ctx) (fftSize an))
      /\ exists x : R,
           AudioMetrics.peakFrequency (getMetrics this standard) = Fin x
           /\ roundedTo 1
                (binFrequency (Z.of_nat j) (sampleRate ctx) (fftSize an)) x)
  /\ (forall bin : Z,
         peakFrequencyOf bin ctx an
         = Fin (binFrequency bin (sampleRate ctx) (fftSize an)))
  /\ (forall bin bin' : Z,
         (bin < bin')%Z ->
         binFrequency bin (sampleRate ctx) (fftSize an)
         < binFrequency bin' (sampleRate ctx) (fftSize an)).
Proof.
  intros Han Hctx Hfft Hrate dataArray.
  split; [|split].
  - assert (Hne : dataArray <> []).
    { intros Hnil. pose proof (dataArrayOf_length an) as Hlen.
      fold dataArray in Hlen. rewrite Hnil in Hlen.
      unfold frequencyBinCount in Hlen. rewrite Hfft in Hlen.
      cbn in Hlen. discriminate. }
    destruct (peakLoop_first_maximum dataArray Hne)
      as [j [Hj [Heq [Hfirst Hmax]]]].
    exists j. unfold peakIndex, maxMagnitude, rawPeakFrequency, peakIndex.
    fold dataArray. rewrite Heq. cbn [fst snd].
    repeat (split; [solve [auto]|]).
    split; [now apply peakFrequencyOf_spec|].
    rewrite (getMetrics_ready this standard an ctx Han Hctx).
    cbn [AudioMetrics.peakFrequency].
    unfold rawPeakFrequency, peakIndex. fold dataArray. rewrite Heq.
    cbn [snd]. rewrite peakFrequencyOf_spec by exact Hfft.
    cbn [Math_round]. eexists. split; [reflexivity|].
    set (hz := binFrequency (Z.of_nat j) (sampleRate ctx) (fftSize an)).
    exists (Int_part (hz + 0.5)). split; [lra|].
    pose proof (Int_part_bounds (hz + 0.5)). lra.
  - intros bin. now apply peakFrequencyOf_spec.
  - intros bin bin' Hlt. unfold binFrequency. rewrite Hfft.
    assert (H : INR 2048 = 2048) by (rewrite INR_IZR_INZ; reflexivity).
    rewrite H. apply IZR_lt in Hlt.
    assert (Hstep : 0 < sampleRate ctx / 2048) by lra.
    nra.
Qed.

Lemma peak_frequency_extraction_witness :
  binFrequency 1 (sampleRate silentContext) (fftSize silentAnalyser)
  < binFrequency 2 (sampleRate silentContext) (fftSize silentAnalyser)
  /\ peakFrequencyOf 3 silentContext silentAnalyser
     = Fin (binFrequency 3 (sampleRate silentContext) (fftSize silentAnalyser)).
Proof.
  assert (Hrate : 0 < sampleRate silentContext) by (cbn; lra).
  pose proof (peak_frequency_extraction (silentProcessor (Fin 0))
                washingMachine silentAnalyser silentContext
                eq_refl eq_refl eq_refl Hrate) as [_ [Hhz Hmono]].
  split; [apply Hmono; lia | apply Hhz].
Defined.

End Peak.

(* ================================================================== *)
(** * The history                                                      *)
(* ================================================================== *)

Section History.

Import App.

Lemma saveToHistory_history fresh machine finalMetrics st :
  history (saveToHistory fresh machine finalMetrics st)
  = firstn 50 (entryOf fresh machine finalMetrics :: history st).
Proof. reflexivity. Qed.

(** C5.  [saveToHistory] puts the new record at the front of the history
    and keeps the first 50 entries: the result has at most 50 entries, the
    earlier ones follow in their order, and from a history of 50 the last
    one (the one inserted first) is dropped, which leaves exactly 50.  The
    same list is what is written to the store. *)
Theorem history_retention fresh machine finalMetrics st :
  let newEntry := entryOf fresh machine finalMetrics in
  let updated := history (saveToHistory fresh machine finalMetrics st) in
  updated = newEntry :: firstn 49 (history st)
  /\ hd_error updated = Some newEntry
  /\ (List.length updated <= 50)%nat
  /\ List.length updated = Nat.min 50 (S (List.length (history st)))
  /\ (List.length (history st) = 50%nat ->
      updated = newEntry :: removelast (history st)
      /\ List.length updated = 50%nat)
  /\ effects (saveToHistory fresh machine finalMetrics st)
     = effects st ++ [setItem HISTORY_STORAGE_KEY (Json updated)].
Proof.
  intros newEntry updated. subst updated. rewrite saveToHistory_history.
  fold newEntry.
  change (firstn 50 (newEntry :: history st))
    with (newEntry :: firstn 49 (history st)).
  split; [reflexivity|]. split; [reflexivity|].
  cbn [List.length]. rewrite length_firstn.
  split; [lia|]. split; [lia|].
  split; [|reflexivity].
  intros H50. split; [|lia].
  f_equal. rewrite removelast_firstn_len, H50. reflexivity.
Qed.

Lemma history_retention_witness :
  List.length (App.history fullState) = 50%nat
  /\ App.history (saveToHistory someFresh washingMachine idleMetrics fullState)
     = entryOf someFresh washingMachine idleMetrics
       :: removelast (App.history fullState).
Proof.
  split; [reflexivity|].
  exact (proj1 (proj1 (proj2 (proj2 (proj2 (proj2
    (history_retention someFresh washingMachine idleMetrics fullState)))))
    eq_refl)).
Defined.

End History.

(* ================================================================== *)
(** * The session                                                      *)
(* ================================================================== *)

Ltac destruct_state st :=
  destruct st as [sel meas fin met fd cal hist cd ap af mr eff pend].

Section Session.

Import App.

Lemma historyWrites_app (es es' : list Effect) :
  historyWrites (es ++ es') = historyWrites es ++ historyWrites es'.
Proof.
  induction es as [|e es IH]; [reflexivity|].
  destruct e as [m | key [t | h] | key | s | | hd]; cbn [app historyWrites];
    try exact IH.
  destruct (String.eqb key HISTORY_STORAGE_KEY); cbn [app]; now rewrite IH.
Qed.

Lemma historyWrites_stop (p : AudioService.AudioProcessor) :
  historyWrites (AudioService.stop p) = [].
Proof.
  unfold AudioService.stop.
  destruct (AudioService.stream p), (AudioService.audioCtx p); reflexivity.
Qed.

Lemma recordsProduced_writes st st' :
  historyWrites (effects st') = historyWrites (effects st) ->
  recordsProduced st' = recordsProduced st.
Proof. unfold recordsProduced. now intros ->. Qed.

Lemma recordsProduced_one_more st st' h :
  historyWrites (effects st') = historyWrites (effects st) ++ [h] ->
  recordsProduced st' = S (recordsProduced st).
Proof. unfold recordsProduced. intros ->. rewrite length_app. cbn. lia. Qed.

(** The termination path on a running session: one record, built from the
    metrics published last, after the audio source has been released. *)
Lemma stopMeasurement_running fresh st machine :
  isMeasuring st = true -> selectedMachine st = Some machine ->
  let st' := stopMeasurement fresh st in
  isMeasuring st' = false
  /\ selectedMachine st' = Some machine
  /\ hasFinishedTest st' = true
  /\ countdown st' = None
  /\ audioProcessorRef st' = None
  /\ animationFrameRef st' = None
  /\ history st'
     = firstn 50 (entryOf fresh machine (metricsRef st) :: history st)
  /\ historyWrites (effects st')
     = historyWrites (effects st) ++ [history st'].
Proof.
  intros Hm Hs. destruct_state st.
  cbn in Hm, Hs. subst meas sel. unfold stopMeasurement.
  destruct ap as [p|], af as [h|]; cbn;
    repeat (split; [reflexivity|]);
    rewrite ?historyWrites_app, ?historyWrites_stop, ?app_nil_r;
    reflexivity.
Qed.

(** The termination path on a session that does not run, or that has no
    machine: no record. *)
Lemma stopMeasurement_no_record fresh st :
  isMeasuring st = false \/ selectedMachine st = None ->
  let st' := stopMeasurement fresh st in
  history st' = history st
  /\ historyWrites (effects st') = historyWrites (effects st).
Proof.
  intros Hm. destruct_state st. cbn in Hm. unfold stopMeasurement.
  destruct Hm as [-> | ->]; destruct ap as [p|], af as [h|];
    try destruct meas; try destruct sel; cbn;
    (split; [reflexivity|]);
    rewrite ?historyWrites_app, ?historyWrites_stop, ?app_nil_r;
    reflexivity.
Qed.

Lemma stopMeasurement_fields fresh st :
  audioProcessorRef (stopMeasurement fresh st) = None
  /\ isMeasuring (stopMeasurement fresh st) = false
  /\ countdown (stopMeasurement fresh st) = None
  /\ animationFrameRef (stopMeasurement fresh st) = None
  /\ hasFinishedTest (stopMeasurement fresh st) = true
  /\ selectedMachine (stopMeasurement fresh st) = selectedMachine st
  /\ App.calibrationOffset (stopMeasurement fresh st)
     = App.calibrationOffset st
  /\ metrics (stopMeasurement fresh st) = metrics st
  /\ metricsRef (stopMeasurement fresh st) = metricsRef st
  /\ pendingStarts (stopMeasurement fresh st) = pendingStarts st.
Proof.
  destruct_state st. unfold stopMeasurement.
  destruct ap, meas, sel, af; cbn; repeat split.
Qed.

Lemma stopMeasurement_stopped fresh st :
  isMeasuring st = false ->
  let st' := stopMeasurement fresh st in
  isMeasuring st' = false
  /\ selectedMachine st' = selectedMachine st
  /\ hasFinishedTest st' = true
  /\ countdown st' = None
  /\ audioProcessorRef st' = None
  /\ animationFrameRef st' = None
  /\ history st' = history st
  /\ recordsProduced st' = recordsProduced st.
Proof.
  intros Hm st'.
  destruct (stopMeasurement_fields fresh st)
    as [H1 [H2 [H3 [H4 [H5 [H6 _]]]]]].
  destruct (stopMeasurement_no_record fresh st (or_introl Hm)) as [H7 H8].
  subst st'. repeat (split; [assumption|]).
  now apply recordsProduced_writes.
Qed.

Lemma resetToMenu_fields fresh st :
  selectedMachine (resetToMenu fresh st) = None
  /\ isMeasuring (resetToMenu fresh st) = false
  /\ hasFinishedTest (resetToMenu fresh st) = false
  /\ countdown (resetToMenu fresh st) = None
  /\ audioProcessorRef (resetToMenu fresh st) = None
  /\ animationFrameRef (resetToMenu fresh st) = None
  /\ metrics (resetToMenu fresh st) = idleMetrics
  /\ App.calibrationOffset (resetToMenu fresh st) = App.calibrationOffset st
  /\ history (resetToMenu fresh st) = history (stopMeasurement fresh st)
  /\ effects (resetToMenu fresh st) = effects (stopMeasurement fresh st).
Proof.
  destruct (stopMeasurement_fields fresh st)
    as [H1 [H2 [H3 [H4 [_ [_ [H7 _]]]]]]].
  unfold resetToMenu.
  generalize dependent (stopMeasurement fresh st). intros s H1 H2 H3 H4 H7.
  cbn. repeat split; assumption.
Qed.

(** ** The effects after a render *)

Lemma sameSelection_refl sel : sameSelection sel sel = true.
Proof. destruct sel as [m|]; [apply String.eqb_refl | reflexivity]. Qed.

Lemma pollingEffect_fields fresh prev st :
  let st' := pollingEffect fresh prev st in
  isMeasuring st' = isMeasuring st
  /\ selectedMachine st' = selectedMachine st
  /\ hasFinishedTest st' = hasFinishedTest st
  /\ countdown st' = countdown st
  /\ history st' = history st
  /\ audioProcessorRef st' = audioProcessorRef st
  /\ metricsRef st' = metricsRef st
  /\ App.calibrationOffset st' = App.calibrationOffset st
  /\ pendingStarts st' = pendingStarts st
  /\ historyWrites (effects st') = historyWrites (effects st).
Proof.
  destruct_state st. unfold pollingEffect, updateNow.
  destruct (_ && _); [cbn; repeat split|].
  destruct af, meas, sel, ap; cbn; repeat split;
    rewrite ?historyWrites_app, ?app_nil_r; reflexivity.
Qed.

Lemma pollingEffect_same fresh prev st :
  isMeasuring prev = isMeasuring st ->
  selectedMachine prev = selectedMachine st ->
  pollingEffect fresh prev st = st.
Proof.
  intros Hm Hs. unfold pollingEffect.
  now rewrite Hm, Hs, Bool.eqb_reflx, sameSelection_refl.
Qed.

Lemma pollingEffect_stopped fresh prev st :
  isMeasuring st = false -> animationFrameRef st = None ->
  pollingEffect fresh prev st = st.
Proof.
  intros Hm Hf. destruct_state st. cbn in Hm, Hf. subst meas af.
  unfold pollingEffect. now destruct (_ && _).
Qed.

Lemma countdownEffect_idle fresh st c :
  countdown st = Some c -> (0 < c)%Z -> countdownEffect fresh st = st.
Proof.
  intros Hc Hpos. unfold countdownEffect. rewrite Hc.
  destruct c; try reflexivity; lia.
Qed.

Lemma countdownEffect_none fresh st :
  countdown st = None -> countdownEffect fresh st = st.
Proof. intros Hc. unfold countdownEffect. now rewrite Hc. Qed.

Lemma countdownEffect_cases fresh st :
  (countdown st = Some 0%Z
   /\ countdownEffect fresh st = stopMeasurement fresh st)
  \/ (countdown st <> Some 0%Z /\ countdownEffect fresh st = st).
Proof.
  unfold countdownEffect.
  destruct (countdown st) as [[|c|c]|];
    [left; auto | right | right | right]; split; auto; discriminate.
Qed.

(** The second render finds nothing to do but to bring the ref up to the
    metrics the first poll may have published. *)
Lemma afterRender_eq fresh prev st :
  afterRender fresh prev st = metricsEffect (commit fresh prev st).
Proof.
  unfold afterRender. cbv zeta.
  set (st1 := commit fresh prev st). unfold commit at 1.
  destruct (pollingEffect_fields fresh prev (metricsEffect st))
    as [Pm [Ps [_ [Pc _]]]].
  destruct (countdownEffect_cases fresh
              (pollingEffect fresh prev (metricsEffect st)))
    as [[Hz Hce] | [Hnz Hce]].
  - assert (Hst1 : st1 = stopMeasurement fresh
                          (pollingEffect fresh prev (metricsEffect st)))
      by exact Hce.
    destruct (stopMeasurement_fields fresh
                (pollingEffect fresh prev (metricsEffect st)))
      as [_ [H2 [H3 [H4 _]]]].
    rewrite <- Hst1 in H2, H3, H4.
    rewrite pollingEffect_stopped; [|exact H2|exact H4].
    apply countdownEffect_none. exact H3.
  - assert (Hst1 : st1 = pollingEffect fresh prev (metricsEffect st))
      by exact Hce.
    rewrite pollingEffect_same;
      [|rewrite Hst1; symmetry; exact Pm|rewrite Hst1; symmetry; exact Ps].
    destruct (countdownEffect_cases fresh (metricsEffect st1))
      as [[Hz' _] | [_ Hce']]; [|exact Hce'].
    exfalso. apply Hnz. rewrite <- Hst1. exact Hz'.
Qed.

Lemma step_eq st fresh ev :
  step st (fresh, ev)
  = metricsEffect
      (countdownEffect fresh
         (pollingEffect fresh st (metricsEffect (handle fresh ev st)))).
Proof. unfold step. cbn [fst snd]. apply afterRender_eq. Qed.

(** An event that leaves [isMeasuring] and the selection as they are does
    not wake the polling effect. *)
Lemma step_same_deps st fresh ev :
  isMeasuring (handle fresh ev st) = isMeasuring st ->
  selectedMachine (handle fresh ev st) = selectedMachine st ->
  step st (fresh, ev)
  = metricsEffect (countdownEffect fresh (metricsEffect (handle fresh ev st))).
Proof.
  intros Hm Hs. rewrite step_eq.
  rewrite pollingEffect_same; [reflexivity | |]; symmetry; assumption.
Qed.

Lemma step_no_expiry fresh ev st c :
  isMeasuring (handle fresh ev st) = isMeasuring st ->
  selectedMachine (handle fresh ev st) = selectedMachine st ->
  countdown (handle fresh ev st) = Some c -> (0 < c)%Z ->
  step st (fresh, ev) = metricsEffect (handle fresh ev st).
Proof.
  intros Hm Hs Hc Hpos. rewrite (step_same_deps st fresh ev Hm Hs).
  now rewrite (countdownEffect_idle fresh _ c).
Qed.

(** After a handler that leaves no measurement running, the renders produce
    no record. *)
Lemma afterRender_stopped fresh prev st :
  isMeasuring st = false ->
  let st' := afterRender fresh prev st in
  isMeasuring st' = false
  /\ selectedMachine st' = selectedMachine st
  /\ history st' = history st
  /\ historyWrites (effects st') = historyWrites (effects st).
Proof.
  intros Hm st'. subst st'. rewrite afterRender_eq. unfold commit.
  destruct (pollingEffect_fields fresh prev (metricsEffect st))
    as [Pm [Ps [_ [_ [Ph [_ [_ [_ [_ Pw]]]]]]]]].
  set (P := pollingEffect fresh prev (metricsEffect st)) in *.
  assert (HmP : isMeasuring P = false) by (rewrite Pm; exact Hm).
  destruct (countdownEffect_cases fresh P) as [[_ Hce] | [_ Hce]];
    rewrite Hce.
  - destruct (stopMeasurement_fields fresh P) as [_ [H2 [_ [_ [_ [H6 _]]]]]].
    destruct (stopMeasurement_no_record fresh P (or_introl HmP)) as [H7 H8].
    split; [exact H2|].
    split; [exact (eq_trans H6 Ps)|].
    split; [exact (eq_trans H7 Ph) | exact (eq_trans H8 Pw)].
  - split; [exact HmP|]. split; [exact Ps|]. split; [exact Ph | exact Pw].
Qed.

Lemma handle_stopped fresh ev st :
  sessionEvent ev = true -> isMeasuring st = false ->
  isMeasuring (handle fresh ev st) = false
  /\ history (handle fresh ev st) = history st
  /\ historyWrites (effects (handle fresh ev st))
     = historyWrites (effects st).
Proof.
  intros Hev Hm. destruct ev; try discriminate; cbn [handle].
  - destruct (stopMeasurement_fields fresh st) as [_ [H2 _]].
    destruct (stopMeasurement_no_record fresh st (or_introl Hm)) as [H7 H8].
    auto.
  - destruct (stopMeasurement_fields fresh st) as [_ [H2 _]].
    destruct (stopMeasurement_no_record fresh st (or_introl Hm)) as [H7 H8].
    unfold resetToMenu. auto.
  - unfold update. rewrite Hm. auto.
  - unfold tick. destruct (countdown st) as [c|]; auto.
    destruct (c >? 0)%Z; auto.
  - unfold handleCalibrationChange. cbn.
    destruct (audioProcessorRef st); cbn; repeat split; auto;
      rewrite historyWrites_app; cbn; apply app_nil_r.
Qed.

Lemma step_stopped occurrence st :
  sessionEvent (snd occurrence) = true -> isMeasuring st = false ->
  isMeasuring (step st occurrence) = false
  /\ history (step st occurrence) = history st
  /\ historyWrites (effects (step st occurrence))
     = historyWrites (effects st).
Proof.
  intros Hev Hm. destruct occurrence as [fresh ev]. cbn [snd] in Hev.
  unfold step. cbn [fst snd].
  destruct (handle_stopped fresh ev st Hev Hm) as [H1 [H2 H3]].
  destruct (afterRender_stopped fresh st (handle fresh ev st) H1)
    as [H4 [_ [H5 H6]]].
  split; [exact H4|]. split; congruence.
Qed.

Lemma run_stopped occurrences :
  forall st,
    Forall (fun o => sessionEvent (snd o) = true) occurrences ->
    isMeasuring st = false ->
    isMeasuring (run occurrences st) = false
    /\ history (run occurrences st) = history st
    /\ historyWrites (effects (run occurrences st))
       = historyWrites (effects st).
Proof.
  induction occurrences as [|o rest IH]; intros st Hall Hm; [auto|].
  inversion Hall as [|? ? Ho Hrest]; subst.
  destruct (step_stopped o st Ho Hm) as [H1 [H2 H3]].
  destruct (IH (step st o) Hrest H1) as [H4 [H5 H6]].
  cbn [run fold_left]. fold (run rest (step st o)).
  split; [exact H4|]. split; congruence.
Qed.

(** A terminating event on a running session with its machine. *)
Lemma terminating_step fresh ev st machine :
  ev = StopMeasurement \/ ev = ResetToMenu ->
  isMeasuring st = true -> selectedMachine st = Some machine ->
  isMeasuring (step st (fresh, ev)) = false
  /\ history (step st (fresh, ev))
     = firstn 50 (entryOf fresh machine (metricsRef st) :: history st)
  /\ historyWrites (effects (step st (fresh, ev)))
     = historyWrites (effects st) ++ [history (step st (fresh, ev))].
Proof.
  intros Hev Hm Hsel.
  destruct (stopMeasurement_running fresh st machine Hm Hsel)
    as [H1 [_ [_ [_ [_ [_ [Hhist Hw]]]]]]].
  assert (Hh : isMeasuring (handle fresh ev st) = false
               /\ history (handle fresh ev st)
                  = history (stopMeasurement fresh st)
               /\ effects (handle fresh ev st)
                  = effects (stopMeasurement fresh st)).
  { destruct Hev as [-> | ->]; cbn [handle]; unfold resetToMenu; auto. }
  destruct Hh as [Hh1 [Hh2 Hh3]].
  unfold step. cbn [fst snd].
  destruct (afterRender_stopped fresh st (handle fresh ev st) Hh1)
    as [H4 [_ [H5 H6]]].
  split; [exact H4|].
  split; [now rewrite H5, Hh2|].
  now rewrite H6, H5, Hh3, Hh2.
Qed.

(** The last second of the timer on a running session with its machine. *)
Lemma last_second_step fresh st machine :
  isMeasuring st = true -> selectedMachine st = Some machine ->
  countdown st = Some 1%Z ->
  isMeasuring (step st (fresh, TimerTick)) = false
  /\ history (step st (fresh, TimerTick))
     = firstn 50 (entryOf fresh machine (metrics st) :: history st)
  /\ historyWrites (effects (step st (fresh, TimerTick)))
     = historyWrites (effects st)
       ++ [history (step st (fresh, TimerTick))].
Proof.
  intros Hm Hsel Hcd.
  assert (Htick : handle fresh TimerTick st = setCountdown (Some 0%Z) st)
    by (cbn [handle]; unfold tick; rewrite Hcd; reflexivity).
  rewrite step_same_deps; rewrite Htick; [| reflexivity | reflexivity].
  set (s1 := metricsEffect (setCountdown (Some 0%Z) st)).
  assert (Hc1 : countdownEffect fresh s1 = stopMeasurement fresh s1)
    by reflexivity.
  rewrite Hc1.
  assert (Hm1 : isMeasuring s1 = true) by exact Hm.
  assert (Hs1 : selectedMachine s1 = Some machine) by exact Hsel.
  destruct (stopMeasurement_running fresh s1 machine Hm1 Hs1)
    as [H1 [_ [_ [_ [_ [_ [Hhist Hw]]]]]]].
  split; [exact H1|]. split; [exact Hhist | exact Hw].
Qed.

Lemma ticks_cons o rest : ticks (o :: rest) = (ticks [o] + ticks rest)%Z.
Proof.
  unfold ticks. cbn [filter].
  destruct (match snd o with TimerTick => true | _ => false end);
    cbn [List.length]; lia.
Qed.

Lemma ticks_nonneg occurrences : (0 <= ticks occurrences)%Z.
Proof. unfold ticks. lia. Qed.

(** A frame, a second that is not the last, or a calibration change on a
    running session: the session goes on, nothing is recorded. *)
Lemma quiet_step_fields st fresh ev c :
  quietEvent ev = true ->
  isMeasuring st = true -> countdown st = Some c ->
  (0 < c - ticks [(fresh, ev)])%Z ->
  let st' := step st (fresh, ev) in
  isMeasuring st' = true
  /\ countdown st' = Some (c - ticks [(fresh, ev)])%Z
  /\ selectedMachine st' = selectedMachine st
  /\ history st' = history st
  /\ effects st'
     = effects st
       ++ match ev with
          | CalibrationChange val =>
              [setItem CALIBRATION_STORAGE_KEY (Text val)]
          | _ => []
          end
  /\ (audioProcessorRef st <> None -> audioProcessorRef st' <> None).
Proof.
  intros Hq Hm Hcd Hleft.
  destruct_state st. cbn in Hm, Hcd. subst meas cd.
  destruct ev; try discriminate; cbv zeta.
  - (* frame *)
    assert (Ht : ticks [(fresh, AnimationFrame freq time handle0)] = 0%Z)
      by reflexivity.
    rewrite Ht in *. replace (c - 0)%Z with c in * by lia.
    rewrite (step_no_expiry fresh _ _ c);
      [| destruct sel, ap; reflexivity | destruct sel, ap; reflexivity
       | destruct sel, ap; reflexivity | exact Hleft].
    destruct sel, ap; cbn; rewrite ?app_nil_r;
      repeat split; auto; discriminate.
  - (* timer *)
    assert (Ht : ticks [(fresh, TimerTick)] = 1%Z) by reflexivity.
    rewrite Ht in *.
    assert (Hgt : (c >? 0)%Z = true) by (apply Z.gtb_lt; lia).
    rewrite (step_no_expiry fresh _ _ (c - 1)%Z);
      [| cbn; rewrite Hgt; reflexivity | cbn; rewrite Hgt; reflexivity
       | cbn; rewrite Hgt; reflexivity | exact Hleft].
    cbn. rewrite Hgt. cbn. rewrite app_nil_r. repeat split; auto.
  - (* calibration *)
    assert (Ht : ticks [(fresh, CalibrationChange val)] = 0%Z) by reflexivity.
    rewrite Ht in *. replace (c - 0)%Z with c in * by lia.
    rewrite (step_no_expiry fresh _ _ c);
      [| destruct ap; reflexivity | destruct ap; reflexivity
       | destruct ap; reflexivity | exact Hleft].
    destruct ap; cbn; repeat split; auto; discriminate.
Qed.

(** One event of a session keeps the invariant, a second of the timer
    taking one off the seconds to go. *)
Lemma step_invariant machine h0 w0 c occurrence st :
  sessionEvent (snd occurrence) = true ->
  sessionInvariant machine h0 w0 c st ->
  sessionInvariant machine h0 w0 (c - ticks [occurrence])
    (step st occurrence).
Proof.
  intros Hev [[Hm [Hh Hw]] | [Hm [Hsel [Hh [Hw [Hcd Hpos]]]]]].
  - destruct (step_stopped occurrence st Hev Hm) as [H1 [H2 H3]].
    left. split; [exact H1|]. rewrite H2, H3. auto.
  - destruct occurrence as [fresh ev]. cbn [snd] in Hev.
    destruct (Z.eq_dec (c - ticks [(fresh, ev)]) 0) as [Hz | Hnz].
    + (* the last second *)
      assert (Hev' : ev = TimerTick /\ c = 1%Z).
      { destruct ev; try discriminate; cbn in Hz; split; auto; lia. }
      destruct Hev' as [-> ->].
      destruct (last_second_step fresh st machine Hm Hsel Hcd)
        as [H1 [H2 H3]].
      left. split; [exact H1|]. split.
      * exists fresh, (metrics st). now rewrite H2, Hh.
      * now rewrite H3, Hw.
    + destruct (quietEvent ev) eqn:Hq.
      * assert (Hleft : (0 < c - ticks [(fresh, ev)])%Z).
        { pose proof (ticks_nonneg [(fresh, ev)]).
          assert (ticks [(fresh, ev)] <= 1)%Z
            by (destruct ev; cbn; lia).
          lia. }
        destruct (quiet_step_fields st fresh ev c Hq Hm Hcd Hleft)
          as [Q1 [Q2 [Q3 [Q4 [Q5 _]]]]].
        right. split; [exact Q1|]. split; [now rewrite Q3|].
        split; [now rewrite Q4|]. split; [|split; [exact Q2 | exact Hleft]].
        rewrite Q5, historyWrites_app, <- Hw.
        destruct ev; cbn; apply app_nil_r.
      * assert (Hterm : ev = StopMeasurement \/ ev = ResetToMenu)
          by (destruct ev; try discriminate; auto).
        destruct (terminating_step fresh ev st machine Hterm Hm Hsel)
          as [H1 [H2 H3]].
        left. split; [exact H1|]. split.
        -- exists fresh, (metricsRef st). now rewrite H2, Hh.
        -- now rewrite H3, Hw.
Qed.

Lemma run_invariant machine h0 w0 occurrences :
  forall c st,
    Forall (fun o => sessionEvent (snd o) = true) occurrences ->
    sessionInvariant machine h0 w0 c st ->
    sessionInvariant machine h0 w0 (c - ticks occurrences)
      (run occurrences st).
Proof.
  induction occurrences as [|o rest IH]; intros c st Hall Hinv.
  - cbn. replace (c - 0)%Z with c by lia. exact Hinv.
  - inversion Hall as [|? ? Ho Hrest]; subst.
    cbn [run fold_left]. fold (run rest (step st o)).
    rewrite ticks_cons.
    replace (c - (ticks [o] + ticks rest))%Z
      with (c - ticks [o] - ticks rest)%Z by lia.
    apply IH; [exact Hrest|]. now apply step_invariant.
Qed.

Lemma step_terminates fresh ev st :
  ev = StopMeasurement \/ ev = ResetToMenu ->
  isMeasuring (step st (fresh, ev)) = false.
Proof.
  intros Hev. unfold step. cbn [fst snd].
  apply afterRender_stopped.
  destruct (stopMeasurement_fields fresh st) as [_ [H2 _]].
  destruct Hev as [-> | ->]; cbn [handle]; exact H2.
Qed.

Lemma run_app l1 l2 st : run (l1 ++ l2) st = run l2 (run l1 st).
Proof. unfold run. apply fold_left_app. Qed.

(** C3, refuted on the program.  The washing machine is chosen and the
    start asked for; while the microphone is being asked for the user goes
    back to the menu; then the microphone is granted.  The rest of
    [startMeasurement] now sets the running flag and the countdown of 10
    and holds the processor, with no machine selected.  Ten seconds later
    the countdown ends the session, and the guard of the termination path
    ([isMeasuring && selectedMachine]) skips [saveToHistory]: the session
    is over and finished, the audio source has been released, and no
    record has been produced, neither in the history nor in the store. *)
Theorem overtaken_start_leaves_no_record :
  let st1 := run overtakenRun freshState in
  let st2 := run tenSeconds st1 in
  (isMeasuring st1 = true
   /\ countdown st1 = Some 10%Z
   /\ audioProcessorRef st1 <> None
   /\ selectedMachine st1 = None
   /\ recordsProduced st1 = 0%nat)
  /\ (isMeasuring st2 = false
      /\ hasFinishedTest st2 = true
      /\ countdown st2 = None
      /\ audioProcessorRef st2 = None
      /\ history st2 = []
      /\ recordsProduced st2 = 0%nat
      /\ effects st2 = [stopTracks {| streamId := 1 |}; closeContext]).
Proof.
  cbv zeta. repeat split; vm_compute; (reflexivity || discriminate).
Qed.

(** C8, as stated, fails on the idle state: at the first render (no
    machine, nothing running, nothing finished) the termination path sets
    the finished flag. *)
Lemma stop_in_idle_sets_finished :
  IDLE_STATE freshState
  /\ hasFinishedTest freshState = false
  /\ hasFinishedTest (stopMeasurement someFresh freshState) = true
  /\ stopMeasurement someFresh freshState <> freshState.
Proof.
  split; [repeat split|]. split; [reflexivity|]. split; [reflexivity|].
  intros H. apply (f_equal hasFinishedTest) in H. discriminate H.
Qed.

(** C8, amended.  On a finished session the termination path changes
    nothing: the state, with the calls made so far, is the same, so no
    record is produced.  On the idle state it produces no record and leaves
    the running flag, the countdown, the history and the processor handle as
    they are, but it sets the finished flag.  After any termination the
    session is finished, so terminating twice is terminating once. *)
Theorem stop_when_not_running fresh st :
  (FINISHED st -> stopMeasurement fresh st = st)
  /\ (IDLE_STATE st ->
      stopMeasurement fresh st = setHasFinishedTest true st
      /\ isMeasuring (stopMeasurement fresh st) = isMeasuring st
      /\ countdown (stopMeasurement fresh st) = countdown st
      /\ history (stopMeasurement fresh st) = history st
      /\ audioProcessorRef (stopMeasurement fresh st) = audioProcessorRef st
      /\ effects (stopMeasurement fresh st) = effects st)
  /\ FINISHED (stopMeasurement fresh st)
  /\ (forall fresh',
         stopMeasurement fresh' (stopMeasurement fresh st)
         = stopMeasurement fresh st).
Proof.
  assert (Hfin : forall f s, FINISHED s -> stopMeasurement f s = s).
  { intros f s. destruct_state s.
    unfold FINISHED. cbn. intros [-> [-> [-> [-> ->]]]]. reflexivity. }
  assert (Hafter : FINISHED (stopMeasurement fresh st)).
  { destruct_state st.
    unfold stopMeasurement, FINISHED.
    destruct ap, meas, sel, af; cbn; repeat split. }
  split; [apply Hfin|]. split; [|split; [exact Hafter|]].
  - destruct_state st.
    unfold IDLE_STATE. cbn. intros [-> [-> [-> [-> [-> ->]]]]].
    repeat split.
  - intros fresh'. now apply Hfin.
Qed.

Lemma stop_when_not_running_witness :
  stopMeasurement someFresh (stopMeasurement someFresh armedState)
  = stopMeasurement someFresh armedState
  /\ stopMeasurement someFresh freshState = setHasFinishedTest true freshState.
Proof.
  pose proof (stop_when_not_running someFresh
                (stopMeasurement someFresh armedState)) as Hfinished.
  pose proof (stop_when_not_running someFresh freshState) as Hidle.
  split.
  - apply (proj1 Hfinished). repeat split.
  - apply (proj1 (proj2 Hidle)). repeat split.
Defined.

End Session.

(* ================================================================== *)
(** * The calibration setting                                          *)
(* ================================================================== *)

Section Calibration.

Import App.

Lemma decimalValue_integer (m : Z) : decimalValue m 0 = IZR m.
Proof. unfold decimalValue. cbn [powerRZ]. lra. Qed.

(** C4, as stated, fails: with -20 stored, the request ["75"] (parseable,
    outside [-60, 60]) stores 75, and the request ["abc"] (not parseable)
    stores [NaN]; neither is rejected and the earlier value is not kept.
    The processor's own setter takes the value as it comes too. *)
Lemma calibration_request_not_validated :
  App.calibrationOffset freshState = Fin (-20)
  /\ App.calibrationOffset (handleCalibrationChange "75" freshState) = Fin 75
  /\ ~ (-60 <= 75 <= 60)
  /\ App.calibrationOffset (handleCalibrationChange "abc" freshState) = NaN
  /\ App.calibrationOffset (handleCalibrationChange "75" freshState)
     <> App.calibrationOffset freshState
  /\ AudioService.calibrationOffset
       (AudioService.setCalibration (silentProcessor (Fin (-20))) (Fin 75))
     = Fin 75.
Proof.
  assert (H75 : App.calibrationOffset (handleCalibrationChange "75" freshState)
                = Fin 75).
  { change (App.calibrationOffset (handleCalibrationChange "75" freshState))
      with (Fin (decimalValue 75 0)).
    now rewrite decimalValue_integer. }
  split; [reflexivity|]. split; [exact H75|]. split; [lra|].
  split; [reflexivity|]. split; [|reflexivity].
  rewrite H75. change (App.calibrationOffset freshState) with (Fin (-20)).
  intros H. injection H as H. lra.
Qed.

(** C4, amended.  [handleCalibrationChange] checks nothing: whatever the
    text, the stored calibration becomes [parseFloat] of it (so a value
    outside [-60, 60] is stored as it is and a text that does not parse
    stores [NaN]), the text itself is written to the store, and the
    processor of a running measurement is given the same value; the rest of
    the state is unchanged.  In particular a parseable value inside the
    range becomes the stored calibration. *)
Theorem calibration_request_stored val st :
  let st' := handleCalibrationChange val st in
  App.calibrationOffset st' = parseFloat val
  /\ effects st'
     = effects st ++ [setItem CALIBRATION_STORAGE_KEY (Text val)]
  /\ audioProcessorRef st'
     = option_map
         (fun p => AudioService.setCalibration p (parseFloat val))
         (audioProcessorRef st)
  /\ (forall p,
         audioProcessorRef st = Some p ->
         exists p',
           audioProcessorRef st' = Some p'
           /\ AudioService.calibrationOffset p' = parseFloat val)
  /\ selectedMachine st' = selectedMachine st
  /\ isMeasuring st' = isMeasuring st
  /\ hasFinishedTest st' = hasFinishedTest st
  /\ countdown st' = countdown st
  /\ history st' = history st
  /\ metrics st' = metrics st.
Proof.
  intros st'. subst st'.
  destruct_state st.
  unfold handleCalibrationChange.
  destruct ap as [p|]; cbn;
    repeat (split; [reflexivity|]); (split; [|repeat split]).
  - intros p0 Hp0. eexists. split; reflexivity.
  - intros p0 Hp0. discriminate.
Qed.

Lemma calibration_request_stored_witness :
  exists p',
    audioProcessorRef (handleCalibrationChange "75" runningState) = Some p'
    /\ AudioService.calibrationOffset p' = parseFloat "75".
Proof.
  refine (proj1 (proj2 (proj2 (proj2
            (calibration_request_stored "75" runningState))))
            (silentProcessor (Fin (-20))) _).
  vm_compute. reflexivity.
Defined.

End Calibration.

(* ================================================================== *)
(** * Sample runs of the executable parts                              *)
(* ================================================================== *)

Section SampleRuns.

Example peak_scan_takes_first_of_ties :
  AudioService.peakLoop [x05; x09; x09; x03] 0 (-1) (-1) = (9%Z, 1%Z).
Proof. reflexivity. Qed.

Example peak_scan_of_nothing :
  AudioService.peakLoop [] 0 (-1) (-1) = ((-1)%Z, (-1)%Z).
Proof. reflexivity. Qed.

Example parseFloat_slider_value :
  parseFloat "-12.5" = Fin (- decimalValue 125 (-1)).
Proof. reflexivity. Qed.

Example parseFloat_prefix :
  parseFloat "  7e1dB" = Fin (decimalValue 7 1).
Proof. reflexivity. Qed.

Example parseFloat_infinity : parseFloat "-Infinity" = NInf.
Proof. reflexivity. Qed.

Example parseFloat_overflow :
  parseFloat "1e400" = PInf /\ parseFloat "-1e400" = NInf.
Proof. split; vm_compute; reflexivity. Qed.

Example parseFloat_no_break_space :
  parseFloat (String (ascii_of_nat 194) (String (ascii_of_nat 160) "75"))
  = Fin (decimalValue 75 0).
Proof. reflexivity. Qed.

Example parseFloat_no_number :
  parseFloat "" = NaN /\ parseFloat "." = NaN /\ parseFloat "dB" = NaN.
Proof. repeat split. Qed.

Example history_of_fifty_then_one_more :
  List.length
    (App.history
       (App.saveToHistory someFresh washingMachine App.idleMetrics fullState))
  = 50%nat.
Proof. reflexivity. Qed.

End SampleRuns.

(* ================================================================== *)
(** * Further properties of the level                                  *)
(* ================================================================== *)

Section LevelRange.

Import AudioService.

Lemma deviation_bounds (timeData : list byte) :
  (0 <= deviation timeData <= 16384 * Z.of_nat (List.length timeData))%Z.
Proof.
  induction timeData as [|t rest IH].
  - cbn. lia.
  - cbn [deviation fold_right List.length]. fold (deviation rest).
    pose proof (byteZ_range t) as Hb.
    pose proof (Z.square_nonneg (byteZ t - 128)) as Hsq.
    assert (Hle : ((byteZ t - 128) * (byteZ t - 128) <= 16384)%Z).
    { destruct (Z.le_gt_cases 0 (byteZ t - 128)) as [Hp | Hn].
      - pose proof (Z.square_le_mono_nonneg (byteZ t - 128) 128 Hp).
        lia.
      - pose proof (Z.square_le_mono_nonneg (- (byteZ t - 128)) 128).
        lia. }
    lia.
Qed.

Lemma sumOfSquares_deviation (timeData : list byte) :
  sumOfSquares timeData = IZR (deviation timeData) / 16384.
Proof.
  induction timeData as [|t rest IH].
  - unfold sumOfSquares, deviation. cbn [fold_right]. lra.
  - cbn [sumOfSquares deviation fold_right].
    fold (sumOfSquares rest). fold (deviation rest). rewrite IH.
    rewrite plus_IZR, mult_IZR, minus_IZR. unfold sample. field.
Qed.

Lemma rms_deviation (an : AnalyserNode) :
  fftSize an = 2048%nat ->
  rms (timeDataOf an) = sqrt (IZR (deviation (timeDataOf an)) / 33554432)
  /\ rmsOf (timeDataOf an) = Fin (rms (timeDataOf an))
  /\ (0 <= deviation (timeDataOf an) <= 33554432)%Z.
Proof.
  intros Hfft.
  pose proof (timeDataOf_length an) as Hlen. rewrite Hfft in Hlen.
  split; [|split].
  - unfold rms. rewrite sumOfSquares_deviation, Hlen.
    replace (INR 2048) with 2048 by (rewrite INR_IZR_INZ; reflexivity).
    f_equal. field.
  - destruct (rmsOf_cases (timeDataOf an)) as [[Hnil _] | [_ Hr]];
      [|exact Hr].
    rewrite Hnil in Hlen. discriminate.
  - pose proof (deviation_bounds (timeDataOf an)) as Hb.
    rewrite Hlen in Hb. cbn in Hb. lia.
Qed.

Lemma sqrt_thousandth : sqrt 1e-6 = 0.001.
Proof.
  replace 1e-6 with (0.001 * 0.001) by lra. apply sqrt_square. lra.
Qed.

Lemma sqrt_millionth : sqrt 1e-12 = 1e-6.
Proof.
  replace 1e-12 with (1e-6 * 1e-6) by lra. apply sqrt_square. lra.
Qed.

(** X1.  On an initialized processor the stability flag of a poll is set
    exactly when the squared distances of the 2048 time-domain bytes from
    128 sum to at least 34. *)
Theorem stable_iff_deviation this standard an ctx :
  analyser this = Some an -> audioCtx this = Some ctx ->
  fftSize an = 2048%nat ->
  AudioMetrics.isStable (getMetrics this standard)
  = (34 <=? deviation (timeDataOf an))%Z.
Proof.
  intros Han Hctx Hfft.
  rewrite (getMetrics_ready this standard an ctx Han Hctx).
  cbn [AudioMetrics.isStable].
  destruct (rms_deviation an Hfft) as [Hrms [Hof Hb]].
  rewrite Hof, Hrms. unfold gt, lt.
  set (T := deviation (timeDataOf an)) in *.
  destruct (Z.leb_spec 34 T) as [Hge | Hlt].
  - apply Rltb_true. rewrite <- sqrt_thousandth.
    apply sqrt_lt_1_alt. apply IZR_le in Hge. lra.
  - apply Rltb_false. rewrite <- sqrt_thousandth.
    apply sqrt_le_1_alt.
    assert (H33 : IZR T <= 33) by (apply IZR_le; lia). lra.
Qed.

Lemma stable_iff_deviation_witness :
  AudioMetrics.isStable (getMetrics (silentProcessor (Fin 0)) washingMachine)
  = (34 <=? deviation (timeDataOf silentAnalyser))%Z.
Proof.
  exact (stable_iff_deviation (silentProcessor (Fin 0)) washingMachine
           silentAnalyser silentContext eq_refl eq_refl eq_refl).
Defined.

Lemma ln_le_mono (x y : R) : 0 < x -> x <= y -> ln x <= ln y.
Proof.
  intros Hx [Hlt | ->]; [|lra]. left. now apply ln_increasing.
Qed.

(** X2.  On an initialized processor with a finite calibration [c] the
    decibel value before rounding lies between [c - 20] and [c + 100]; it
    is [c - 20] exactly when every time-domain byte is 128; the reported
    value is within 0.05 of it. *)
Theorem db_range this standard an ctx (c : R) :
  analyser this = Some an -> audioCtx this = Some ctx ->
  fftSize an = 2048%nat -> calibrationOffset this = Fin c ->
  exists raw x : R,
    rawDb this an = Fin raw
    /\ AudioMetrics.db (getMetrics this standard) = Fin x
    /\ c - 20 <= raw <= c + 100
    /\ (raw = c - 20 <-> deviation (timeDataOf an) = 0%Z)
    /\ raw - 0.05 < x <= raw + 0.05.
Proof.
  intros Han Hctx Hfft Hc.
  destruct (rms_deviation an Hfft) as [Hrms [_ [Hlo Hhi]]].
  set (T := deviation (timeDataOf an)) in *.
  set (r := rms (timeDataOf an)) in *.
  set (m := Rmax r epsilon).
  assert (Heps : epsilon = 1e-6) by reflexivity.
  assert (Hr1 : r <= 1).
  { rewrite Hrms, <- sqrt_1. apply sqrt_le_1_alt.
    apply IZR_le in Hhi. lra. }
  assert (Hm : epsilon <= m <= 1).
  { split; [apply Rmax_r|]. apply Rmax_lub; lra. }
  assert (Hlog : -6 <= log10 m <= 0).
  { pose proof ln_10_pos as H10. rewrite <- log10_epsilon. unfold log10.
    split.
    - apply Rmult_le_compat_r; [left; now apply Rinv_0_lt_compat|].
      apply ln_le_mono; lra.
    - assert (Hl : ln m <= 0) by (rewrite <- ln_1; apply ln_le_mono; lra).
      assert (Hinv : 0 < / ln 10) by now apply Rinv_0_lt_compat.
      unfold Rdiv. nra. }
  assert (Hzero : log10 m = -6 <-> T = 0%Z).
  { split.
    - intros Hl. destruct (Z.eq_dec T 0) as [H0 | Hn]; [exact H0|].
      exfalso.
      assert (Hgt : epsilon < r).
      { rewrite Hrms, Heps, <- sqrt_millionth. apply sqrt_lt_1_alt.
        assert (H1 : 1 <= IZR T) by (apply IZR_le; lia). lra. }
      assert (Hmr : m = r) by (apply Rmax_left; lra).
      assert (Hln : ln epsilon < ln m).
      { rewrite Hmr. apply ln_increasing; lra. }
      pose proof ln_10_pos as H10. pose proof log10_epsilon as He.
      unfold log10 in Hl, He.
      assert (ln epsilon / ln 10 < ln m / ln 10).
      { apply Rmult_lt_compat_r; [now apply Rinv_0_lt_compat | exact Hln]. }
      lra.
    - intros H0.
      assert (Hr0 : r = 0).
      { rewrite Hrms, H0. replace (0 / 33554432) with 0 by lra.
        apply sqrt_0. }
      assert (Hme : m = epsilon) by (apply Rmax_right; lra).
      rewrite Hme. apply log10_epsilon. }
  exists (20 * log10 m + referenceOffset + c),
         (IZR (Int_part ((20 * log10 m + referenceOffset + c) * 10 + 0.5))
          / 10).
  assert (Hraw : rawDb this an = Fin (20 * log10 m + referenceOffset + c)).
  { rewrite rawDb_spec by exact Hfft. rewrite Hc. reflexivity. }
  split; [exact Hraw|]. split.
  { rewrite (getMetrics_ready this standard an ctx Han Hctx).
    cbn [AudioMetrics.db]. rewrite Hraw. apply reported_db_finite. }
  unfold referenceOffset.
  split; [lra|]. split.
  { rewrite <- Hzero. split; intros H; lra. }
  pose proof (Int_part_bounds ((20 * log10 m + 100 + c) * 10 + 0.5)). lra.
Qed.

Lemma db_range_witness :
  exists raw x : R,
    rawDb (silentProcessor (Fin (-20))) silentAnalyser = Fin raw
    /\ AudioMetrics.db (getMetrics (silentProcessor (Fin (-20)))
                          washingMachine) = Fin x
    /\ -20 - 20 <= raw <= -20 + 100
    /\ (raw = -20 - 20 <-> deviation (timeDataOf silentAnalyser) = 0%Z)
    /\ raw - 0.05 < x <= raw + 0.05.
Proof.
  exact (db_range (silentProcessor (Fin (-20))) washingMachine
           silentAnalyser silentContext (-20)
           eq_refl eq_refl eq_refl eq_refl).
Defined.

End LevelRange.

(* ================================================================== *)
(** * Further properties of the poll                                   *)
(* ================================================================== *)

Section PollRange.

Import AudioService.

Lemma at_range (dataArray : list byte) (j : nat) :
  (0 <= at_ dataArray j <= 255)%Z.
Proof. unfold at_. apply byteZ_range. Qed.

Lemma dataArrayOf_1024 (an : AnalyserNode) :
  fftSize an = 2048%nat -> List.length (dataArrayOf an) = 1024%nat.
Proof.
  intros Hfft. rewrite dataArrayOf_length. unfold frequencyBinCount.
  now rewrite Hfft.
Qed.

(** X3.  On an initialized processor with a positive sample rate the peak
    frequency before rounding is at least 0 and below half the sample
    rate, the reported one is within 0.5 of it, the largest magnitude is a
    byte, and a spectrum of zeros reads 0 Hz. *)
Theorem peak_frequency_range this standard an ctx :
  analyser this = Some an -> audioCtx this = Some ctx ->
  fftSize an = 2048%nat -> 0 < sampleRate ctx ->
  exists hz x : R,
    rawPeakFrequency ctx an = Fin hz
    /\ AudioMetrics.peakFrequency (getMetrics this standard) = Fin x
    /\ 0 <= hz < sampleRate ctx / 2
    /\ hz - 0.5 < x <= hz + 0.5
    /\ (0 <= maxMagnitude an <= 255)%Z
    /\ ((forall j, (j < 1024)%nat -> at_ (dataArrayOf an) j = 0%Z) ->
        hz = 0 /\ x = 0).
Proof.
  intros Han Hctx Hfft Hrate.
  pose proof (dataArrayOf_1024 an Hfft) as Hlen.
  assert (Hne : dataArrayOf an <> []).
  { intros Hnil. rewrite Hnil in Hlen. discriminate. }
  destruct (peakLoop_first_maximum (dataArrayOf an) Hne)
    as [j [Hj [Heq [Hfirst Hmax]]]].
  rewrite Hlen in Hj.
  assert (Hraw : rawPeakFrequency ctx an
                 = Fin (binFrequency (Z.of_nat j) (sampleRate ctx) 2048)).
  { unfold rawPeakFrequency, peakIndex. rewrite Heq. cbn [snd].
    rewrite peakFrequencyOf_spec by exact Hfft. now rewrite Hfft. }
  set (hz := binFrequency (Z.of_nat j) (sampleRate ctx) 2048) in *.
  assert (Hhz : hz = IZR (Z.of_nat j) * sampleRate ctx / 2048).
  { subst hz. unfold binFrequency. f_equal.
    rewrite INR_IZR_INZ. reflexivity. }
  assert (Hj0 : 0 <= IZR (Z.of_nat j) <= 1023).
  { split; apply IZR_le; lia. }
  exists hz, (IZR (Int_part (hz + 0.5))).
  split; [exact Hraw|]. split.
  { rewrite (getMetrics_ready this standard an ctx Han Hctx).
    cbn [AudioMetrics.peakFrequency]. rewrite Hraw. reflexivity. }
  split; [rewrite Hhz; nra|]. split.
  { pose proof (Int_part_bounds (hz + 0.5)). lra. }
  split.
  { unfold maxMagnitude. rewrite Heq. cbn [fst]. apply at_range. }
  intros Hzero.
  assert (Hj00 : j = 0%nat).
  { destruct j as [|j']; [reflexivity|]. exfalso.
    pose proof (Hfirst 0%nat ltac:(lia)) as Hlt.
    rewrite (Hzero (S j') Hj) in Hlt.
    pose proof (at_range (dataArrayOf an) 0). lia. }
  assert (Hhz0 : hz = 0).
  { rewrite Hhz, Hj00. cbn [Z.of_nat]. lra. }
  split; [exact Hhz0|]. rewrite Hhz0.
  rewrite (Int_part_unique (0 + 0.5) 0); [reflexivity | lra].
Qed.

Lemma peak_frequency_range_witness :
  exists hz x : R,
    rawPeakFrequency silentContext silentAnalyser = Fin hz
    /\ AudioMetrics.peakFrequency
         (getMetrics (silentProcessor (Fin 0)) washingMachine) = Fin x
    /\ 0 <= hz < sampleRate silentContext / 2
    /\ hz - 0.5 < x <= hz + 0.5
    /\ (0 <= maxMagnitude silentAnalyser <= 255)%Z
    /\ ((forall j, (j < 1024)%nat -> at_ (dataArrayOf silentAnalyser) j = 0%Z)
        -> hz = 0 /\ x = 0).
Proof.
  assert (Hrate : 0 < sampleRate silentContext) by (cbn; lra).
  exact (peak_frequency_range (silentProcessor (Fin 0)) washingMachine
           silentAnalyser silentContext eq_refl eq_refl eq_refl Hrate).
Defined.

Lemma gt_Fin_mono (x y : R) (limit : number) :
  x <= y -> gt (Fin x) limit = true -> gt (Fin y) limit = true.
Proof.
  intros Hxy. unfold gt, lt. destruct limit as [| | |m]; auto.
  rewrite !Rltb_true. lra.
Qed.

(** X4.  The calibration offset moves the level only: two polls of the
    same processor under any two offsets report the same peak frequency and
    the same stability flag, and raising a finite offset never turns an
    [ABNORMAL] poll into a [NORMAL] one. *)
Theorem calibration_moves_level_only this standard an ctx :
  analyser this = Some an -> audioCtx this = Some ctx ->
  fftSize an = 2048%nat ->
  (forall o o' : number,
      AudioMetrics.peakFrequency (getMetrics (setCalibration this o) standard)
      = AudioMetrics.peakFrequency
          (getMetrics (setCalibration this o') standard)
      /\ AudioMetrics.isStable (getMetrics (setCalibration this o) standard)
         = AudioMetrics.isStable
             (getMetrics (setCalibration this o') standard))
  /\ (forall c c' : R,
         c <= c' ->
         AudioMetrics.status
           (getMetrics (setCalibration this (Fin c)) standard) = ABNORMAL ->
         AudioMetrics.status
           (getMetrics (setCalibration this (Fin c')) standard) = ABNORMAL).
Proof.
  intros Han Hctx Hfft. split.
  - intros o o'.
    rewrite (getMetrics_ready (setCalibration this o) standard an ctx Han Hctx).
    rewrite (getMetrics_ready (setCalibration this o') standard an ctx
               Han Hctx).
    split; reflexivity.
  - intros c c' Hcc.
    rewrite (getMetrics_ready (setCalibration this (Fin c)) standard an ctx
               Han Hctx).
    rewrite (getMetrics_ready (setCalibration this (Fin c')) standard an ctx
               Han Hctx).
    cbn [AudioMetrics.status]. rewrite !rawDb_spec by exact Hfft.
    cbn [calibrationOffset setCalibration add].
    intros Hab. apply diagnose_cases. apply diagnose_cases in Hab.
    destruct Hab as [Hdb | Hpeak]; [left | right; exact Hpeak].
    apply gt_Fin_mono with (2 := Hdb). lra.
Qed.

Lemma calibration_moves_level_only_witness :
  AudioMetrics.peakFrequency
    (getMetrics (setCalibration (silentProcessor (Fin 0)) (Fin 0))
       washingMachine)
  = AudioMetrics.peakFrequency
      (getMetrics (setCalibration (silentProcessor (Fin 0)) (Fin 60))
         washingMachine).
Proof.
  exact (proj1 (proj1 (calibration_moves_level_only (silentProcessor (Fin 0))
                         washingMachine silentAnalyser silentContext
                         eq_refl eq_refl eq_refl) (Fin 0) (Fin 60))).
Defined.

(** X5.  With a calibration offset of [NaN] (what a text that does not
    parse leaves) the reported decibel value is [NaN] and the level never
    counts as exceeded: the poll is [ABNORMAL] exactly when the largest
    magnitude exceeds 200 and the peak lies outside the range. *)
Theorem nan_calibration_disables_level_check this standard an ctx :
  analyser this = Some an -> audioCtx this = Some ctx ->
  calibrationOffset this = NaN ->
  AudioMetrics.db (getMetrics this standard) = NaN
  /\ (AudioMetrics.status (getMetrics this standard) = ABNORMAL
      <-> ((200 < maxMagnitude an)%Z
           /\ (lt (rawPeakFrequency ctx an)
                  (fst (MachineStandard.peakFreqRange standard)) = true
               \/ gt (rawPeakFrequency ctx an)
                     (snd (MachineStandard.peakFreqRange standard)) = true))).
Proof.
  intros Han Hctx Hc.
  assert (Hraw : rawDb this an = NaN).
  { unfold rawDb, dbOf. rewrite Hc.
    destruct (add _ (Fin 100)); reflexivity. }
  rewrite (getMetrics_ready this standard an ctx Han Hctx).
  cbn [AudioMetrics.db AudioMetrics.status]. rewrite Hraw.
  split; [reflexivity|].
  destruct (diagnose_cases NaN (rawPeakFrequency ctx an) (maxMagnitude an)
              standard) as [Hab _].
  rewrite Hab. unfold abnormal. split.
  - intros [Hdb | Hpeak]; [|exact Hpeak].
    unfold gt, lt in Hdb.
    destruct (MachineStandard.maxDb standard); discriminate.
  - intros Hpeak. now right.
Qed.

Lemma nan_calibration_disables_level_check_witness :
  AudioMetrics.db (getMetrics (silentProcessor NaN) washingMachine) = NaN.
Proof.
  exact (proj1 (nan_calibration_disables_level_check (silentProcessor NaN)
                  washingMachine silentAnalyser silentContext
                  eq_refl eq_refl eq_refl)).
Defined.

Lemma nth_map_seq {A : Type} (f : nat -> A) (d : A) :
  forall n start i,
    (i < n)%nat -> nth i (map f (seq start n)) d = f (start + i)%nat.
Proof.
  induction n as [|n IH]; intros start i Hi; [lia|].
  destruct i as [|i]; cbn [seq map nth].
  - f_equal. lia.
  - rewrite IH by lia. f_equal. lia.
Qed.

(** X6.  [initialize] on a processor just constructed succeeds exactly when
    the microphone is granted.  The processor it gives keeps the offset of
    the constructor, has the sample rate of the device and a transform of
    2048, is never polled [IDLE], and [getFrequencyData] hands out the 1024
    magnitudes that the poll scans, index by index those of the device.
    Before [initialize], [getFrequencyData] is empty. *)
Theorem initialize_outcome (offset : number) (dev : Device) standard :
  (initialize (new offset) dev = None <-> userMedia dev = None)
  /\ getFrequencyData (new offset) = []
  /\ (forall p,
         initialize (new offset) dev = Some p ->
         calibrationOffset p = offset
         /\ exists an ctx,
              analyser p = Some an /\ audioCtx p = Some ctx
              /\ fftSize an = 2048%nat
              /\ sampleRate ctx = deviceSampleRate dev
              /\ getFrequencyData p = dataArrayOf an
              /\ List.length (getFrequencyData p) = 1024%nat
              /\ (forall i, (i < 1024)%nat ->
                            nth i (getFrequencyData p) x00
                            = deviceFrequencyBytes dev i)
              /\ AudioMetrics.status (getMetrics p standard) <> IDLE).
Proof.
  split; [|split].
  - unfold initialize. destruct (userMedia dev); split; intros H;
      try discriminate; reflexivity.
  - reflexivity.
  - intros p Hinit. unfold initialize in Hinit.
    destruct (userMedia dev) as [s|]; [|discriminate].
    injection Hinit as <-. cbn [calibrationOffset new].
    split; [reflexivity|].
    eexists. eexists.
    split; [reflexivity|]. split; [reflexivity|].
    split; [reflexivity|]. split; [reflexivity|].
    split; [reflexivity|]. split; [reflexivity|].
    split.
    + intros i Hi. cbn [getFrequencyData analyser].
      unfold getByteFrequencyData, frequencyBinCount. cbn [fftSize].
      change (2048 / 2)%nat with 1024%nat.
      rewrite (nth_map_seq _ x00 1024 0 i Hi). cbn [Nat.add].
      destruct (Nat.ltb_spec i 1024); [reflexivity | lia].
    + intros Hidle.
      match type of Hidle with
      | AudioMetrics.status (getMetrics ?q _) = _ =>
          rewrite (getMetrics_ready q standard _ _ eq_refl eq_refl) in Hidle
      end.
      cbn [AudioMetrics.status] in Hidle. unfold diagnose in Hidle.
      destruct (_ || _) in Hidle; discriminate.
Qed.

Lemma initialize_outcome_witness :
  exists an ctx,
    analyser (silentProcessor (Fin (-20))) = Some an
    /\ audioCtx (silentProcessor (Fin (-20))) = Some ctx
    /\ fftSize an = 2048%nat
    /\ sampleRate ctx = deviceSampleRate silentDevice
    /\ getFrequencyData (silentProcessor (Fin (-20))) = dataArrayOf an
    /\ List.length (getFrequencyData (silentProcessor (Fin (-20))))
       = 1024%nat
    /\ (forall i, (i < 1024)%nat ->
                  nth i (getFrequencyData (silentProcessor (Fin (-20)))) x00
                  = deviceFrequencyBytes silentDevice i)
    /\ AudioMetrics.status
         (getMetrics (silentProcessor (Fin (-20))) washingMachine) <> IDLE.
Proof.
  exact (proj2 (proj2 (proj2 (initialize_outcome (Fin (-20)) silentDevice
                                washingMachine))
                 (silentProcessor (Fin (-20))) eq_refl)).
Defined.

End PollRange.

(* ================================================================== *)
(** * The states a run reaches                                         *)
(* ================================================================== *)

Section Reachable.

Import App.

Lemma coherent_weaken (least least' : Z) st :
  (least' <= least)%Z -> coherent least st -> coherent least' st.
Proof.
  intros Hle. unfold coherent.
  destruct (audioProcessorRef st) as [p|]; [|auto].
  intros [H1 [H2 [[c [Hc Hb]] H4]]].
  repeat (split; [assumption|]). split; [|exact H4].
  exists c. split; [exact Hc | lia].
Qed.

(** [coherent] reads these cells only. *)
Lemma coherent_ext least st st' :
  audioProcessorRef st' = audioProcessorRef st ->
  isMeasuring st' = isMeasuring st ->
  hasFinishedTest st' = hasFinishedTest st ->
  countdown st' = countdown st ->
  animationFrameRef st' = animationFrameRef st ->
  coherent least st -> coherent least st'.
Proof.
  unfold coherent. intros -> -> -> -> ->. auto.
Qed.

Lemma stopMeasurement_coherent least fresh st :
  coherent least (stopMeasurement fresh st).
Proof.
  destruct (stopMeasurement_fields fresh st) as [H1 [H2 [H3 [H4 _]]]].
  unfold coherent. rewrite H1. auto.
Qed.

Lemma coherent_measuring least st :
  coherent least st ->
  audioProcessorRef st <> None -> isMeasuring st = true.
Proof.
  unfold coherent. destruct (audioProcessorRef st); [tauto | congruence].
Qed.

Lemma coherent_held least st :
  coherent least st ->
  isMeasuring st = true -> audioProcessorRef st <> None.
Proof.
  unfold coherent. destruct (audioProcessorRef st); [discriminate|].
  intros [H _]. congruence.
Qed.

Lemma handle_coherent fresh ev st :
  coherent 1 st -> coherent 0 (handle fresh ev st).
Proof.
  intros Hco. destruct ev; cbn [handle].
  - (* select *)
    apply (coherent_weaken 1); [lia|]. exact Hco.
  - (* start, up to the await *)
    apply (coherent_weaken 1); [lia|].
    unfold startMeasurement. destruct (selectedMachine st); exact Hco.
  - (* the awaited start settles *)
    unfold startSettled.
    destruct (nth_error (pendingStarts st) k) as [processor|];
      [|apply (coherent_weaken 1); [lia | exact Hco]].
    unfold AudioService.initialize.
    destruct (AudioService.userMedia dev) as [s|].
    + unfold coherent. cbn.
      split; [reflexivity|]. split; [reflexivity|].
      split; [exists 10%Z; split; [reflexivity | lia]|].
      eexists. eexists. exists s. repeat split.
    + apply (coherent_weaken 1); [lia|]. exact Hco.
  - (* stop *)
    apply stopMeasurement_coherent.
  - (* reset *)
    destruct (stopMeasurement_fields fresh st)
      as [H1 [H2 [H3 [H4 _]]]].
    unfold resetToMenu, coherent. cbn. rewrite H1. auto.
  - (* clear *)
    apply (coherent_weaken 1); [lia|].
    unfold clearHistory. destruct confirmed; exact Hco.
  - (* frame *)
    apply (coherent_weaken 1); [lia|].
    unfold update.
    destruct (isMeasuring st) eqn:Hm; [|exact Hco].
    destruct (selectedMachine st) as [machine|] eqn:Hsel; [|exact Hco].
    unfold coherent in *.
    destruct (audioProcessorRef st) as [p|] eqn:Hap; [|rewrite Hap; exact Hco].
    cbn. rewrite Hm.
    destruct Hco as [_ [H2 [H3 [an [ctx [s [Ha [Hc [Hs Hf]]]]]]]]].
    split; [reflexivity|]. split; [exact H2|]. split; [exact H3|].
    rewrite Ha. eexists. exists ctx, s. repeat split; auto.
  - (* timer *)
    unfold tick.
    destruct (countdown st) as [c|] eqn:Hcd;
      [|apply (coherent_weaken 1); [lia | exact Hco]].
    destruct (Z.gtb_spec c 0) as [Hpos | Hle];
      [|apply (coherent_weaken 1); [lia | exact Hco]].
    unfold coherent in *. cbn.
    destruct (audioProcessorRef st) as [p|].
    + destruct Hco as [H1 [H2 [[c' [Hc' Hb]] H4]]].
      rewrite Hcd in Hc'. injection Hc' as <-.
      repeat (split; [assumption|]). split; [|exact H4].
      exists (c - 1)%Z. split; [reflexivity | lia].
    + destruct Hco as [_ [Hnone _]]. rewrite Hcd in Hnone. discriminate.
  - (* calibration *)
    apply (coherent_weaken 1); [lia|].
    unfold handleCalibrationChange, coherent in *. cbn.
    destruct (audioProcessorRef st) as [p|] eqn:Hap; cbn; rewrite ?Hap;
      exact Hco.
Qed.

Lemma pollingEffect_coherent least fresh prev st :
  coherent least st -> coherent least (pollingEffect fresh prev st).
Proof.
  intros Hco. destruct_state st. unfold pollingEffect, updateNow.
  destruct (_ && _); [exact Hco|].
  unfold coherent in *. cbn in *.
  destruct af, meas, sel, ap; cbn; try exact Hco;
    destruct Hco as [H1 [H2 H3]]; try discriminate; auto.
Qed.

(** The third part of [consistent] through a handler: a frame that was
    pending is still pending if the processor is still held. *)
Lemma handle_frame_kept fresh ev st :
  animationFrameRef st <> None ->
  audioProcessorRef (handle fresh ev st) <> None ->
  animationFrameRef (handle fresh ev st) <> None.
Proof.
  intros Hf. destruct ev; cbn [handle].
  - auto.
  - unfold startMeasurement. destruct (selectedMachine st); auto.
  - unfold startSettled.
    destruct (nth_error (pendingStarts st) k); [|auto].
    destruct (AudioService.initialize _ dev); auto.
  - destruct (stopMeasurement_fields fresh st) as [H1 _]. congruence.
  - destruct (stopMeasurement_fields fresh st) as [H1 _].
    unfold resetToMenu. cbn. congruence.
  - unfold clearHistory. destruct confirmed; auto.
  - unfold update.
    destruct (isMeasuring st), (selectedMachine st), (audioProcessorRef st);
      auto; cbn; discriminate.
  - unfold tick. destruct (countdown st) as [c|]; auto.
    destruct (c >? 0)%Z; auto.
  - unfold handleCalibrationChange. cbn.
    destruct (audioProcessorRef st); auto.
Qed.

Lemma sameSelection_some a b :
  sameSelection a b = true -> b <> None -> a <> None.
Proof. destruct a, b; cbn; congruence. Qed.

Lemma pollingEffect_frame fresh prev st :
  coherent 0 st ->
  (isMeasuring prev = isMeasuring st ->
   sameSelection (selectedMachine prev) (selectedMachine st) = true ->
   audioProcessorRef st <> None -> selectedMachine st <> None ->
   animationFrameRef st <> None) ->
  audioProcessorRef (pollingEffect fresh prev st) <> None ->
  selectedMachine (pollingEffect fresh prev st) <> None ->
  animationFrameRef (pollingEffect fresh prev st) <> None.
Proof.
  intros Hco Hsame. destruct_state st. unfold pollingEffect, updateNow.
  cbn [isMeasuring selectedMachine audioProcessorRef animationFrameRef] in *.
  destruct (Bool.eqb (isMeasuring prev) meas) eqn:Em;
    [destruct (sameSelection (selectedMachine prev) sel) eqn:Es|];
    cbn [andb].
  - apply Bool.eqb_prop in Em. cbn. intros Hp Hs. now apply Hsame.
  - unfold coherent in Hco. cbn in Hco.
    destruct af, meas, sel, ap; cbn; try congruence;
      destruct Hco; discriminate.
  - unfold coherent in Hco. cbn in Hco.
    destruct af, meas, sel, ap; cbn; try congruence;
      destruct Hco; discriminate.
Qed.

Lemma step_consistent st occurrence :
  consistent st -> consistent (step st occurrence).
Proof.
  intros [Hmr [Hco Hfr]]. destruct occurrence as [fresh ev].
  rewrite step_eq.
  pose proof (handle_coherent fresh ev st Hco) as Hh.
  set (h := handle fresh ev st) in *.
  assert (Hh' : coherent 0 (metricsEffect h)) by exact Hh.
  pose proof (pollingEffect_coherent 0 fresh st _ Hh') as HP.
  assert (HfrP :
            audioProcessorRef (pollingEffect fresh st (metricsEffect h))
            <> None ->
            selectedMachine (pollingEffect fresh st (metricsEffect h))
            <> None ->
            animationFrameRef (pollingEffect fresh st (metricsEffect h))
            <> None).
  { apply pollingEffect_frame; [exact Hh'|].
    change (isMeasuring (metricsEffect h)) with (isMeasuring h).
    change (selectedMachine (metricsEffect h)) with (selectedMachine h).
    change (audioProcessorRef (metricsEffect h)) with (audioProcessorRef h).
    change (animationFrameRef (metricsEffect h)) with (animationFrameRef h).
    intros Em Es Hp Hs.
    apply handle_frame_kept; [|exact Hp].
    apply Hfr.
    - apply (coherent_held 1 st Hco). rewrite Em.
      now apply (coherent_measuring 0 h Hh).
    - exact (sameSelection_some _ _ Es Hs). }
  set (P := pollingEffect fresh st (metricsEffect h)) in *.
  destruct (countdownEffect_cases fresh P) as [[_ Hce] | [Hnz Hce]];
    rewrite Hce.
  - destruct (stopMeasurement_fields fresh P) as [H1 _].
    split; [reflexivity|]. split.
    + apply (coherent_ext 1 (stopMeasurement fresh P)); try reflexivity.
      apply stopMeasurement_coherent.
    + intros Hp. exfalso. apply Hp. exact H1.
  - split; [reflexivity|]. split; [|exact HfrP].
    apply (coherent_ext 1 P); try reflexivity.
    unfold coherent in *.
    destruct (audioProcessorRef P) as [p|]; [|exact HP].
    destruct HP as [H1 [H2 [[c [Hc Hb]] H4]]].
    repeat (split; [assumption|]). split; [|exact H4].
    exists c. split; [exact Hc|].
    assert (c <> 0%Z) by (intros ->; contradiction). lia.
Qed.

Lemma initialState_consistent savedCalibration savedHistory :
  consistent (initialState savedCalibration savedHistory).
Proof.
  split; [reflexivity|]. split; [unfold coherent; cbn; auto|].
  cbn. congruence.
Qed.

Lemma run_consistent occurrences :
  forall st, consistent st -> consistent (run occurrences st).
Proof.
  induction occurrences as [|o rest IH]; intros st Hst; [exact Hst|].
  cbn [run fold_left]. fold (run rest (step st o)).
  apply IH. now apply step_consistent.
Qed.

Lemma stopMeasurement_history_bound fresh st n :
  (List.length (history st) <= n)%nat -> (50 <= n)%nat ->
  (List.length (history (stopMeasurement fresh st)) <= n)%nat.
Proof.
  intros Hlen Hn. destruct_state st.
  cbn in Hlen. unfold stopMeasurement.
  destruct ap, meas, sel, af; cbn [history saveToHistory setHistory perform
    setAudioProcessorRef setIsMeasuring setCountdown setHasFinishedTest
    setAnimationFrameRef isMeasuring selectedMachine audioProcessorRef
    animationFrameRef metricsRef];
    try exact Hlen;
    (etransitivity; [apply firstn_le_length | exact Hn]).
Qed.

Lemma step_history_bound st occurrence n :
  (List.length (history st) <= n)%nat -> (50 <= n)%nat ->
  (List.length (history (step st occurrence)) <= n)%nat.
Proof.
  intros Hlen Hn. destruct occurrence as [fresh ev].
  assert (Hh : (List.length (history (handle fresh ev st)) <= n)%nat).
  { destruct ev; cbn [handle].
    - exact Hlen.
    - unfold startMeasurement. destruct (selectedMachine st); exact Hlen.
    - unfold startSettled.
      destruct (nth_error (pendingStarts st) k); [|exact Hlen].
      destruct (AudioService.initialize _ dev); exact Hlen.
    - now apply stopMeasurement_history_bound.
    - unfold resetToMenu. cbn. now apply stopMeasurement_history_bound.
    - unfold clearHistory. destruct confirmed; [cbn; lia | exact Hlen].
    - unfold update.
      destruct (isMeasuring st), (selectedMachine st),
        (audioProcessorRef st); exact Hlen.
    - unfold tick. destruct (countdown st) as [c|]; [|exact Hlen].
      destruct (c >? 0)%Z; exact Hlen.
    - unfold handleCalibrationChange. cbn.
      destruct (audioProcessorRef st); exact Hlen. }
  rewrite step_eq.
  destruct (pollingEffect_fields fresh st (metricsEffect (handle fresh ev st)))
    as [_ [_ [_ [_ [Ph _]]]]].
  set (P := pollingEffect fresh st (metricsEffect (handle fresh ev st))) in *.
  assert (HP : (List.length (history P) <= n)%nat) by (rewrite Ph; exact Hh).
  destruct (countdownEffect_cases fresh P) as [[_ Hce] | [_ Hce]];
    rewrite Hce; [|exact HP].
  now apply (stopMeasurement_history_bound fresh P n).
Qed.

Lemma run_history_bound occurrences :
  forall st n,
    (List.length (history st) <= n)%nat -> (50 <= n)%nat ->
    (List.length (history (run occurrences st)) <= n)%nat.
Proof.
  induction occurrences as [|o rest IH]; intros st n Hlen Hn; [exact Hlen|].
  cbn [run fold_left]. fold (run rest (step st o)).
  apply IH; [|exact Hn]. now apply step_history_bound.
Qed.

(** X7.  In every state reached from the first render by any events, an
    awaited start settling at whatever moment it does: a measurement runs
    exactly when a processor is held and exactly when a countdown is set;
    the countdown is between 1 and 10; while a measurement runs the
    finished flag is off and the processor held is initialized (transform
    size 2048); an animation frame is pending only while a measurement
    runs, and is pending whenever one runs with a machine selected; the ref
    holds the published metrics; and a history loaded with at most 50
    records never exceeds 50.  A machine need not be selected while a
    measurement runs. *)
Theorem reachable_state_invariant savedCalibration savedHistory occurrences :
  let st := run occurrences (initialState savedCalibration savedHistory) in
  (isMeasuring st = true <-> audioProcessorRef st <> None)
  /\ (isMeasuring st = true <-> countdown st <> None)
  /\ (forall c, countdown st = Some c -> (1 <= c <= 10)%Z)
  /\ (isMeasuring st = true -> hasFinishedTest st = false)
  /\ (forall p,
         audioProcessorRef st = Some p ->
         exists an ctx s,
           AudioService.analyser p = Some an
           /\ AudioService.audioCtx p = Some ctx
           /\ AudioService.stream p = Some s
           /\ AudioService.fftSize an = 2048%nat)
  /\ (animationFrameRef st <> None -> isMeasuring st = true)
  /\ (isMeasuring st = true -> selectedMachine st <> None ->
      animationFrameRef st <> None)
  /\ metricsRef st = metrics st
  /\ ((List.length
         (history (initialState savedCalibration savedHistory)) <= 50)%nat ->
      (List.length (history st) <= 50)%nat).
Proof.
  intros st.
  destruct (run_consistent occurrences _
              (initialState_consistent savedCalibration savedHistory))
    as [Hmr [Hco Hfr]].
  fold st in Hmr, Hco, Hfr. unfold coherent in Hco.
  assert (Hlen : (List.length
                    (history (initialState savedCalibration savedHistory))
                  <= 50)%nat -> (List.length (history st) <= 50)%nat).
  { intros H0. subst st. apply run_history_bound; [exact H0 | lia]. }
  destruct (audioProcessorRef st) as [p|].
  - destruct Hco as [H1 [H2 [[c [Hc Hb]] H4]]].
    rewrite H1, Hc.
    split; [split; [discriminate | reflexivity]|].
    split; [split; [discriminate | reflexivity]|].
    split; [intros c' Hc'; injection Hc' as <-; exact Hb|].
    split; [auto|].
    split; [intros p' Hp'; injection Hp' as <-; exact H4|].
    split; [auto|].
    split; [intros _; apply Hfr; discriminate|].
    split; [exact Hmr | exact Hlen].
  - destruct Hco as [H1 [H2 H3]]. rewrite H1, H2, H3.
    split; [split; [discriminate | intros H; contradiction]|].
    split; [split; [discriminate | intros H; contradiction]|].
    split; [intros c' Hc'; discriminate|].
    split; [discriminate|].
    split; [intros p' Hp'; discriminate|].
    split; [intros H; contradiction|].
    split; [discriminate|].
    split; [exact Hmr | exact Hlen].
Qed.

Lemma reachable_state_invariant_witness :
  (List.length (history (run (overtakenRun ++ tenSeconds)
                           (initialState None None))) <= 50)%nat.
Proof.
  apply (reachable_state_invariant None None (overtakenRun ++ tenSeconds)).
  cbn. lia.
Defined.

End Reachable.

(* ================================================================== *)
(** * Further properties of the session                                *)
(* ================================================================== *)

Section SessionFurther.

Import App.

(** X8.  A running session does not end before its countdown: from a
    running state with [c] seconds to go, after any frames, calibration
    changes and fewer than [c] seconds of the timer (and no stop or reset)
    the session still runs on the same machine, with the countdown lowered
    by the seconds elapsed and no record produced. *)
Theorem session_lasts_its_countdown occurrences :
  forall st c,
    RUNNING st -> countdown st = Some c ->
    Forall (fun o => quietEvent (snd o) = true) occurrences ->
    (ticks occurrences < c)%Z ->
    let st2 := run occurrences st in
    RUNNING st2
    /\ countdown st2 = Some (c - ticks occurrences)%Z
    /\ selectedMachine st2 = selectedMachine st
    /\ history st2 = history st
    /\ recordsProduced st2 = recordsProduced st.
Proof.
  induction occurrences as [|[fresh ev] rest IH];
    intros st c Hrun Hcd Hall Hticks.
  - cbn. replace (c - 0)%Z with c by lia. auto.
  - inversion Hall as [|? ? Hq Hrest]; subst. cbn [snd] in Hq.
    rewrite ticks_cons in Hticks |- *.
    pose proof (ticks_nonneg rest) as Hnn.
    destruct Hrun as [Hm [Hsel Hap]].
    destruct (quiet_step_fields st fresh ev c Hq Hm Hcd ltac:(lia))
      as [Hm' [Hcd' [Hsel' [Hhist' [Heff' Hap']]]]].
    assert (Hrun' : RUNNING (step st (fresh, ev))).
    { split; [exact Hm'|]. split; [now rewrite Hsel' | now apply Hap']. }
    assert (Hrec' : recordsProduced (step st (fresh, ev)) = recordsProduced st).
    { apply recordsProduced_writes. rewrite Heff', historyWrites_app.
      destruct ev; cbn; apply app_nil_r. }
    destruct (IH (step st (fresh, ev)) (c - ticks [(fresh, ev)])%Z
                Hrun' Hcd' Hrest ltac:(lia))
      as [H1 [H2 [H3 [H4 H5]]]].
    cbv zeta. cbn [run fold_left]. fold (run rest (step st (fresh, ev))).
    split; [exact H1|]. split; [rewrite H2; f_equal; lia|].
    split; [congruence|]. split; congruence.
Qed.

Lemma session_lasts_its_countdown_witness :
  RUNNING (run (repeat (someFresh, TimerTick) 9) runningState)
  /\ countdown (run (repeat (someFresh, TimerTick) 9) runningState)
     = Some (10 - ticks (repeat (someFresh, TimerTick) 9))%Z.
Proof.
  assert (Hall : Forall (fun o => quietEvent (snd o) = true)
                   (repeat (someFresh, TimerTick) 9))
    by (repeat constructor).
  assert (Hrun : RUNNING runningState)
    by (repeat split; vm_compute; discriminate).
  assert (Hcd : countdown runningState = Some 10%Z)
    by (vm_compute; reflexivity).
  destruct (session_lasts_its_countdown (repeat (someFresh, TimerTick) 9)
              runningState 10%Z Hrun Hcd Hall)
    as [H1 [H2 _]].
  - vm_compute. reflexivity.
  - split; [exact H1 | exact H2].
Defined.

(** X9.  In a reachable state with a measurement running and a machine
    selected, the record produced when the session ends (by a stop, by a
    reset, or by the last second of the timer) carries the selected machine
    and the status, decibel value and peak frequency of the metrics
    published last; it is put in front of the history. *)
Theorem record_holds_published_metrics
    savedCalibration savedHistory occurrences fresh machine :
  let st := run occurrences (initialState savedCalibration savedHistory) in
  isMeasuring st = true -> selectedMachine st = Some machine ->
  let expected :=
    firstn 50 (entryOf fresh machine (metrics st) :: history st) in
  history (step st (fresh, StopMeasurement)) = expected
  /\ history (step st (fresh, ResetToMenu)) = expected
  /\ (countdown st = Some 1%Z ->
      history (step st (fresh, TimerTick)) = expected).
Proof.
  intros st Hm Hsel expected.
  destruct (run_consistent occurrences _
              (initialState_consistent savedCalibration savedHistory))
    as [Hmr _].
  fold st in Hmr. subst expected. rewrite <- Hmr.
  split; [apply terminating_step; auto|].
  split; [apply terminating_step; auto|].
  intros Hcd. rewrite Hmr.
  now apply last_second_step.
Qed.

Lemma record_holds_published_metrics_witness :
  history (step (run startedRun (initialState None None))
             (someFresh, StopMeasurement))
  = firstn 50
      (entryOf someFresh washingMachine
         (metrics (run startedRun (initialState None None)))
       :: history (run startedRun (initialState None None))).
Proof.
  refine (proj1 (record_holds_published_metrics None None startedRun someFresh
                   washingMachine _ _)); vm_compute; reflexivity.
Defined.

(** X10.  In a reachable state with a measurement running and a machine
    selected, an animation frame is pending, and the termination path
    releases the audio source once (the tracks are stopped, then the
    context is closed), after that writes the history with the new record,
    and last cancels the pending frame; it makes no other call. *)
Theorem termination_releases_then_records
    savedCalibration savedHistory occurrences fresh machine :
  let st := run occurrences (initialState savedCalibration savedHistory) in
  isMeasuring st = true -> selectedMachine st = Some machine ->
  exists s h,
    animationFrameRef st = Some h
    /\ effects (stopMeasurement fresh st)
       = effects st
         ++ [stopTracks s; closeContext;
             setItem HISTORY_STORAGE_KEY
               (Json (firstn 50
                        (entryOf fresh machine (metrics st) :: history st)));
             cancelAnimationFrame h].
Proof.
  intros st Hm Hsel.
  destruct (run_consistent occurrences _
              (initialState_consistent savedCalibration savedHistory))
    as [Hmr [Hco Hfr]].
  fold st in Hmr, Hco, Hfr. clearbody st.
  destruct_state st.
  unfold coherent in Hco. cbn in Hm, Hsel, Hmr, Hco, Hfr. subst meas sel mr.
  destruct ap as [p|]; [|destruct Hco; discriminate].
  destruct Hco as [_ [_ [_ [an [ctx [s [_ [Hc [Hs _]]]]]]]]].
  destruct af as [h|]; [|exfalso; apply Hfr; congruence].
  exists s, h. split; [reflexivity|].
  unfold stopMeasurement, AudioService.stop.
  cbn. rewrite Hs, Hc. cbn. rewrite <- ?app_assoc. reflexivity.
Qed.

Lemma termination_releases_then_records_witness :
  exists s h,
    animationFrameRef (run startedRun (initialState None None)) = Some h
    /\ effects (stopMeasurement someFresh
                  (run startedRun (initialState None None)))
       = effects (run startedRun (initialState None None))
         ++ [stopTracks s; closeContext;
             setItem HISTORY_STORAGE_KEY
               (Json (firstn 50
                        (entryOf someFresh washingMachine
                           (metrics (run startedRun (initialState None None)))
                         :: history (run startedRun
                                       (initialState None None)))));
             cancelAnimationFrame h].
Proof.
  refine (termination_releases_then_records None None startedRun someFresh
            washingMachine _ _); vm_compute; reflexivity.
Defined.

(** X11.  From any state, [resetToMenu] followed by its render leaves the
    idle state: no machine, nothing running or finished, no countdown, no
    processor, no pending frame, and the zeroed metrics with status [IDLE]
    published and held by the ref.  The calibration is kept, and the
    history is the one the termination path leaves. *)
Theorem reset_reaches_idle fresh st :
  let st' := step st (fresh, ResetToMenu) in
  IDLE_STATE st'
  /\ metrics st' = idleMetrics
  /\ metricsRef st' = idleMetrics
  /\ App.calibrationOffset st' = App.calibrationOffset st
  /\ history st' = history (stopMeasurement fresh st)
  /\ (recordsProduced st' <= S (recordsProduced st))%nat.
Proof.
  intros st'.
  destruct (resetToMenu_fields fresh st)
    as [R1 [R2 [R3 [R4 [R5 [R6 [R7 [R8 [R9 R10]]]]]]]]].
  assert (Hrec : (recordsProduced (stopMeasurement fresh st)
                  <= S (recordsProduced st))%nat).
  { destruct (isMeasuring st) eqn:Hm.
    - destruct (selectedMachine st) as [machine|] eqn:Hsel.
      + destruct (stopMeasurement_running fresh st machine Hm Hsel)
          as [_ [_ [_ [_ [_ [_ [_ Hr]]]]]]].
        rewrite (recordsProduced_one_more _ _ _ Hr). lia.
      + destruct (stopMeasurement_no_record fresh st (or_intror Hsel))
          as [_ Hr].
        rewrite (recordsProduced_writes _ _ Hr). lia.
    - destruct (stopMeasurement_no_record fresh st (or_introl Hm)) as [_ Hr].
      rewrite (recordsProduced_writes _ _ Hr). lia. }
  unfold recordsProduced in Hrec |- *. rewrite <- R10 in Hrec.
  rewrite <- R9. subst st'. rewrite step_eq. cbn [handle].
  generalize dependent (resetToMenu fresh st). intros r R1 R2 R3 R4 R5 R6 R7 R8 Hrec.
  rewrite pollingEffect_stopped; [|exact R2|exact R6].
  rewrite countdownEffect_none; [|exact R4].
  unfold IDLE_STATE.
  destruct r as [sel meas fin met fd cal hist cd ap af mr eff pend].
  cbn in *. repeat split; assumption.
Qed.

(** X17.  From any state in which a measurement runs on a selected
    machine with [c] seconds to go, after any stops, resets, frames,
    seconds and calibration changes: while the session still runs the
    history and the store are untouched; once it is over the history is
    the earlier one with exactly one record of that machine put in front
    (cut to 50), and exactly one write, of that history, has gone to the
    store, however many stops, resets and seconds follow.  A stop, a reset
    and the [c]-th second each end it. *)
Theorem running_session_yields_one_record st machine c occurrences :
  isMeasuring st = true -> selectedMachine st = Some machine ->
  countdown st = Some c -> (0 < c)%Z ->
  Forall (fun o => sessionEvent (snd o) = true) occurrences ->
  let st2 := run occurrences st in
  (isMeasuring st2 = true ->
   history st2 = history st
   /\ historyWrites (effects st2) = historyWrites (effects st))
  /\ (isMeasuring st2 = false ->
      (exists fresh finalMetrics,
          history st2
          = firstn 50 (entryOf fresh machine finalMetrics :: history st))
      /\ historyWrites (effects st2)
         = historyWrites (effects st) ++ [history st2]
      /\ recordsProduced st2 = S (recordsProduced st))
  /\ ((exists f, In (f, StopMeasurement) occurrences
                 \/ In (f, ResetToMenu) occurrences)
      -> isMeasuring st2 = false)
  /\ ((c <= ticks occurrences)%Z -> isMeasuring st2 = false).
Proof.
  intros Hm Hsel Hcd Hpos Hall st2.
  assert (Hinv0 : sessionInvariant machine (history st)
                    (historyWrites (effects st)) c st).
  { right. repeat split; auto. }
  pose proof (run_invariant machine (history st) (historyWrites (effects st))
                occurrences c st Hall Hinv0) as Hinv.
  fold st2 in Hinv.
  split; [|split; [|split]].
  - intros Hm2.
    destruct Hinv as [[H1 _] | [_ [_ [H3 [H4 _]]]]]; [congruence | auto].
  - intros Hm2.
    destruct Hinv as [[_ [H2 H3]] | [H1 _]]; [|congruence].
    split; [exact H2|]. split; [exact H3|].
    now apply (recordsProduced_one_more st st2 (history st2)).
  - intros [f Hin].
    assert (Hsplit : exists ev l1 l2,
               (ev = StopMeasurement \/ ev = ResetToMenu)
               /\ occurrences = l1 ++ (f, ev) :: l2).
    { destruct Hin as [Hin | Hin];
        destruct (in_split _ _ Hin) as [l1 [l2 Heq]];
        eexists; exists l1, l2; (split; [|exact Heq]); auto. }
    destruct Hsplit as [ev [l1 [l2 [Hev Heq]]]].
    subst st2. rewrite Heq, run_app. cbn [run fold_left].
    fold (run l2 (step (run l1 st) (f, ev))).
    apply run_stopped.
    + rewrite Heq in Hall. apply Forall_app in Hall.
      destruct Hall as [_ Hall]. now inversion Hall.
    + now apply step_terminates.
  - intros Hticks.
    destruct Hinv as [[H1 _] | [_ [_ [_ [_ [_ Hleft]]]]]]; [exact H1 | lia].
Qed.

Lemma running_session_yields_one_record_witness :
  isMeasuring (run tenSeconds runningState) = false
  /\ recordsProduced (run tenSeconds runningState)
     = S (recordsProduced runningState).
Proof.
  assert (Hall : Forall (fun o => sessionEvent (snd o) = true) tenSeconds)
    by (repeat constructor).
  assert (Hm : isMeasuring runningState = true) by (vm_compute; reflexivity).
  assert (Hsel : selectedMachine runningState = Some washingMachine)
    by (vm_compute; reflexivity).
  assert (Hcd : countdown runningState = Some 10%Z)
    by (vm_compute; reflexivity).
  destruct (running_session_yields_one_record runningState washingMachine
              10%Z tenSeconds Hm Hsel Hcd ltac:(lia) Hall)
    as [_ [Hover [_ Hexpiry]]].
  assert (Hend : isMeasuring (run tenSeconds runningState) = false)
    by (apply Hexpiry; vm_compute; discriminate).
  split; [exact Hend|]. exact (proj2 (proj2 (Hover Hend))).
Defined.

Lemma nth_error_last {A} (l : list A) (x : A) :
  nth_error (l ++ [x]) (List.length l) = Some x.
Proof.
  rewrite nth_error_app2 by lia. now rewrite Nat.sub_diag.
Qed.

Lemma remove_last {A} (l : list A) (x : A) :
  firstn (List.length l) (l ++ [x]) ++ skipn (S (List.length l)) (l ++ [x])
  = l.
Proof.
  rewrite firstn_app, Nat.sub_diag, firstn_all. cbn [firstn].
  rewrite skipn_all2 by (rewrite length_app; cbn; lia).
  now rewrite !app_nil_r.
Qed.

(** X18.  In a reachable state with a machine selected and no measurement
    running, asking for a start changes nothing yet: a processor built with
    the calibration of that moment waits for the microphone.  When the
    microphone is then granted (no other event in between), the session
    runs with that processor, initialized, ten seconds to go and the
    finished flag off; the first poll is published at once and a frame is
    requested; nothing is recorded.  When it is refused, only the notice is
    raised: no measurement runs and nothing is recorded. *)
Theorem start_outcomes
    savedCalibration savedHistory occurrences f1 f2 machine dev :
  let st := run occurrences (initialState savedCalibration savedHistory) in
  selectedMachine st = Some machine -> isMeasuring st = false ->
  let asked := step st (f1, StartMeasurement) in
  let st1 :=
    step asked (f2, StartSettled (List.length (pendingStarts st)) dev) in
  (isMeasuring asked = false
   /\ effects asked = effects st
   /\ pendingStarts asked
      = pendingStarts st ++ [AudioService.new (App.calibrationOffset st)])
  /\ (forall p,
         AudioService.initialize
           (AudioService.new (App.calibrationOffset st)) dev = Some p ->
         RUNNING st1
         /\ audioProcessorRef st1 = Some p
         /\ AudioService.calibrationOffset p = App.calibrationOffset st
         /\ countdown st1 = Some 10%Z
         /\ hasFinishedTest st1 = false
         /\ metrics st1 = AudioService.getMetrics p machine
         /\ metricsRef st1 = metrics st1
         /\ animationFrameRef st1 = Some (animationFrame f2)
         /\ history st1 = history st
         /\ effects st1 = effects st)
  /\ (AudioService.userMedia dev = None ->
      isMeasuring st1 = false
      /\ audioProcessorRef st1 = None
      /\ countdown st1 = None
      /\ selectedMachine st1 = Some machine
      /\ history st1 = history st
      /\ effects st1
         = effects st
           ++ [alert "Microphone access is required for acoustic diagnostics."]).
Proof.
  intros st Hsel Hm asked st1.
  destruct (run_consistent occurrences _
              (initialState_consistent savedCalibration savedHistory))
    as [Hmr [Hco _]].
  fold st in Hmr, Hco. clearbody st.
  destruct_state st. unfold coherent in Hco.
  cbn in Hsel, Hm, Hmr, Hco. subst sel meas mr.
  destruct ap as [p0|]; [destruct Hco; discriminate|].
  destruct Hco as [_ [Hcd Haf]]. subst cd af.
  assert (Hasked : asked
                   = {| selectedMachine := Some machine; isMeasuring := false;
                        hasFinishedTest := fin; metrics := met;
                        freqData := fd; calibrationOffset := cal;
                        history := hist; countdown := None;
                        audioProcessorRef := None; animationFrameRef := None;
                        metricsRef := met; effects := eff;
                        pendingStarts := pend ++ [AudioService.new cal] |}).
  { subst asked. rewrite step_eq. cbn [handle]. unfold startMeasurement.
    cbn [selectedMachine]. rewrite pollingEffect_stopped by reflexivity.
    reflexivity. }
  split; [rewrite Hasked; repeat split|].
  cbn [pendingStarts App.calibrationOffset history effects] in *.
  assert (Hsettle : handle f2 (StartSettled (List.length pend) dev) asked
                    = match AudioService.initialize (AudioService.new cal) dev
                      with
                      | Some p =>
                          {| selectedMachine := Some machine;
                             isMeasuring := true;
                             hasFinishedTest := false; metrics := met;
                             freqData := fd; calibrationOffset := cal;
                             history := hist; countdown := Some 10%Z;
                             audioProcessorRef := Some p;
                             animationFrameRef := None;
                             metricsRef := met; effects := eff;
                             pendingStarts := pend |}
                      | None =>
                          {| selectedMachine := Some machine;
                             isMeasuring := false;
                             hasFinishedTest := fin; metrics := met;
                             freqData := fd; calibrationOffset := cal;
                             history := hist; countdown := None;
                             audioProcessorRef := None;
                             animationFrameRef := None;
                             metricsRef := met;
                             effects :=
                               eff ++ [alert "Microphone access is required for acoustic diagnostics."];
                             pendingStarts := pend |}
                      end).
  { rewrite Hasked. cbn [handle]. unfold startSettled.
    cbn [pendingStarts]. rewrite nth_error_last, remove_last.
    destruct (AudioService.initialize (AudioService.new cal) dev);
      reflexivity. }
  split.
  - intros p Hp. subst st1. rewrite step_eq, Hsettle, Hp.
    rewrite Hasked.
    assert (Hcal : AudioService.calibrationOffset p = cal).
    { unfold AudioService.initialize in Hp.
      destruct (AudioService.userMedia dev); [|discriminate].
      injection Hp as <-. reflexivity. }
    unfold RUNNING. cbn.
    repeat split; auto; discriminate.
  - intros Hnone. subst st1. rewrite step_eq, Hsettle.
    unfold AudioService.initialize. rewrite Hnone.
    rewrite pollingEffect_stopped by reflexivity.
    repeat split.
Qed.

Lemma start_outcomes_witness :
  RUNNING runningState
  /\ countdown runningState = Some 10%Z
  /\ metrics runningState
     = AudioService.getMetrics (silentProcessor (Fin (-20))) washingMachine
  /\ animationFrameRef runningState = Some 1%positive.
Proof.
  destruct (start_outcomes None None [(someFresh, SelectMachine washingMachine)]
              someFresh someFresh washingMachine silentDevice
              ltac:(vm_compute; reflexivity) ltac:(vm_compute; reflexivity))
    as [_ [Hgranted _]].
  destruct (Hgranted (silentProcessor (Fin (-20)))
              ltac:(vm_compute; reflexivity))
    as [H1 [_ [_ [H4 [_ [H6 [_ [H8 _]]]]]]]].
  split; [exact H1|]. split; [exact H4|]. split; [exact H6 | exact H8].
Defined.

End SessionFurther.

(* ================================================================== *)
(** * The calibration during a measurement                             *)
(* ================================================================== *)

Section HotSwap.

Import App.



End HotSwap.

(* ================================================================== *)
(** * What a reload finds                                              *)
(* ================================================================== *)

Section Reload.

Import App.
Import Persistence.

Lemma storeAfter_app store es es' :
  storeAfter store (es ++ es') = storeAfter (storeAfter store es) es'.
Proof. unfold storeAfter. apply fold_left_app. Qed.

Lemma savedHistoryIn_set store h :
  savedHistoryIn (applyEffect store (setItem HISTORY_STORAGE_KEY (Json h)))
  = Some (map jsonEntry h).
Proof. reflexivity. Qed.

Lemma savedHistoryIn_remove store :
  savedHistoryIn (applyEffect store (removeItem HISTORY_STORAGE_KEY)) = None.
Proof. reflexivity. Qed.

Lemma savedHistoryIn_calibration store v :
  savedHistoryIn (applyEffect store (setItem CALIBRATION_STORAGE_KEY v))
  = savedHistoryIn store.
Proof. reflexivity. Qed.

Lemma savedCalibrationIn_set store val :
  savedCalibrationIn
    (applyEffect store (setItem CALIBRATION_STORAGE_KEY (Text val)))
  = Some val.
Proof. reflexivity. Qed.

Lemma savedCalibrationIn_history store v :
  savedCalibrationIn (applyEffect store (setItem HISTORY_STORAGE_KEY v))
  = savedCalibrationIn store.
Proof. reflexivity. Qed.

Lemma savedCalibrationIn_remove store :
  savedCalibrationIn (applyEffect store (removeItem HISTORY_STORAGE_KEY))
  = savedCalibrationIn store.
Proof. reflexivity. Qed.

Lemma stop_leaves_store store (p : AudioService.AudioProcessor) :
  storeAfter store (AudioService.stop p) = store.
Proof.
  unfold AudioService.stop.
  destruct (AudioService.stream p), (AudioService.audioCtx p); reflexivity.
Qed.

(** A state that differs from another in cells the store does not see, and
    has made calls besides that leave the store alone, is persisted as the
    other is. *)
Lemma persisted_ext store st st' es :
  history st' = history st ->
  App.calibrationOffset st' = App.calibrationOffset st ->
  effects st' = effects st ++ es ->
  (forall s, storeAfter s es = s) ->
  (historyPersisted store st -> historyPersisted store st')
  /\ (calibrationPersisted store st -> calibrationPersisted store st').
Proof.
  intros Hh Hc He Hes. unfold historyPersisted, calibrationPersisted.
  rewrite Hh, Hc, He, storeAfter_app, Hes. auto.
Qed.

Lemma stopMeasurement_persisted store fresh st :
  (historyPersisted store st -> historyPersisted store (stopMeasurement fresh st))
  /\ (calibrationPersisted store st ->
      calibrationPersisted store (stopMeasurement fresh st)).
Proof.
  destruct_state st.
  unfold historyPersisted, calibrationPersisted, reload, stopMeasurement.
  destruct ap as [p|], meas, sel as [m|], af as [h|];
    cbn [history calibrationOffset initialState effects saveToHistory
         setHistory perform setAudioProcessorRef setIsMeasuring setCountdown
         setHasFinishedTest setAnimationFrameRef isMeasuring selectedMachine
         audioProcessorRef animationFrameRef metricsRef];
    rewrite <- ?app_assoc, ?storeAfter_app, ?stop_leaves_store;
    cbn [storeAfter fold_left app];
    rewrite ?savedHistoryIn_set, ?savedCalibrationIn_history;
    split; intros H; try exact H; try reflexivity.
Qed.

Lemma pollingEffect_persisted store fresh prev st :
  (historyPersisted store st ->
   historyPersisted store (pollingEffect fresh prev st))
  /\ (calibrationPersisted store st ->
      calibrationPersisted store (pollingEffect fresh prev st)).
Proof.
  destruct_state st. unfold pollingEffect, updateNow.
  destruct (_ && _); [auto|].
  destruct af as [h|], meas, sel, ap; cbn;
    solve [ auto
          | apply (persisted_ext store _ _ [cancelAnimationFrame h]);
            reflexivity ].
Qed.

Lemma afterRender_persisted store fresh prev st :
  (historyPersisted store st ->
   historyPersisted store (afterRender fresh prev st))
  /\ (calibrationPersisted store st ->
      calibrationPersisted store (afterRender fresh prev st)).
Proof.
  rewrite afterRender_eq. unfold commit.
  assert (H0 : (historyPersisted store st ->
                historyPersisted store (metricsEffect st))
               /\ (calibrationPersisted store st ->
                   calibrationPersisted store (metricsEffect st)))
    by (split; intros H; exact H).
  destruct (pollingEffect_persisted store fresh prev (metricsEffect st))
    as [P1 P2].
  set (P := pollingEffect fresh prev (metricsEffect st)) in *.
  assert (HC : (historyPersisted store P ->
                historyPersisted store (countdownEffect fresh P))
               /\ (calibrationPersisted store P ->
                   calibrationPersisted store (countdownEffect fresh P))).
  { destruct (countdownEffect_cases fresh P) as [[_ Hce] | [_ Hce]];
      rewrite Hce; [apply stopMeasurement_persisted | auto]. }
  generalize dependent (countdownEffect fresh P). intros C [C1 C2].
  split; intros H.
  - apply (C1 (P1 (proj1 H0 H))).
  - apply (C2 (P2 (proj2 H0 H))).
Qed.

Lemma handle_history_persisted store fresh ev st :
  historyPersisted store st -> historyPersisted store (handle fresh ev st).
Proof.
  intros H. destruct ev; cbn [handle].
  - exact H.
  - unfold startMeasurement. destruct (selectedMachine st); exact H.
  - unfold startSettled.
    destruct (nth_error (pendingStarts st) k); [|exact H].
    destruct (AudioService.initialize _ dev); [exact H|].
    unfold historyPersisted, reload in *.
    cbn [effects perform history setPendingStarts].
    rewrite storeAfter_app. exact H.
  - now apply stopMeasurement_persisted.
  - apply (stopMeasurement_persisted store fresh st) in H.
    exact H.
  - unfold clearHistory. destruct confirmed; [|exact H].
    unfold historyPersisted, reload. cbn [effects perform setHistory history].
    rewrite storeAfter_app. reflexivity.
  - unfold update.
    destruct (isMeasuring st), (selectedMachine st), (audioProcessorRef st);
      exact H.
  - unfold tick. destruct (countdown st) as [c|]; [|exact H].
    destruct (c >? 0)%Z; exact H.
  - unfold handleCalibrationChange.
    unfold historyPersisted, reload in *.
    destruct (audioProcessorRef _);
      cbn [effects perform setCalibrationOffset setAudioProcessorRef history
           initialState];
      rewrite storeAfter_app; cbn [storeAfter fold_left];
      rewrite savedHistoryIn_calibration; exact H.
Qed.

Lemma step_history_persisted store st occurrence :
  historyPersisted store st -> historyPersisted store (step st occurrence).
Proof.
  intros H. destruct occurrence as [fresh ev].
  apply (handle_history_persisted store fresh ev) in H.
  unfold step. cbn [fst snd]. now apply afterRender_persisted.
Qed.

Lemma jsonEntry_finite (e : HistoryEntry.t) :
  finiteEntry e -> jsonEntry e = e.
Proof.
  destruct e as [i mi mn ts stat d pf]. unfold finiteEntry. cbn.
  intros [[x ->] [y ->]]. reflexivity.
Qed.

Lemma map_jsonEntry_finite (h : list HistoryEntry.t) :
  Forall finiteEntry h -> map jsonEntry h = h.
Proof.
  induction 1 as [|e rest He _ IH]; [reflexivity|].
  cbn [map]. now rewrite jsonEntry_finite, IH.
Qed.

(** X13.  Along any run from the first render, the history a reload would
    read from the store is the history the component holds as
    [JSON.stringify] and [JSON.parse] give it back: every record produced
    and every clearing of the log reaches the store, and in a record a
    decibel value or peak frequency that is not finite comes back as
    [null].  When the numbers of all records held are finite, the reload
    reads the very history the component holds. *)
Theorem history_survives_reload savedCalibration savedHistory occurrences :
  let st := run occurrences (initialState savedCalibration savedHistory) in
  let reloaded :=
    reload (storeAfter (initialStore savedCalibration savedHistory)
              (effects st)) in
  history reloaded = map jsonEntry (history st)
  /\ (Forall finiteEntry (history st) -> history reloaded = history st).
Proof.
  cbv zeta.
  assert (H0 : historyPersisted (initialStore savedCalibration savedHistory)
                 (initialState savedCalibration savedHistory)).
  { unfold historyPersisted, reload. cbn.
    destruct savedHistory; reflexivity. }
  assert (H : historyPersisted (initialStore savedCalibration savedHistory)
                (run occurrences
                   (initialState savedCalibration savedHistory))).
  { revert H0. generalize (initialState savedCalibration savedHistory).
    induction occurrences as [|o rest IH]; intros st H0; [exact H0|].
    cbn [run fold_left]. fold (run rest (step st o)).
    apply IH. now apply step_history_persisted. }
  split; [exact H|].
  intros Hfin. exact (eq_trans H (map_jsonEntry_finite _ Hfin)).
Qed.

Lemma fullHistory_finite : Forall finiteEntry fullHistory.
Proof.
  unfold fullHistory. apply Forall_map, Forall_forall. intros i _.
  split; eexists; reflexivity.
Qed.

Lemma history_survives_reload_witness :
  history
    (reload (storeAfter (initialStore None (Some fullHistory))
               (effects (run startedRun
                           (initialState None (Some fullHistory))))))
  = history (run startedRun (initialState None (Some fullHistory))).
Proof.
  apply (history_survives_reload None (Some fullHistory) startedRun).
  assert (Hh : history (run startedRun (initialState None (Some fullHistory)))
               = fullHistory) by (vm_compute; reflexivity).
  rewrite Hh. exact fullHistory_finite.
Defined.

Lemma handle_calibration_persisted store fresh ev st :
  ev <> CalibrationChange "" ->
  calibrationPersisted store st ->
  calibrationPersisted store (handle fresh ev st).
Proof.
  intros Hne H. destruct ev; cbn [handle].
  - exact H.
  - unfold startMeasurement. destruct (selectedMachine st); exact H.
  - unfold startSettled.
    destruct (nth_error (pendingStarts st) k); [|exact H].
    destruct (AudioService.initialize _ dev); [exact H|].
    unfold calibrationPersisted, reload in *.
    cbn [effects perform calibrationOffset setPendingStarts].
    rewrite storeAfter_app. exact H.
  - now apply stopMeasurement_persisted.
  - apply (stopMeasurement_persisted store fresh st) in H.
    exact H.
  - unfold clearHistory. destruct confirmed; [|exact H].
    unfold calibrationPersisted, reload in *.
    cbn [effects perform setHistory calibrationOffset].
    rewrite storeAfter_app. exact H.
  - unfold update.
    destruct (isMeasuring st), (selectedMachine st), (audioProcessorRef st);
      exact H.
  - unfold tick. destruct (countdown st) as [c|]; [|exact H].
    destruct (c >? 0)%Z; exact H.
  - unfold handleCalibrationChange.
    unfold calibrationPersisted, reload.
    destruct val as [|ch rest]; [contradiction|].
    destruct (audioProcessorRef _);
      cbn [effects perform setCalibrationOffset setAudioProcessorRef
           calibrationOffset initialState];
      rewrite storeAfter_app; cbn [storeAfter fold_left];
      rewrite savedCalibrationIn_set; reflexivity.
Qed.

Lemma step_calibration_persisted store st occurrence :
  snd occurrence <> CalibrationChange "" ->
  calibrationPersisted store st ->
  calibrationPersisted store (step st occurrence).
Proof.
  intros Hne H. destruct occurrence as [fresh ev]. cbn [snd] in Hne.
  apply (handle_calibration_persisted store fresh ev st Hne) in H.
  unfold step. cbn [fst snd]. now apply afterRender_persisted.
Qed.

(** X14.  Along any run from the first render in which no calibration
    request carries the empty text, the calibration a reload would read
    from the store is the one the component holds.  The empty text is the
    exception: the component then holds [NaN], and the reload, finding a
    falsy text, takes the default of -20. *)
Theorem calibration_survives_reload
    savedCalibration savedHistory occurrences :
  let store := initialStore savedCalibration savedHistory in
  let st := run occurrences (initialState savedCalibration savedHistory) in
  (noEmptyCalibration occurrences ->
   App.calibrationOffset (reload (storeAfter store (effects st)))
   = App.calibrationOffset st)
  /\ App.calibrationOffset (handleCalibrationChange "" st) = NaN
  /\ App.calibrationOffset
       (reload (storeAfter store (effects (handleCalibrationChange "" st))))
     = Fin (-20).
Proof.
  cbv zeta. split; [|split].
  - assert (H0 : calibrationPersisted
                   (initialStore savedCalibration savedHistory)
                   (initialState savedCalibration savedHistory)).
    { unfold calibrationPersisted, reload. cbn.
      destruct savedCalibration as [[|c r]|]; reflexivity. }
    revert H0. generalize (initialState savedCalibration savedHistory).
    induction occurrences as [|o rest IH]; intros st H0 Hall; [exact H0|].
    inversion Hall as [|? ? Ho Hrest]; subst.
    cbn [run fold_left]. fold (run rest (step st o)).
    apply IH; [|exact Hrest]. now apply step_calibration_persisted.
  - unfold handleCalibrationChange.
    destruct (audioProcessorRef _); reflexivity.
  - unfold handleCalibrationChange, reload.
    destruct (audioProcessorRef _);
      cbn [effects perform setCalibrationOffset setAudioProcessorRef];
      rewrite storeAfter_app; cbn [storeAfter fold_left];
      rewrite savedCalibrationIn_set; reflexivity.
Qed.

Lemma calibration_survives_reload_witness :
  App.calibrationOffset
    (reload (storeAfter (initialStore None None)
               (effects (run ((someFresh, CalibrationChange "0.5")
                              :: startedRun)
                           (initialState None None)))))
  = App.calibrationOffset
      (run ((someFresh, CalibrationChange "0.5") :: startedRun)
         (initialState None None)).
Proof.
  apply (calibration_survives_reload None None
           ((someFresh, CalibrationChange "0.5") :: startedRun)).
  repeat constructor; discriminate.
Defined.

End Reload.

(* ================================================================== *)
(** * The spectrum drawing                                             *)
(* ================================================================== *)

Section Drawing.

Import FrequencyVisualizer.

Lemma bars_length data len i x barWidth h :
  List.length (bars data len i x barWidth h) = List.length data.
Proof.
  revert i x. induction data as [|d rest IH]; intros i x; [reflexivity|].
  cbn [bars List.length]. now rewrite IH.
Qed.

(** The [j]-th bar of the loop entered at index [i] and left edge [x0]. *)
Lemma bars_nth data :
  forall (len : R) (i : Z) (x0 bw h : R) (j : nat) (d : byte),
    len <> 0 ->
    nth_error data j = Some d ->
    exists r g x y bh : R,
      nth_error (bars data (Fin len) i (Fin x0) (Fin bw) (Fin h)) j
      = Some (fillRect (Fin r, Fin g, Fin 50) (Fin x) (Fin y) (Fin bw) (Fin bh))
      /\ r = IZR (byteZ d) + 25 * (IZR (i + Z.of_nat j) / len)
      /\ g = 250 * (IZR (i + Z.of_nat j) / len)
      /\ x = x0 + INR j * (bw + 1)
      /\ bh = IZR (byteZ d) / 255 * h
      /\ y = h - bh.
Proof.
  induction data as [|d0 rest IH]; intros len i x0 bw h j d Hlen Hj.
  - destruct j; discriminate.
  - destruct j as [|j].
    + cbn in Hj. injection Hj as <-.
      cbn [bars nth_error]. unfold of_byte, of_Z, sub, neg.
      rewrite !div_Fin by (try exact Hlen; lra). cbn [mul add].
      do 5 eexists. split; [reflexivity|].
      cbn [Z.of_nat INR]. rewrite Z.add_0_r.
      repeat split; lra.
    + cbn in Hj. cbn [bars nth_error add].
      destruct (IH len (i + 1)%Z (x0 + (bw + 1)) bw h j d Hlen Hj)
        as [r [g [x [y [bh [Hnth [Hr [Hg [Hx [Hbh Hy]]]]]]]]]].
      exists r, g, x, y, bh. split; [exact Hnth|].
      replace (i + Z.of_nat (S j))%Z with (i + 1 + Z.of_nat j)%Z by lia.
      rewrite S_INR. repeat split; try assumption. lra.
Qed.

(** X15.  On a canvas with a 2D context and a non-empty array of [n]
    bytes, the drawing clears the canvas and then fills one bar per byte,
    in order.  Bar [j] has its left edge at [j * (2.5 * width / n + 1)], the
    width [2.5 * width / n] and the height [byte / 255 * height]; it stands
    on the bottom edge and stays within the height of the canvas; its left
    edge is at least [j], so the bars from index [width] on begin at or
    beyond the right edge.  The red component lies in [0, 280) and the green
    one in [0, 250).  Without a canvas or a context nothing is drawn, and an
    empty array only clears. *)
Theorem bars_geometry (c : Canvas) (data : list byte) :
  draw None data = []
  /\ (context2d c = false -> draw (Some c) data = [])
  /\ (context2d c = true ->
      draw (Some c) [] = [clearRect (Fin 0) (Fin 0) (of_Z (width c))
                            (of_Z (height c))])
  /\ (context2d c = true -> data <> [] ->
      (0 <= width c)%Z -> (0 <= height c)%Z ->
      let n := INR (List.length data) in
      let w := IZR (width c) in
      let h := IZR (height c) in
      exists rects,
        draw (Some c) data = clearRect (Fin 0) (Fin 0) (Fin w) (Fin h) :: rects
        /\ List.length rects = List.length data
        /\ forall j d,
             nth_error data j = Some d ->
             exists r g x y bh : R,
               nth_error rects j
               = Some (fillRect (Fin r, Fin g, Fin 50) (Fin x) (Fin y)
                         (Fin (w / n * 2.5)) (Fin bh))
               /\ x = INR j * (w / n * 2.5 + 1)
               /\ bh = IZR (byteZ d) / 255 * h
               /\ y + bh = h
               /\ 0 <= y <= h /\ 0 <= bh <= h
               /\ INR j <= x
               /\ (w <= INR j -> w <= x)
               /\ 0 <= r < 280 /\ 0 <= g < 250).
Proof.
  split; [reflexivity|]. split.
  { intros Hctx. unfold draw. now rewrite Hctx. }
  split.
  { intros Hctx. unfold draw. now rewrite Hctx. }
  intros Hctx Hne Hw Hh n w h.
  assert (Hn : 1 <= n).
  { subst n. replace 1 with (INR 1) by reflexivity. apply le_INR.
    destruct data; [contradiction | cbn; lia]. }
  assert (Hw0 : 0 <= w) by (apply IZR_le; exact Hw).
  assert (Hh0 : 0 <= h) by (apply IZR_le; exact Hh).
  assert (Hbw : 0 <= w / n * 2.5).
  { apply Rmult_le_pos; [|lra]. apply Rmult_le_pos; [exact Hw0|].
    left. apply Rinv_0_lt_compat. lra. }
  unfold draw. rewrite Hctx. unfold of_nat, of_Z. fold n w h.
  rewrite div_Fin by lra. cbn [mul].
  eexists. split; [reflexivity|]. split; [apply bars_length|].
  intros j d Hj.
  destruct (bars_nth data n 0 0 (w / n * 2.5) h j d ltac:(lra) Hj)
    as [r [g [x [y [bh [Hnth [Hr [Hg [Hx [Hbh Hy]]]]]]]]]].
  exists r, g, x, y, bh. split; [exact Hnth|].
  assert (Hjn : INR j + 1 <= n).
  { subst n. rewrite <- S_INR. apply le_INR.
    apply Nat.le_succ_l. apply nth_error_Some. now rewrite Hj. }
  assert (Hj0 : 0 <= INR j) by apply pos_INR.
  pose proof (byteZ_range d) as Hd.
  assert (Hd' : 0 <= IZR (byteZ d) <= 255) by (split; apply IZR_le; lia).
  assert (Hfrac : 0 <= IZR (byteZ d) / 255 <= 1) by lra.
  assert (Hbh0 : 0 <= bh <= h) by (rewrite Hbh; nra).
  assert (Hx' : x = INR j * (w / n * 2.5 + 1)) by (rewrite Hx; lra).
  assert (Hxj : INR j <= x) by (rewrite Hx'; nra).
  assert (Hratio : 0 <= INR j / n < 1).
  { assert (Hinv : 0 < / n) by (apply Rinv_0_lt_compat; lra).
    split; [unfold Rdiv; nra|].
    apply Rmult_lt_reg_r with (r := n); [lra|].
    replace (INR j / n * n) with (INR j) by (field; lra). lra. }
  assert (Hidx : IZR (0 + Z.of_nat j) = INR j).
  { rewrite Z.add_0_l. symmetry. apply INR_IZR_INZ. }
  rewrite Hidx in Hr, Hg.
  split; [exact Hx'|]. split; [exact Hbh|]. split; [lra|].
  split; [lra|]. split; [exact Hbh0|]. split; [exact Hxj|].
  split; [lra|]. split; lra.
Qed.

Lemma bars_geometry_witness :
  exists rects,
    draw (Some canvas400) [x10; xff]
    = clearRect (Fin 0) (Fin 0) (Fin 400) (Fin 128) :: rects
    /\ List.length rects = 2%nat.
Proof.
  destruct (proj2 (proj2 (proj2 (bars_geometry canvas400 [x10; xff])))
              eq_refl ltac:(discriminate) ltac:(cbn; lia) ltac:(cbn; lia))
    as [rects [Hdraw [Hlen _]]].
  exists rects. split; [exact Hdraw | exact Hlen].
Defined.

(** X16.  On the canvas of the component (400 wide) with the 1024
    magnitudes of an initialized processor, bar [j] begins left of the right
    edge exactly when [j < 203]: the bars of the other 821 bins begin
    outside the canvas. *)
Theorem bars_on_canvas (data : list byte) (j : nat) (d : byte) :
  List.length data = 1024%nat -> nth_error data j = Some d ->
  exists style x y bw bh,
    nth_error (draw (Some canvas400) data) (S j)
    = Some (fillRect style (Fin x) y bw bh)
    /\ x = INR j * 253 / 128
    /\ (x < 400 <-> (j < 203)%nat).
Proof.
  intros Hlen Hj.
  assert (Hne : data <> []) by (intros ->; discriminate).
  destruct (proj2 (proj2 (proj2 (bars_geometry canvas400 data)))
              eq_refl Hne ltac:(cbn; lia) ltac:(cbn; lia))
    as [rects [Hdraw [_ Hbars]]].
  destruct (Hbars j d Hj) as [r [g [x [y [bh [Hnth [Hx _]]]]]]].
  rewrite Hlen in Hnth, Hx.
  assert (H1024 : INR 1024 = 1024) by (rewrite INR_IZR_INZ; reflexivity).
  rewrite H1024 in Hx. cbn [width canvas400] in Hx.
  exists (Fin r, Fin g, Fin 50), x, (Fin y), (Fin (400 / INR 1024 * 2.5)),
         (Fin bh).
  rewrite Hdraw. cbn [nth_error]. split; [exact Hnth|].
  assert (Hx' : x = INR j * 253 / 128) by (rewrite Hx; lra).
  split; [exact Hx'|]. rewrite Hx'. rewrite INR_IZR_INZ. split.
  - intros Hlt. assert (H : IZR (Z.of_nat j) < 203).
    { destruct (Rlt_le_dec (IZR (Z.of_nat j)) 203) as [Hok | Hbad];
        [exact Hok | lra]. }
    apply lt_IZR in H. lia.
  - intros Hlt. assert (H : IZR (Z.of_nat j) <= 202) by (apply IZR_le; lia).
    lra.
Qed.

Lemma bars_on_canvas_witness :
  exists style x y bw bh,
    nth_error (draw (Some canvas400) (repeat x00 1024)) (S 3)
    = Some (fillRect style (Fin x) y bw bh)
    /\ x = INR 3 * 253 / 128
    /\ (x < 400 <-> (3 < 203)%nat).
Proof.
  exact (bars_on_canvas (repeat x00 1024) 3 x00 eq_refl eq_refl).
Defined.

End Drawing.
